(** * Order and transaction handlers of the storefront backend

    A shallow embedding of [src/controllers/order.controller.ts] (class
    [OrderController]) and of [refundTransaction] of the transaction
    controller, with the properties the specification states about them.

    - JavaScript numbers are IEEE 754 doubles: [float] with the kernel's
      primitive operations.  A number a handler sends to the database
      goes through JSON, which has no [NaN] and no infinity: the numeric
      columns hold a number or [null].
    - Strings are the bytes of their UTF-8 encoding; [toLowerCase] is
      supplied by the environment of a request.
    - The hosted database is a record of tables, each a list of rows.
    - A handler is a computation in a state-and-exception monad over the
      database; every awaited remote call asks an environment for its
      outcome (done, error returned, exception raised) and is recorded in
      a log, so that the order of side effects can be stated. *)

From Stdlib Require Import PrimFloat String Ascii List ZArith Arith Bool Lia Sorted.
Import ListNotations.

Local Open Scope string_scope.
Local Open Scope list_scope.

(* ------------------------------------------------------------------ *)
(** ** JavaScript values *)
(* ------------------------------------------------------------------ *)

Module Js.

(** A JSON field that holds a number when it is present. *)
Inductive num : Type :=
| Undefined
| Null
| Num (x : float).

(** Truthiness of a number: [0], [-0] and [NaN] are falsy. *)
Definition truthy (v : num) : bool :=
  match v with
  | Num x => negb (PrimFloat.is_zero x || PrimFloat.is_nan x)
  | _ => false
  end.

(** [ToNumber]: [undefined] is [NaN], [null] is [0]. *)
Definition to_number (v : num) : float :=
  match v with
  | Undefined => PrimFloat.nan
  | Null => PrimFloat.zero
  | Num x => x
  end.

(** [v || d] for a numeric default [d]. *)
Definition or_num (v : num) (d : float) : float :=
  if truthy v then to_number v else d.

(** [a > b], [a >= b], [a < b] on numbers. *)
Definition gt (a b : float) : bool := PrimFloat.ltb b a.
Definition ge (a b : float) : bool := PrimFloat.leb b a.
Definition lt (a b : float) : bool := PrimFloat.ltb a b.
Definition le (a b : float) : bool := PrimFloat.leb a b.

(** Truthiness of an optional string: [undefined] and [''] are falsy. *)
Definition truthy_str (v : option string) : bool :=
  match v with
  | Some s => negb (String.eqb s "")
  | None => false
  end.

(** [a || b] on optional strings. *)
Definition or_str (a b : option string) : option string :=
  if truthy_str a then a else b.

(** [a || 'literal'] *)
Definition or_lit (a : option string) (d : string) : string :=
  match a with
  | Some s => if String.eqb s "" then d else s
  | None => d
  end.

(** [`${x || ''}`] *)
Definition or_empty (a : option string) : string := or_lit a "".

(** Strings are kept as the bytes of their UTF-8 encoding.  The white
    space that [trim] strips is that of ECMAScript: the characters
    U+0009 to U+000D, U+0020, U+00A0, U+1680, U+2000 to U+200A, U+2028,
    U+2029, U+202F, U+205F, U+3000 and U+FEFF. *)

(** A white space character of one byte. *)
Definition is_space (c : ascii) : bool :=
  let n := nat_of_ascii c in
  (n =? 32)%nat || ((9 <=? n)%nat && (n <=? 13)%nat).

(** U+00A0, in two bytes. *)
Definition is_space2 (c1 c2 : ascii) : bool :=
  (nat_of_ascii c1 =? 194)%nat && (nat_of_ascii c2 =? 160)%nat.

(** The white space characters of three bytes. *)
Definition is_space3 (c1 c2 c3 : ascii) : bool :=
  let n1 := nat_of_ascii c1 in
  let n2 := nat_of_ascii c2 in
  let n3 := nat_of_ascii c3 in
  ((n1 =? 225)%nat && (n2 =? 154)%nat && (n3 =? 128)%nat) ||
  ((n1 =? 226)%nat && (n2 =? 128)%nat &&
   (((128 <=? n3)%nat && (n3 <=? 138)%nat) ||
    (n3 =? 168)%nat || (n3 =? 169)%nat || (n3 =? 175)%nat)) ||
  ((n1 =? 226)%nat && (n2 =? 129)%nat && (n3 =? 159)%nat) ||
  ((n1 =? 227)%nat && (n2 =? 128)%nat && (n3 =? 128)%nat) ||
  ((n1 =? 239)%nat && (n2 =? 187)%nat && (n3 =? 191)%nat).

(** [String.prototype.trimStart] *)
Fixpoint trim_start (s : string) : string :=
  match s with
  | String c1 r1 =>
      if is_space c1 then trim_start r1
      else
        match r1 with
        | String c2 r2 =>
            if is_space2 c1 c2 then trim_start r2
            else
              match r2 with
              | String c3 r3 => if is_space3 c1 c2 c3 then trim_start r3 else s
              | EmptyString => s
              end
        | EmptyString => s
        end
  | EmptyString => EmptyString
  end.

(** The string holds white space only. *)
Definition blank (s : string) : bool := String.eqb (trim_start s) "".

(** [String.prototype.trimEnd]: the string up to its last character that
    is not white space. *)
Fixpoint trim_end (s : string) : string :=
  match s with
  | String c r => if blank s then EmptyString else String c (trim_end r)
  | EmptyString => EmptyString
  end.

(** [String.prototype.trim] *)
Definition trim (s : string) : string := trim_end (trim_start s).

Definition lower_ascii (c : ascii) : ascii :=
  let n := nat_of_ascii c in
  if (65 <=? n)%nat && (n <=? 90)%nat then ascii_of_nat (n + 32) else c.

(** The lower case of the letters A to Z.  [String.prototype.toLowerCase]
    follows the case mapping of Unicode, which the environment of a
    request supplies ([e_toLowerCase] below); on a string of ASCII
    characters it is this function, which the sample environments use. *)
Fixpoint ascii_lower_case (s : string) : string :=
  match s with
  | String c r => String (lower_ascii c) (ascii_lower_case r)
  | EmptyString => EmptyString
  end.

(** What [JSON.stringify] leaves of a number: [NaN] and the infinities
    become [null]. *)
Definition json_number (x : float) : option float :=
  if PrimFloat.is_nan x || PrimFloat.is_infinity x then None else Some x.

(** [String.prototype.includes] *)
Fixpoint includes (s sub : string) : bool :=
  String.prefix sub s ||
  match s with
  | String _ r => includes r sub
  | EmptyString => false
  end.

(** [s.slice(0, n)] *)
Definition slice_to (n : nat) (s : string) : string := String.substring 0 n s.

(** [s.slice(-n)] *)
Definition slice_last (n : nat) (s : string) : string :=
  String.substring (String.length s - n) n s.

Fixpoint repeat_char (c : ascii) (n : nat) : string :=
  match n with
  | O => EmptyString
  | S k => String c (repeat_char c k)
  end.

(** [s.padStart(n, c)] for a one-character filler. *)
Definition pad_start (n : nat) (c : ascii) (s : string) : string :=
  repeat_char c (n - String.length s) ++ s.

Definition digit_char (d : N) : ascii := ascii_of_N (48 + d).

Fixpoint digits_fuel (fuel : nat) (n : N) (acc : string) : string :=
  match fuel with
  | O => acc
  | S f =>
      let acc' := String (digit_char (n mod 10)) acc in
      if (n <? 10)%N then acc' else digits_fuel f (n / 10) acc'
  end.

(** [String(n)] for a natural number: its decimal digits.  A number has
    no more decimal digits than binary ones. *)
Definition string_of_N (n : N) : string :=
  digits_fuel (S (N.size_nat n)) n EmptyString.

Definition is_digit (c : ascii) : bool :=
  let n := N_of_ascii c in (48 <=? n)%N && (n <=? 57)%N.

Definition digit_val (c : ascii) : N := N_of_ascii c - 48.

Fixpoint all_digits (s : string) : bool :=
  match s with
  | String c r => is_digit c && all_digits r
  | EmptyString => true
  end.

(** [parseInt] of a string of decimal digits. *)
Fixpoint parse_digits (s : string) (acc : N) : N :=
  match s with
  | String c r => parse_digits r (10 * acc + digit_val c)
  | EmptyString => acc
  end.

Definition parse_int (s : string) : N := parse_digits s 0.

End Js.

(* ------------------------------------------------------------------ *)
(** ** Rows of the database tables *)
(* ------------------------------------------------------------------ *)

Record product : Type := {
  p_id : string;
  p_name : option string;
  p_stock_quantity : Js.num;
  p_in_stock : bool }.

(** A number as a row or a JSON blob holds it: [null] ([None]) or a
    number.  What a handler writes goes through [Js.json_number]. *)
Definition numeric : Type := option float.

Record delivery_option : Type := {
  do_name : string;
  do_price : numeric }.

(** The [shipping_address] JSON blob, with the keys the handlers read or
    write. *)
Record address : Type := {
  a_email : option string;
  a_full_name : option string;
  a_first_name : option string;
  a_recipient_name : option string;
  a_delivery_option : option delivery_option;
  a_is_pre_order : bool;
  a_pre_order_shipping_option : option string;
  a_estimated_arrival_date : option string;
  a_payment_reference : option string }.

Record customer_bio : Type := {
  b_name : option string;
  b_email : option string;
  b_phone : option string }.

Record order : Type := {
  o_id : string;
  o_user_id : option string;
  o_order_number : option string;
  o_subtotal : numeric;
  o_discount : numeric;
  o_tax : numeric;
  o_shipping_fee : numeric;
  o_total : numeric;
  o_payment_method : option string;
  o_shipping_address : option address;
  o_customer_bio : option customer_bio;
  o_notes : option string;
  o_status : string;
  o_payment_status : string;
  o_tracking_number : option string;
  (** the [is_pre_order] column, where the table has one and it is set *)
  o_is_pre_order : bool;
  o_created_at : Z;
  o_updated_at : Z }.

Record order_item : Type := {
  oi_order_id : string;
  oi_product_id : option string;
  oi_product_name : option string;
  oi_product_image : option string;
  oi_quantity : Js.num;
  oi_unit_price : numeric;
  oi_total_price : numeric;
  oi_selected_variants : option string }.

(** A value stored under a key of the [metadata] JSON object. *)
Inductive meta : Type :=
| MStr (s : string)
| MNum (x : float)
| MNull.

(** A number as a value of a JSON object. *)
Definition meta_number (x : float) : meta :=
  match Js.json_number x with
  | Some y => MNum y
  | None => MNull
  end.

Definition object : Type := list (string * meta).

(** [{ ...obj, k: v }] *)
Fixpoint obj_set (k : string) (v : meta) (obj : object) : object :=
  match obj with
  | [] => [(k, v)]
  | (k', v') :: r => if String.eqb k' k then (k, v) :: r else (k', v') :: obj_set k v r
  end.

(** A key whose value is [undefined] is left out of the object sent. *)
Definition obj_set_opt (k : string) (v : option string) (obj : object) : object :=
  match v with
  | Some s => obj_set k (MStr s) obj
  | None => obj
  end.

Fixpoint obj_get (k : string) (obj : object) : option meta :=
  match obj with
  | [] => None
  | (k', v) :: r => if String.eqb k' k then Some v else obj_get k r
  end.

Record transaction : Type := {
  t_id : string;
  t_order_id : option string;
  t_user_id : option string;
  t_transaction_reference : string;
  t_paystack_reference : option string;
  t_payment_method : string;
  t_payment_provider : string;
  t_amount : numeric;
  t_currency : string;
  t_status : string;
  t_payment_status : string;
  t_customer_email : option string;
  t_metadata : option object;
  t_initiated_at : Z;
  t_updated_at : Z }.

Record notification : Type := {
  n_type : string;
  n_title : string;
  n_message : string;
  n_data : object;
  n_is_read : bool }.

Record user : Type := {
  u_id : string;
  u_first_name : option string;
  u_last_name : option string;
  u_email : option string;
  u_full_name : option string }.

Record db : Type := {
  products : list product;
  orders : list order;
  order_items : list order_item;
  transactions : list transaction;
  notifications : list notification;
  users : list user }.

(* ------------------------------------------------------------------ *)
(** ** The environment of a request and the effect monad *)
(* ------------------------------------------------------------------ *)

(** A value thrown or returned as [error]: a PostgREST error object or a
    JavaScript [Error]. *)
Record js_error : Type := {
  err_code : option string;
  err_message : option string;
  err_details : option string;
  err_hint : option string;
  err_is_Error : bool;
  err_product_id : option string }.

Definition pg_error (code message : string) : js_error :=
  {| err_code := Some code; err_message := Some message; err_details := None;
     err_hint := None; err_is_Error := false; err_product_id := None |}.

(** What an awaited query resolves to: [{ data, error: null }] or
    [{ data: null, error }]. *)
Inductive pg (A : Type) : Type :=
| PgData (a : A)
| PgError (e : js_error).
Arguments PgData {A} a.
Arguments PgError {A} e.

Definition pg_ok {A} (r : pg A) : bool :=
  match r with PgData _ => true | PgError _ => false end.

(** How the [n]-th remote call of a request ends: it is carried out, it
    is refused (the client resolves with [error] set and the tables are
    unchanged), or the await throws. *)
Inductive reply : Type :=
| Done
| Refused (e : js_error)
| Raised (e : js_error).

Inductive mail_reply : Type :=
| Sent
| Skipped
| NotSent.

(** What [new Date()] shows: the local calendar date, the milliseconds
    since the epoch, and those of the local midnight before. *)
Record instant : Type := {
  i_day : N;
  i_month : N;      (* getMonth(): 0 to 11 *)
  i_year : N;
  i_ms : Z;
  i_midnight : Z }.

Inductive rpc_result : Type :=
| RpcDone (ps : list product)
| RpcFailed (e : js_error).

(** The environment of a request.  The stored procedure
    [decrement_product_stock] is not part of the sources: it is a
    parameter, [None] when the database has no such function. *)
Record env : Type := {
  e_reply : nat -> reply;
  e_uuid : nat -> string;
  e_clock : nat -> instant;
  e_mail : nat -> mail_reply;
  e_decrement_product_stock :
    option (option string -> Js.num -> list product -> rpc_result);
  e_locale_date : string -> string;   (* new Date(s).toLocaleDateString() *)
  e_to_fixed2 : float -> string;      (* x.toFixed(2) *)
  e_toLowerCase : string -> string }. (* s.toLowerCase() *)

Inductive mail_kind : Type :=
| OrderConfirmation
| OrderStatusUpdate
| AdminOrderNotification
| OutOfStockAlert.

(** The remote calls the handlers make. *)
Inductive call : Type :=
| SelectProductsIn (ids : list string)
| SelectLastOrderToday
| InsertOrder (id : string)
| InsertOrderItems (order_id : string)
| DeleteOrder (order_id : string)
| RpcDecrementStock (pid : option string) (qty : Js.num)
| SelectProduct (pid : option string)
| UpdateProductStock (pid : option string) (stock : float) (in_stock : bool)
| InsertNotification (type : string)
| SelectUser (id : string)
| SelectTransactionByReference (ref : string)
| LinkTransaction (id : string)
| InsertTransaction (ref : string)
| RpcRecordCouponUsage (coupon_id : string)
| SelectOrder (id : string)
| UpdateOrder (id : string)
| SelectTransaction (id : string)
| RefundTransaction (id : string)
| SendEmail (kind : mail_kind) (to : option string).

(** How a call ended for the handler: with data, with an error, or with
    an exception. *)
Inductive result : Type :=
| Ok
| Error
| Thrown.

Record event : Type := {
  ev_call : call;
  ev_result : result }.

Record world : Type := {
  w_db : db;
  w_tick : nat;
  w_log : list event }.

Inductive outcome (A : Type) : Type :=
| Val (a : A)
| Exn (e : js_error).
Arguments Val {A} a.
Arguments Exn {A} e.

Definition M (A : Type) : Type := env -> world -> outcome A * world.

Definition ret {A} (a : A) : M A := fun _ w => (Val a, w).

Definition bind {A B} (m : M A) (k : A -> M B) : M B :=
  fun e w =>
    match m e w with
    | (Val a, w') => k a e w'
    | (Exn x, w') => (Exn x, w')
    end.

Definition throw {A} (x : js_error) : M A := fun _ w => (Exn x, w).

Definition try_catch {A} (m : M A) (h : js_error -> M A) : M A :=
  fun e w =>
    match m e w with
    | (Val a, w') => (Val a, w')
    | (Exn x, w') => h x e w'
    end.

Declare Scope handler_scope.
Delimit Scope handler_scope with handler.
Notation "x <- m ;; k" := (bind m (fun x => k))
  (at level 61, m at next level, right associativity) : handler_scope.
Notation "m ;;; k" := (bind m (fun _ => k))
  (at level 61, right associativity) : handler_scope.
Local Open Scope handler_scope.

(** [for (const x of l) { body }] *)
Fixpoint for_each {A} (l : list A) (body : A -> M unit) : M unit :=
  match l with
  | [] => ret tt
  | x :: r => body x ;;; for_each r body
  end.

Definition record (c : call) (res : result) (d : db) (w : world) : world :=
  {| w_db := d; w_tick := S (w_tick w);
     w_log := w_log w ++ [{| ev_call := c; ev_result := res |}] |}.

Definition result_of {A} (r : pg A) : result :=
  if pg_ok r then Ok else Error.

(** An awaited query [c] whose effect on the tables, when it is carried
    out, is [sem]. *)
Definition remote {A} (c : call) (sem : env -> nat -> db -> pg A * db) : M (pg A) :=
  fun e w =>
    match e_reply e (w_tick w) with
    | Done =>
        let '(r, d) := sem e (w_tick w) (w_db w) in
        (Val r, record c (result_of r) d w)
    | Refused x => (Val (PgError x), record c Error (w_db w) w)
    | Raised x => (Exn x, record c Thrown (w_db w) w)
    end.

(** The environment, where a handler formats a value. *)
Definition ask : M env := fun e w => (Val e, w).

(** [new Date()] *)
Definition new_date : M instant := fun e w => (Val (e_clock e (w_tick w)), w).

(** A call of the email service.  Its methods catch what they throw and
    touch no table. *)
Definition send_mail (kind : mail_kind) (to : option string) : M mail_reply :=
  fun e w =>
    let r := e_mail e (w_tick w) in
    (Val r, record (SendEmail kind to)
              (match r with NotSent => Error | _ => Ok end) (w_db w) w).

(* ------------------------------------------------------------------ *)
(** ** What the queries do to the tables *)
(* ------------------------------------------------------------------ *)

Module Db.

Definition set_products (ps : list product) (d : db) : db :=
  {| products := ps; orders := orders d; order_items := order_items d;
     transactions := transactions d; notifications := notifications d;
     users := users d |}.

Definition set_orders (os : list order) (d : db) : db :=
  {| products := products d; orders := os; order_items := order_items d;
     transactions := transactions d; notifications := notifications d;
     users := users d |}.

Definition set_order_items (rows : list order_item) (d : db) : db :=
  {| products := products d; orders := orders d; order_items := rows;
     transactions := transactions d; notifications := notifications d;
     users := users d |}.

Definition set_transactions (ts : list transaction) (d : db) : db :=
  {| products := products d; orders := orders d; order_items := order_items d;
     transactions := ts; notifications := notifications d;
     users := users d |}.

Definition set_notifications (ns : list notification) (d : db) : db :=
  {| products := products d; orders := orders d; order_items := order_items d;
     transactions := transactions d; notifications := ns;
     users := users d |}.

(** PostgREST's answer to a request for one object when the rows are not
    exactly one. *)
Definition not_one_row : js_error :=
  pg_error "PGRST116" "JSON object requested, multiple (or no) rows returned".

(** [.single()]: exactly one row, or an error.  (The sources rely on it:
    [getUserPreferences] of the email service reads the error of
    [.single()] as the user not being found.) *)
Definition single {A} (rows : list A) : pg A :=
  match rows with
  | [r] => PgData r
  | _ => PgError not_one_row
  end.

(** [.maybeSingle()]: no row is [null] without an error. *)
Definition maybe_single {A} (rows : list A) : pg (option A) :=
  match rows with
  | [] => PgData None
  | [r] => PgData (Some r)
  | _ => PgError not_one_row
  end.

Definition mem (s : string) (l : list string) : bool := existsb (String.eqb s) l.

Definition id_is (pid : option string) (p : product) : bool :=
  match pid with
  | Some s => String.eqb (p_id p) s
  | None => false
  end.

(** [from('products').select(..).in('id', ids)] *)
Definition products_in (ids : list string) (d : db) : list product :=
  filter (fun p => mem (p_id p) ids) (products d).

(** [from('products').select(..).eq('id', pid).single()] *)
Definition product_by_id (pid : option string) (d : db) : pg product :=
  single (filter (id_is pid) (products d)).

(** The later of two orders by [created_at]. *)
Definition later (a : option order) (o : order) : option order :=
  match a with
  | Some b => if (o_created_at b <=? o_created_at o)%Z then Some o else Some b
  | None => Some o
  end.

(** [from('orders').select('order_number').gte('created_at', start)
      .order('created_at', { ascending: false }).limit(1).maybeSingle()] *)
Definition last_order_since (start : Z) (d : db) : option order :=
  fold_left later (filter (fun o => (start <=? o_created_at o)%Z) (orders d)) None.

Definition order_by_id (id : string) (d : db) : list order :=
  filter (fun o => String.eqb (o_id o) id) (orders d).

Definition items_of_order (id : string) (d : db) : list order_item :=
  filter (fun i => String.eqb (oi_order_id i) id) (order_items d).

Definition user_by_id (id : string) (d : db) : list user :=
  filter (fun u => String.eqb (u_id u) id) (users d).

(** [from('orders').insert([row]).select().single()]: the primary key is
    unique. *)
Definition insert_order (row : order) (d : db) : pg order * db :=
  if existsb (fun o => String.eqb (o_id o) (o_id row)) (orders d)
  then (PgError (pg_error "23505" "duplicate key value violates unique constraint"), d)
  else (PgData row, set_orders (orders d ++ [row]) d).

(** [from('order_items').insert(rows)] *)
Definition insert_items (rows : list order_item) (d : db) : pg unit * db :=
  (PgData tt, set_order_items (order_items d ++ rows) d).

(** [from('orders').delete().eq('id', id)] *)
Definition delete_order (id : string) (d : db) : pg unit * db :=
  (PgData tt, set_orders (filter (fun o => negb (String.eqb (o_id o) id)) (orders d)) d).

Definition write_stock (stock : float) (in_stock : bool) (p : product) : product :=
  {| p_id := p_id p; p_name := p_name p;
     p_stock_quantity := Js.Num stock; p_in_stock := in_stock |}.

Definition update_where {A} (sel : A -> bool) (f : A -> A) (rows : list A) : list A :=
  map (fun r => if sel r then f r else r) rows.

(** [from('products').update({ stock_quantity, in_stock }).eq('id', pid)] *)
Definition restore_stock (pid : option string) (stock : float) (in_stock : bool)
    (d : db) : pg unit * db :=
  (PgData tt, set_products (update_where (id_is pid) (write_stock stock in_stock) (products d)) d).

(** The filter [.gte('stock_quantity', qty)]. *)
Definition stock_at_least (qty : Js.num) (p : product) : bool :=
  match qty, p_stock_quantity p with
  | Js.Num q, Js.Num s => Js.ge s q
  | _, _ => false
  end.

(** [from('products').update({ stock_quantity, in_stock }).eq('id', pid)
      .gte('stock_quantity', qty).select('name, stock_quantity').single()]:
    a request for one object that does not touch exactly one row leaves
    the table as it was. *)
Definition decrement_stock (pid : option string) (qty : Js.num) (stock : float)
    (in_stock : bool) (d : db) : pg product * db :=
  let sel := fun p => id_is pid p && stock_at_least qty p in
  match filter sel (products d) with
  | [p] => (PgData (write_stock stock in_stock p),
            set_products (update_where sel (write_stock stock in_stock) (products d)) d)
  | _ => (PgError not_one_row, d)
  end.

(** [from('notifications').insert(row)] *)
Definition insert_notification (n : notification) (d : db) : pg unit * db :=
  (PgData tt, set_notifications (notifications d ++ [n]) d).

(** [.eq('transaction_reference', r).or(`paystack_reference.eq.${r}`)]:
    PostgREST joins the filters of a request with AND. *)
Definition has_reference (r : string) (t : transaction) : bool :=
  String.eqb (t_transaction_reference t) r &&
  match t_paystack_reference t with
  | Some p => String.eqb p r
  | None => false
  end.

Definition transaction_by_reference (r : string) (d : db) : pg (option transaction) :=
  maybe_single (filter (has_reference r) (transactions d)).

Definition transaction_by_id (id : string) (d : db) : list transaction :=
  filter (fun t => String.eqb (t_id t) id) (transactions d).

(** [from('transactions').insert([row])] *)
Definition insert_transaction (row : transaction) (d : db) : pg unit * db :=
  if existsb (fun t => String.eqb (t_id t) (t_id row)) (transactions d)
  then (PgError (pg_error "23505" "duplicate key value violates unique constraint"), d)
  else (PgData tt, set_transactions (transactions d ++ [row]) d).

(** [from(table).update(..).eq('id', id)] without [select]. *)
Definition update_transactions (id : string) (f : transaction -> transaction)
    (d : db) : pg unit * db :=
  (PgData tt,
   set_transactions (update_where (fun t => String.eqb (t_id t) id) f (transactions d)) d).

Definition update_orders (id : string) (f : order -> order) (d : db) : pg unit * db :=
  (PgData tt,
   set_orders (update_where (fun o => String.eqb (o_id o) id) f (orders d)) d).

(** [from('orders').update(..).eq('id', id).select(..).single()] *)
Definition update_order_returning (id : string) (f : order -> order) (d : db)
    : pg order * db :=
  match order_by_id id d with
  | [o] => (PgData (f o), snd (update_orders id f d))
  | _ => (PgError not_one_row, d)
  end.

(** [from('transactions').update(..).eq('id', id).select().single()] *)
Definition update_transaction_returning (id : string) (f : transaction -> transaction)
    (d : db) : pg transaction * db :=
  match transaction_by_id id d with
  | [t] => (PgData (f t), snd (update_transactions id f d))
  | _ => (PgError not_one_row, d)
  end.

End Db.

(* ------------------------------------------------------------------ *)
(** ** HTTP responses *)
(* ------------------------------------------------------------------ *)

Inductive payload : Type :=
| NoData
| OrderData (o : order)
| TransactionData (t : transaction).

Record response : Type := {
  r_status : nat;
  r_success : bool;
  r_message : string;
  r_error : option string;
  r_details : option string;
  r_code : option string;
  r_missing : list string;
  r_data : payload }.

(** [res.json({ success: true, message, data })] *)
Definition success (message : string) (data : payload) : response :=
  {| r_status := 200; r_success := true; r_message := message; r_error := None;
     r_details := None; r_code := None; r_missing := []; r_data := data |}.

(** [res.status(s).json({ success: false, message, error })] *)
Definition failure (s : nat) (message : string) (error : option string) : response :=
  {| r_status := s; r_success := false; r_message := message; r_error := error;
     r_details := None; r_code := None; r_missing := []; r_data := NoData |}.

(** [error instanceof Error ? error.message : 'Unknown error'] *)
Definition message_of (x : js_error) : string :=
  if err_is_Error x then Js.or_empty (err_message x) else "Unknown error".

(** The [catch] of a handler: a 500 response. *)
Definition handle (m : M response) (message : string) : M response :=
  try_catch m (fun x => ret (failure 500 message (Some (message_of x)))).

(** A handler run on a database: its response and the world after it. *)
Definition run (m : M response) (e : env) (w : world) : option response * world :=
  match m e w with
  | (Val r, w') => (Some r, w')
  | (Exn _, w') => (None, w')
  end.

Definition nl : string := String (ascii_of_nat 10) EmptyString.

(* ------------------------------------------------------------------ *)
(** ** OrderController *)
(* ------------------------------------------------------------------ *)

Module OrderController.

(** The user row joined to an order by [user:users!orders_user_id_fkey]. *)
Definition joined_user (o : order) (d : db) : option user :=
  match o_user_id o with
  | Some uid => hd_error (Db.user_by_id uid d)
  | None => None
  end.

(** An order as the handlers select it: the row, its user and its items. *)
Record order_view : Type := {
  v_order : order;
  v_user : option user;
  v_items : list order_item }.

Definition view (d : db) (o : order) : order_view :=
  {| v_order := o; v_user := joined_user o d; v_items := Db.items_of_order (o_id o) d |}.

Definition pg_map {A B} (f : A -> B) (r : pg A) : pg B :=
  match r with
  | PgData a => PgData (f a)
  | PgError x => PgError x
  end.

(** [from('orders').select(`*, user:.., order_items:..`).eq('id', id).single()].
    The handlers test the data for [null] after the error: the data is an
    option here, although [.single()] never resolves to neither. *)
Definition select_order (id : string) : M (pg (option order_view)) :=
  remote (SelectOrder id)
    (fun _ _ d => (pg_map (fun o => Some (view d o)) (Db.single (Db.order_by_id id d)), d)).

(** [existingOrder.is_pre_order || existingOrder.shipping_address?.is_pre_order || false] *)
Definition is_pre_order_of (o : order) : bool :=
  o_is_pre_order o ||
  match o_shipping_address o with
  | Some a => a_is_pre_order a
  | None => false
  end.

(** The body of the loops that restore stock (lines 267-302 and 517-549;
    the two differ in what they print). *)
Definition restore_item (item : order_item) : M unit :=
  if negb (Js.truthy_str (oi_product_id item)) || negb (Js.truthy (oi_quantity item))
  then ret tt   (* continue *)
  else
    r <- remote (SelectProduct (oi_product_id item))
           (fun _ _ d => (Db.product_by_id (oi_product_id item) d, d)) ;;
    match r with
    | PgData product =>
        let currentStock := Js.or_num (p_stock_quantity product) 0 in
        let restoredStock := (currentStock + Js.to_number (oi_quantity item))%float in
        let newInStock := Js.gt restoredStock 0 in
        _ <- remote (UpdateProductStock (oi_product_id item) restoredStock newInStock)
               (fun _ _ d => Db.restore_stock (oi_product_id item) restoredStock newInStock d) ;;
        ret tt
    | PgError _ => ret tt
    end.

(** [try { for (const item of orderItems) { .. } } catch { }] *)
Definition restore_stock (items : list order_item) : M unit :=
  try_catch (for_each items restore_item) (fun _ => ret tt).

Record status_body : Type := {
  s_status : option string;
  s_tracking_number : option string;
  s_notes : option string }.

Definition keep {A} (new : option A) (old : A) : A :=
  match new with
  | Some a => a
  | None => old
  end.

Definition keep_opt {A} (new old : option A) : option A :=
  match new with
  | Some a => Some a
  | None => old
  end.

(** [update({ status, tracking_number, notes, updated_at })]: a key that
    is [undefined] is not sent, and its column stays. *)
Definition set_status (b : status_body) (now : Z) (o : order) : order :=
  {| o_id := o_id o; o_user_id := o_user_id o; o_order_number := o_order_number o;
     o_subtotal := o_subtotal o; o_discount := o_discount o; o_tax := o_tax o;
     o_shipping_fee := o_shipping_fee o; o_total := o_total o;
     o_payment_method := o_payment_method o;
     o_shipping_address := o_shipping_address o;
     o_customer_bio := o_customer_bio o;
     o_notes := keep_opt (s_notes b) (o_notes o);
     o_status := keep (s_status b) (o_status o);
     o_payment_status := o_payment_status o;
     o_tracking_number := keep_opt (s_tracking_number b) (o_tracking_number o);
     o_is_pre_order := o_is_pre_order o;
     o_created_at := o_created_at o; o_updated_at := now |}.

Definition set_payment_status (s : string) (now : Z) (o : order) : order :=
  {| o_id := o_id o; o_user_id := o_user_id o; o_order_number := o_order_number o;
     o_subtotal := o_subtotal o; o_discount := o_discount o; o_tax := o_tax o;
     o_shipping_fee := o_shipping_fee o; o_total := o_total o;
     o_payment_method := o_payment_method o;
     o_shipping_address := o_shipping_address o;
     o_customer_bio := o_customer_bio o;
     o_notes := o_notes o;
     o_status := o_status o;
     o_payment_status := s;
     o_tracking_number := o_tracking_number o;
     o_is_pre_order := o_is_pre_order o;
     o_created_at := o_created_at o; o_updated_at := now |}.

Definition set_cancelled (notes : option string) (now : Z) (o : order) : order :=
  {| o_id := o_id o; o_user_id := o_user_id o; o_order_number := o_order_number o;
     o_subtotal := o_subtotal o; o_discount := o_discount o; o_tax := o_tax o;
     o_shipping_fee := o_shipping_fee o; o_total := o_total o;
     o_payment_method := o_payment_method o;
     o_shipping_address := o_shipping_address o;
     o_customer_bio := o_customer_bio o;
     o_notes := notes;
     o_status := "cancelled";
     o_payment_status := o_payment_status o;
     o_tracking_number := o_tracking_number o;
     o_is_pre_order := o_is_pre_order o;
     o_created_at := o_created_at o; o_updated_at := now |}.

(** [from('orders').update(..).eq('id', id).select(`*, user:.., order_items:..`).single()] *)
Definition update_order (id : string) (f : Z -> order -> order) : M (pg order_view) :=
  remote (UpdateOrder id)
    (fun e n d =>
       let r := Db.update_order_returning id (f (i_ms (e_clock e n))) d in
       (pg_map (view (snd r)) (fst r), snd r)).

(** [`${first_name || ''} ${last_name || ''}`.trim() || 'Customer'] *)
Definition first_last (u : user) : string :=
  Js.or_lit
    (Some (Js.trim (Js.or_empty (u_first_name u) ++ " " ++ Js.or_empty (u_last_name u))))
    "Customer".

Definition address_email (a : option address) : option string :=
  match a with
  | Some x => a_email x
  | None => None
  end.

(** The customer an email about a changed status goes to (lines 343-354). *)
Definition status_recipient (v : order_view) : option string :=
  match v_user v with
  | Some u =>
      if Js.truthy_str (u_email u) then u_email u
      else if Js.truthy_str (address_email (o_shipping_address (v_order v)))
           then address_email (o_shipping_address (v_order v)) else None
  | None =>
      if Js.truthy_str (address_email (o_shipping_address (v_order v)))
      then address_email (o_shipping_address (v_order v)) else None
  end.

Definition bio_email (b : option customer_bio) : option string :=
  match b with
  | Some x => b_email x
  | None => None
  end.

(** The customer a cancellation email goes to (lines 563-578). *)
Definition cancel_recipient (v : order_view) : option string :=
  if match v_user v with Some u => Js.truthy_str (u_email u) | None => false end
  then match v_user v with Some u => u_email u | None => None end
  else if Js.truthy_str (bio_email (o_customer_bio (v_order v)))
  then bio_email (o_customer_bio (v_order v))
  else if Js.truthy_str (address_email (o_shipping_address (v_order v)))
  then address_email (o_shipping_address (v_order v))
  else None.

(** [async updateOrderStatus(req, res)] (lines 232-403) *)
Definition updateOrderStatus (id : string) (b : status_body) : M response :=
  handle
    (fetched <- select_order id ;;
     match fetched with
     | PgError fetchError => throw fetchError
     | PgData None =>
         (* [existingOrder.is_pre_order] of [null] *)
         throw {| err_code := None; err_message := Some "Cannot read properties of null";
                  err_details := None; err_hint := None; err_is_Error := true;
                  err_product_id := None |}
     | PgData (Some existing) =>
         let existingOrder := v_order existing in
         let isPreOrder := is_pre_order_of existingOrder in
         let previousStatus := o_status existingOrder in
         let isChangingToCancelled :=
           match s_status b with
           | Some s => String.eqb s "cancelled"
           | None => false
           end && negb (String.eqb previousStatus "cancelled") in
         let isRefunded := String.eqb (o_payment_status existingOrder) "refunded" in
         (if isChangingToCancelled && negb isPreOrder && negb isRefunded
          then restore_stock (v_items existing)
          else ret tt) ;;;
         updated <- update_order id (set_status b) ;;
         match updated with
         | PgError orderError => throw orderError
         | PgData orderData =>
             try_catch
               (match status_recipient orderData with
                | Some customerEmail =>
                    _ <- send_mail OrderStatusUpdate (Some customerEmail) ;; ret tt
                | None => ret tt
                end)
               (fun _ => ret tt) ;;;
             ret (success "Order status updated successfully" (OrderData (v_order orderData)))
         end
     end)
    "Failed to update order status".

(** [async updatePaymentStatus(req, res)] (lines 406-448) *)
Definition updatePaymentStatus (id : string) (payment_status : option string) : M response :=
  handle
    (match payment_status with
     | Some s =>
         if negb (Js.truthy_str payment_status) ||
            negb (Db.mem s ["pending"; "paid"; "failed"; "refunded"])
         then ret (failure 400
                     "Invalid payment status. Must be: pending, paid, failed, or refunded" None)
         else
           updated <- update_order id (set_payment_status s) ;;
           match updated with
           | PgError orderError => throw orderError
           | PgData orderData =>
               ret (success "Payment status updated successfully" (OrderData (v_order orderData)))
           end
     | None =>
         ret (failure 400
                "Invalid payment status. Must be: pending, paid, failed, or refunded" None)
     end)
    "Failed to update payment status".

Record cancel_body : Type := {
  k_cancellation_reason : option string;
  k_email : option string }.

(** [cancellation_reason ? `${existingOrder.notes || ''}\n\n[CANCELLED] ${cancellation_reason}`.trim()
                         : existingOrder.notes] *)
Definition cancelled_notes (b : cancel_body) (o : order) : option string :=
  match k_cancellation_reason b with
  | Some reason =>
      if Js.truthy_str (Some reason)
      then Some (Js.trim (Js.or_empty (o_notes o) ++ nl ++ nl ++ "[CANCELLED] " ++ reason))
      else o_notes o
  | None => o_notes o
  end.

(** [async cancelOrder(req, res)] (lines 451-618) *)
Definition cancelOrder (id : string) (b : cancel_body) : M response :=
  handle
    (fetched <- select_order id ;;
     match fetched with
     | PgError fetchError => throw fetchError
     | PgData None => ret (failure 404 "Order not found" None)
     | PgData (Some existing) =>
         e <- ask ;;
         let existingOrder := v_order existing in
         let anonymous := negb (Js.truthy_str (o_user_id existingOrder)) in
         let orderEmail := address_email (o_shipping_address existingOrder) in
         if anonymous && Js.truthy_str (k_email b) &&
            (negb (Js.truthy_str orderEmail) ||
             negb (String.eqb (e_toLowerCase e (Js.or_empty orderEmail))
                              (e_toLowerCase e (Js.or_empty (k_email b)))))
         then ret (failure 403
                     "Email verification failed. Please use the email address used when placing the order."
                     None)
         else if anonymous && negb (Js.truthy_str (k_email b))
         then ret (failure 400 "Email verification required for guest orders" None)
         else
           updated <- update_order id (set_cancelled (cancelled_notes b existingOrder)) ;;
           match updated with
           | PgError orderError => throw orderError
           | PgData orderData =>
               (if negb (String.eqb (o_status existingOrder) "cancelled") &&
                   negb (o_is_pre_order existingOrder)
                then restore_stock (v_items existing)
                else ret tt) ;;;
               try_catch
                 (match cancel_recipient orderData with
                  | Some customerEmail =>
                      _ <- send_mail OrderConfirmation (Some customerEmail) ;; ret tt
                  | None => ret tt
                  end)
                 (fun _ => ret tt) ;;;
               ret (success "Order cancelled successfully" (OrderData (v_order orderData)))
           end
     end)
    "Failed to cancel order".

(** *** Order numbers *)

(** [`${day}${month}${year}`]: the date as DDMMYY. *)
Definition date_str (now : instant) : string :=
  (Js.pad_start 2 "0" (Js.string_of_N (i_day now)) ++
   Js.pad_start 2 "0" (Js.string_of_N (i_month now + 1)) ++
   Js.slice_last 2 (Js.string_of_N (i_year now)))%string.

Definition drop (n : nat) (s : string) : string :=
  String.substring n (String.length s - n) s.

Definition three_digits (s : string) : option string :=
  let d := String.substring 0 3 s in
  if (String.length d =? 3)%nat && Js.all_digits d then Some d else None.

(** [s.match(/ORD-(\d{3})/)]: the three digits after the first [ORD-]
    that three digits follow. *)
Fixpoint match_ord (s : string) : option string :=
  match (if String.prefix "ORD-" s then three_digits (drop 4 s) else None) with
  | Some d => Some d
  | None =>
      match s with
      | String _ r => match_ord r
      | EmptyString => None
      end
  end.

(** The sequence number after that of the last order (lines 640-649). *)
Definition next_sequence (lastOrder : option order) : N :=
  match lastOrder with
  | Some o =>
      match o_order_number o with
      | Some number =>
          if Js.truthy_str (Some number)
          then match match_ord number with
               | Some digits =>
                   let sequence := (Js.parse_int digits + 1)%N in
                   if (999 <? sequence)%N then 1%N else sequence
               | None => 1%N
               end
          else 1%N
      | None => 1%N
      end
  | None => 1%N
  end.

(** The query of [generateOrderNumber]; only its [data] is read. *)
Definition select_last_order (now : instant) : M (option order) :=
  r <- remote SelectLastOrderToday
         (fun _ _ d => (PgData (Db.last_order_since (i_midnight now) d), d)) ;;
  ret (match r with
       | PgData lastOrder => lastOrder
       | PgError _ => None
       end).

(** [private async generateOrderNumber()] (lines 621-665) *)
Definition generateOrderNumber : M string :=
  try_catch
    (now <- new_date ;;
     lastOrder <- select_last_order now ;;
     let sequenceStr := Js.pad_start 3 "0" (Js.string_of_N (next_sequence lastOrder)) in
     ret ("ORD-" ++ sequenceStr ++ date_str now)%string)
    (fun _ =>
       now <- new_date ;;
       let sequenceStr := Js.slice_last 3 (Js.string_of_N (Z.to_N (i_ms now))) in
       ret ("ORD-" ++ sequenceStr ++ date_str now)%string).

(** *** Creating an order *)

Record item_input : Type := {
  it_product_id : option string;
  it_product_name : option string;
  it_product_image : option string;
  it_quantity : Js.num;
  it_unit_price : Js.num;
  it_subtotal : Js.num;
  it_total_price : Js.num;
  it_selected_variants : option string }.

(** [req.body] of [createOrder].  [c_order_items] is [None] when the key
    is missing or not an array.  The amounts are JSON numbers, [null] or
    missing ([Js.num]); the handler reads them untyped, and a body that
    gives an amount as a string, on which [+] concatenates (lines 706-709
    and 836), is outside this model. *)
Record create_body : Type := {
  c_user_id : option string;
  c_order_number : option string;
  c_subtotal : Js.num;
  c_discount : Js.num;
  c_tax : Js.num;
  c_delivery_fee : Js.num;
  c_delivery_option : option delivery_option;
  c_total : Js.num;
  c_payment_method : option string;
  c_delivery_address : option address;
  c_customer_bio : option customer_bio;
  c_order_items : option (list item_input);
  c_notes : option string;
  c_payment_reference : option string;
  c_is_pre_order : bool;
  c_pre_order_shipping_option : option string;
  c_estimated_arrival_date : option string;
  c_coupon_id : option string }.

Definition falsy (x : float) : bool := PrimFloat.is_zero x || PrimFloat.is_nan x.

(** [x || 0] on a number. *)
Definition or_zero (x : float) : float := if falsy x then 0%float else x.

(** [x || null] on an optional string. *)
Definition or_null (x : option string) : option string :=
  if Js.truthy_str x then x else None.

Definition finalSubtotal (b : create_body) : float := Js.or_num (c_subtotal b) 0.
Definition finalDeliveryFee (b : create_body) : float := Js.or_num (c_delivery_fee b) 0.
Definition finalTax (b : create_body) : float := Js.or_num (c_tax b) 0.
Definition finalDiscount (b : create_body) : float := Js.or_num (c_discount b) 0.

(** [item.subtotal || (item.unit_price * (item.quantity || 1))] *)
Definition item_subtotal (item : item_input) : float :=
  if Js.truthy (it_subtotal item) then Js.to_number (it_subtotal item)
  else (Js.to_number (it_unit_price item) * Js.or_num (it_quantity item) 1)%float.

(** Lines 822-831. *)
Definition actualSubtotal (b : create_body) (items : list item_input) : float :=
  if falsy (finalSubtotal b) || PrimFloat.eqb (finalSubtotal b) 0
  then fold_left (fun sum item => (sum + item_subtotal item)%float) items 0%float
  else finalSubtotal b.

(** [actualSubtotal + finalDeliveryFee + finalTax - finalDiscount] *)
Definition calculatedTotal (b : create_body) (items : list item_input) : float :=
  (actualSubtotal b items + finalDeliveryFee b + finalTax b - finalDiscount b)%float.

(** [productIds.filter(id => id && id.trim() !== '')] *)
Fixpoint validProductIds (productIds : list (option string)) : list string :=
  match productIds with
  | [] => []
  | Some id :: r =>
      if Js.truthy_str (Some id) && negb (String.eqb (Js.trim id) "")
      then id :: validProductIds r else validProductIds r
  | None :: r => validProductIds r
  end.

(** Lines 809-818 and 920-924: the address stored with the order. *)
Definition shippingAddress (b : create_body) (delivery_address : address) : address :=
  {| a_email := a_email delivery_address;
     a_full_name := a_full_name delivery_address;
     a_first_name := a_first_name delivery_address;
     a_recipient_name := a_recipient_name delivery_address;
     a_delivery_option :=
       Some (match c_delivery_option b with
             | Some o => o
             | None => {| do_name := "Standard";
                          do_price := Js.json_number (Js.or_num (c_delivery_fee b) 0) |}
             end);
     a_is_pre_order :=
       if c_is_pre_order b then true else a_is_pre_order delivery_address;
     a_pre_order_shipping_option :=
       if c_is_pre_order b then or_null (c_pre_order_shipping_option b)
       else a_pre_order_shipping_option delivery_address;
     a_estimated_arrival_date :=
       if c_is_pre_order b then or_null (c_estimated_arrival_date b)
       else a_estimated_arrival_date delivery_address;
     a_payment_reference := a_payment_reference delivery_address |}.

Definition with_payment_reference (r : option string) (a : address) : address :=
  {| a_email := a_email a; a_full_name := a_full_name a; a_first_name := a_first_name a;
     a_recipient_name := a_recipient_name a; a_delivery_option := a_delivery_option a;
     a_is_pre_order := a_is_pre_order a;
     a_pre_order_shipping_option := a_pre_order_shipping_option a;
     a_estimated_arrival_date := a_estimated_arrival_date a;
     a_payment_reference := if Js.truthy_str r then r else a_payment_reference a |}.

(** Lines 926-928. *)
Definition order_notes (e : env) (b : create_body) : option string :=
  if c_is_pre_order b
  then Some (Js.trim
         (Js.or_empty (c_notes b) ++ nl ++ nl ++ "[PRE-ORDER] Shipping: " ++
          Js.or_lit (c_pre_order_shipping_option b) "Not specified" ++
          ". Estimated Arrival: " ++
          match c_estimated_arrival_date b with
          | Some d => if String.eqb d "" then "TBD" else e_locale_date e d
          | None => "TBD"
          end))
  else or_null (c_notes b).

(** [(payment_method === 'paystack' && payment_reference) ? 'paid' : 'pending'] *)
Definition paymentStatus (b : create_body) : string :=
  if match c_payment_method b with
     | Some m => String.eqb m "paystack"
     | None => false
     end && Js.truthy_str (c_payment_reference b)
  then "paid" else "pending".

(** [orderInsertData] (lines 908-934), with the id and the creation time
    the database gives the row. *)
Definition orderInsertData (e : env) (n : nat) (b : create_body)
    (items : list item_input) (delivery_address : address)
    (finalOrderNumber : string) : order :=
  {| o_id := e_uuid e n;
     o_user_id := c_user_id b;
     o_order_number := Some finalOrderNumber;
     o_subtotal := Js.json_number (actualSubtotal b items);
     o_discount := Js.json_number (or_zero (finalDiscount b));
     o_tax := Js.json_number (or_zero (finalTax b));
     o_shipping_fee := Js.json_number (or_zero (finalDeliveryFee b));
     o_total := Js.json_number (calculatedTotal b items);
     o_payment_method := c_payment_method b;
     o_shipping_address :=
       Some (with_payment_reference (c_payment_reference b)
               (shippingAddress b delivery_address));
     o_customer_bio := c_customer_bio b;
     o_notes := order_notes e b;
     o_status := "pending";
     o_payment_status := paymentStatus b;
     o_tracking_number := None;
     o_is_pre_order := false;
     o_created_at := i_ms (e_clock e n);
     o_updated_at := i_ms (e_clock e n) |}.

(** Lines 958-973. *)
Definition orderItems (order_id : string) (items : list item_input) : list order_item :=
  map (fun item =>
         let itemUnitPrice := Js.or_num (it_unit_price item) 0 in
         let itemSubtotal :=
           if Js.truthy (it_subtotal item) then Js.to_number (it_subtotal item)
           else if Js.truthy (it_total_price item) then Js.to_number (it_total_price item)
           else (itemUnitPrice * Js.or_num (it_quantity item) 1)%float in
         {| oi_order_id := order_id;
            oi_product_id := it_product_id item;
            oi_product_name := it_product_name item;
            oi_product_image := it_product_image item;
            oi_quantity := it_quantity item;
            oi_unit_price := Js.json_number itemUnitPrice;
            oi_total_price := Js.json_number itemSubtotal;
            oi_selected_variants := it_selected_variants item |})
      items.

Fixpoint until_paren (s : string) : option string :=
  match s with
  | String c r =>
      if Ascii.eqb c ")" then Some EmptyString
      else option_map (String c) (until_paren r)
  | EmptyString => None
  end.

(** [details.match(/product_id\)=\(([^)]+)\)/)] *)
Fixpoint match_product_id (s : string) : option string :=
  match (if String.prefix "product_id)=(" s
         then match until_paren (drop 13 s) with
              | Some EmptyString => None
              | r => r
              end
         else None) with
  | Some id => Some id
  | None =>
      match s with
      | String _ r => match_product_id r
      | EmptyString => None
      end
  end.

(** Lines 991-1000: what is thrown when the items could not be inserted. *)
Definition items_failure (itemsError : js_error) : js_error :=
  if match err_code itemsError with
     | Some c => String.eqb c "23503"
     | None => false
     end &&
     match err_details itemsError with
     | Some d => Js.includes d "product_id"
     | None => false
     end
  then
    let missingProductId :=
      match match_product_id (Js.or_empty (err_details itemsError)) with
      | Some id => id
      | None => "unknown"
      end in
    {| err_code := Some "PRODUCT_NOT_FOUND";
       err_message :=
         Some ("Product not found: " ++ missingProductId ++
               ". This product may have been removed from the catalog. Please remove it from your cart and try again.")%string;
       err_details := None; err_hint := None; err_is_Error := true;
       err_product_id := Some missingProductId |}
  else itemsError.

(** Lines 975-1001: the items are inserted; when that fails the order is
    deleted, whatever the deletion answers, and the failure is thrown. *)
Definition insert_order_items (orderData : order) (items : list item_input) : M unit :=
  r <- remote (InsertOrderItems (o_id orderData))
         (fun _ _ d => Db.insert_items (orderItems (o_id orderData) items) d) ;;
  match r with
  | PgData _ => ret tt
  | PgError itemsError =>
      try_catch
        (_ <- remote (DeleteOrder (o_id orderData))
                (fun _ _ d => Db.delete_order (o_id orderData) d) ;;
         ret tt)
        (fun _ => ret tt) ;;;
      throw (items_failure itemsError)
  end.

Definition admin_address : string := "ventechgadgets@gmail.com".

(** Lines 1053-1104: the alert for a product that ran out of stock. *)
Definition out_of_stock_alert (name : string) : M unit :=
  try_catch
    (_ <- remote (InsertNotification "alert")
            (fun _ _ d =>
               Db.insert_notification
                 {| n_type := "alert"; n_title := "Product Out of Stock";
                    n_message := (name ++ " is now out of stock")%string;
                    n_data := []; n_is_read := false |} d) ;;
     try_catch
       (_ <- send_mail OutOfStockAlert (Some admin_address) ;; ret tt)
       (fun _ => ret tt))
    (fun _ => ret tt).

(** [updateError.code === 'PGRST202' || updateError.message?.includes('function')
     || updateError.message?.includes('not found')] *)
Definition rpc_is_missing (updateError : js_error) : bool :=
  match err_code updateError with
  | Some c => String.eqb c "PGRST202"
  | None => false
  end ||
  match err_message updateError with
  | Some m => Js.includes m "function" || Js.includes m "not found"
  | None => false
  end.

Definition no_such_function : js_error :=
  pg_error "PGRST202"
    "Could not find the function public.decrement_product_stock in the schema cache".

(** [supabaseAdmin.rpc('decrement_product_stock', { product_id_param, quantity_param })] *)
Definition rpc_decrement (pid : option string) (qty : Js.num) : M (pg unit) :=
  remote (RpcDecrementStock pid qty)
    (fun e _ d =>
       match e_decrement_product_stock e with
       | None => (PgError no_such_function, d)
       | Some f =>
           match f pid qty (products d) with
           | RpcDone ps => (PgData tt, Db.set_products ps d)
           | RpcFailed x => (PgError x, d)
           end
       end).

(** Lines 1022-1113: the stock of one item is taken without the stored
    procedure. *)
Definition decrement_fallback (item : item_input) : M unit :=
  r <- remote (SelectProduct (it_product_id item))
         (fun _ _ d => (Db.product_by_id (it_product_id item) d, d)) ;;
  match r with
  | PgData product =>
      let currentStock := Js.or_num (p_stock_quantity product) 0 in
      if Js.ge currentStock (Js.to_number (it_quantity item))
      then
        let newStock := (currentStock - Js.to_number (it_quantity item))%float in
        let newInStock := Js.gt newStock 0 in
        u <- remote (UpdateProductStock (it_product_id item) newStock newInStock)
               (fun _ _ d =>
                  Db.decrement_stock (it_product_id item) (it_quantity item)
                    newStock newInStock d) ;;
        match u with
        | PgData updatedProduct =>
            if PrimFloat.eqb newStock 0 && Js.truthy_str (p_name updatedProduct)
            then out_of_stock_alert (Js.or_empty (p_name updatedProduct))
            else ret tt
        | PgError _ => ret tt
        end
      else ret tt
  | PgError _ => ret tt
  end.

(** Lines 1009-1120: the stock of one item. *)
Definition decrement_item (item : item_input) : M unit :=
  r <- rpc_decrement (it_product_id item) (it_quantity item) ;;
  match r with
  | PgData _ => ret tt
  | PgError updateError =>
      if rpc_is_missing updateError then decrement_fallback item else ret tt
  end.

(** Lines 1005-1127: the stock is left alone for a pre-order. *)
Definition decrement_stock (b : create_body) (items : list item_input) : M unit :=
  if negb (c_is_pre_order b)
  then try_catch (for_each items decrement_item) (fun _ => ret tt)
  else ret tt.

(** Lines 1131-1142. *)
Definition fetch_user (b : create_body) : M (option user) :=
  match c_user_id b with
  | Some uid =>
      if Js.truthy_str (Some uid)
      then
        r <- remote (SelectUser uid)
               (fun _ _ d => (Db.maybe_single (Db.user_by_id uid d), d)) ;;
        ret (match r with
             | PgData data => data
             | PgError _ => None
             end)
      else ret None
  | None => ret None
  end.

(** [userData.full_name || `${first_name || ''} ${last_name || ''}`.trim() || 'Customer'] *)
Definition user_name (u : user) : string :=
  match u_full_name u with
  | Some n => if String.eqb n "" then first_last u else n
  | None => first_last u
  end.

Definition user_has_email (userData : option user) : bool :=
  match userData with
  | Some u => Js.truthy_str (u_email u)
  | None => false
  end.

Definition user_email (userData : option user) : option string :=
  match userData with
  | Some u => u_email u
  | None => None
  end.

(** Lines 1151-1160: the customer of the transaction record. *)
Definition transaction_customer (userData : option user) (a : address)
    : option string * string :=
  match userData with
  | Some u =>
      if Js.truthy_str (u_email u) then (u_email u, user_name u)
      else if Js.truthy_str (a_email a)
      then (a_email a, Js.or_lit (Js.or_str (a_full_name a) (a_first_name a)) "Guest Customer")
      else (None, "Customer")
  | None =>
      if Js.truthy_str (a_email a)
      then (a_email a, Js.or_lit (Js.or_str (a_full_name a) (a_first_name a)) "Guest Customer")
      else (None, "Customer")
  end.

(** [payment_method === 'paystack' ? 'paystack'
     : payment_method === 'cash_on_delivery' ? 'cash' : 'other'] *)
Definition payment_provider (b : create_body) : string :=
  match c_payment_method b with
  | Some m =>
      if String.eqb m "paystack" then "paystack"
      else if String.eqb m "cash_on_delivery" then "cash" else "other"
  | None => "other"
  end.

Definition transaction_metadata (b : create_body) (items : list item_input)
    (orderData : order) (finalOrderNumber customerName : string) : object :=
  obj_set "order_id" (MStr (o_id orderData))
    (obj_set_opt "payment_method" (c_payment_method b)
       (obj_set "total" (meta_number (calculatedTotal b items))
          (obj_set "shipping_fee" (meta_number (or_zero (finalDeliveryFee b)))
             (obj_set "tax" (meta_number (finalTax b))
                (obj_set "discount" (meta_number (finalDiscount b))
                   (obj_set "subtotal" (meta_number (actualSubtotal b items))
                      (obj_set "customer_name" (MStr customerName)
                         (obj_set "order_number" (MStr finalOrderNumber) [])))))))).

(** [payment_reference || `TXN-${orderData.id.slice(0, 8)}`] *)
Definition transaction_reference (b : create_body) (orderData : order) : string :=
  match c_payment_reference b with
  | Some r => if String.eqb r "" then ("TXN-" ++ Js.slice_to 8 (o_id orderData))%string else r
  | None => ("TXN-" ++ Js.slice_to 8 (o_id orderData))%string
  end.

(** [transactionData] (lines 1162-1185), with the id the database gives
    the row. *)
Definition transactionData (id : string) (now : Z) (b : create_body)
    (items : list item_input) (orderData : order)
    (finalOrderNumber : string) (customer : option string * string)
    (paystack_reference : option string) : transaction :=
  {| t_id := id;
     t_order_id := Some (o_id orderData);
     t_user_id := or_null (c_user_id b);
     t_transaction_reference := transaction_reference b orderData;
     t_paystack_reference := paystack_reference;
     t_payment_method := Js.or_lit (c_payment_method b) "cash_on_delivery";
     t_payment_provider := payment_provider b;
     t_amount := Js.json_number (calculatedTotal b items);
     t_currency := "GHS";
     t_status := paymentStatus b;
     t_payment_status := paymentStatus b;
     t_customer_email := Some (Js.or_lit (fst customer) "no-email@example.com");
     t_metadata := Some (transaction_metadata b items orderData finalOrderNumber (snd customer));
     t_initiated_at := now;
     t_updated_at := now |}.

(** Lines 1201-1211: what linking writes into a transaction that exists. *)
Definition link_transaction (b : create_body) (orderData : order)
    (finalOrderNumber : string) (customer : option string * string)
    (existingMetadata : option object) (now : Z) (t : transaction) : transaction :=
  {| t_id := t_id t;
     t_order_id := Some (o_id orderData);
     t_user_id := or_null (c_user_id b);
     t_transaction_reference := t_transaction_reference t;
     t_paystack_reference := t_paystack_reference t;
     t_payment_method := t_payment_method t;
     t_payment_provider := t_payment_provider t;
     t_amount := t_amount t;
     t_currency := t_currency t;
     t_status := t_status t;
     t_payment_status := t_payment_status t;
     t_customer_email := fst customer;
     t_metadata :=
       Some (obj_set "order_number" (MStr finalOrderNumber)
               (obj_set "customer_name" (MStr (snd customer))
                  (match existingMetadata with
                   | Some m => m
                   | None => []
                   end)));
     t_initiated_at := t_initiated_at t;
     t_updated_at := now |}.

(** [from('transactions').insert([transactionData])]; an error is printed. *)
Definition insert_transaction (b : create_body) (items : list item_input)
    (orderData : order) (finalOrderNumber : string)
    (customer : option string * string) (paystack_reference : option string)
    (now : Z) : M unit :=
  _ <- remote (InsertTransaction (transaction_reference b orderData))
         (fun e n d =>
            Db.insert_transaction
              (transactionData (e_uuid e n) now b items orderData finalOrderNumber
                 customer paystack_reference) d) ;;
  ret tt.

(** Lines 1146-1243: the transaction record of the order.  A transaction
    that carries the payment reference is linked to the order; otherwise
    a transaction is inserted. *)
Definition record_transaction (b : create_body) (items : list item_input)
    (orderData : order) (finalOrderNumber : string) (userData : option user)
    (address : address) : M unit :=
  try_catch
    (let customer := transaction_customer userData address in
     now <- new_date ;;
     match c_payment_reference b with
     | Some payment_reference =>
         if Js.truthy_str (Some payment_reference)
         then
           r <- remote (SelectTransactionByReference payment_reference)
                  (fun _ _ d => (Db.transaction_by_reference payment_reference d, d)) ;;
           match r with
           | PgData (Some existingTransaction) =>
               linked <- new_date ;;
               _ <- remote (LinkTransaction (t_id existingTransaction))
                      (fun _ _ d =>
                         Db.update_transactions (t_id existingTransaction)
                           (link_transaction b orderData finalOrderNumber customer
                              (t_metadata existingTransaction) (i_ms linked)) d) ;;
               ret tt
           | _ =>
               insert_transaction b items orderData finalOrderNumber customer
                 (Some payment_reference) (i_ms now)
           end
         else
           insert_transaction b items orderData finalOrderNumber customer None (i_ms now)
     | None =>
         insert_transaction b items orderData finalOrderNumber customer None (i_ms now)
     end)
    (fun _ => ret tt).

(** Lines 1251-1262: the customer the confirmation goes to. *)
Definition confirmation_recipient (userData : option user) (orderData : order)
    : option string :=
  if user_has_email userData then user_email userData
  else if Js.truthy_str (bio_email (o_customer_bio orderData))
  then bio_email (o_customer_bio orderData)
  else None.

(** Lines 1268-1303. *)
Definition send_confirmation (userData : option user) (orderData : order) : M unit :=
  match confirmation_recipient userData orderData with
  | Some customerEmail =>
      try_catch
        (_ <- send_mail OrderConfirmation (Some customerEmail) ;; ret tt)
        (fun _ => ret tt)
  | None => ret tt
  end.

(** Lines 1307-1327. *)
Definition record_coupon_usage (b : create_body) : M unit :=
  match c_coupon_id b with
  | Some coupon_id =>
      if Js.truthy_str (Some coupon_id) && Js.gt (finalDiscount b) 0
      then
        try_catch
          (_ <- remote (RpcRecordCouponUsage coupon_id) (fun _ _ d => (PgData tt, d)) ;;
           ret tt)
          (fun _ => ret tt)
      else ret tt
  | None => ret tt
  end.

(** Lines 1330-1357. *)
Definition notify_admin : M unit :=
  try_catch
    (_ <- send_mail AdminOrderNotification (Some admin_address) ;; ret tt)
    (fun _ => ret tt).

Definition full_name_of (userData : option user) : option string :=
  match userData with
  | Some u => u_full_name u
  | None => None
  end.

(** Lines 1360-1383: the notification for the dashboard. *)
Definition admin_notification (e : env) (orderData : order) (total : float)
    (userData : option user) (address : address) : notification :=
  let number := Js.or_empty (o_order_number orderData) in
  {| n_type := "order";
     n_title := ("New Order: " ++ number)%string;
     n_message :=
       ("New order received from " ++
        Js.or_lit (Js.or_str (full_name_of userData) (a_full_name address)) "Guest Customer" ++
        ". Total: GHS " ++ e_to_fixed2 e total)%string;
     n_data :=
       obj_set "customer_name"
         (MStr (Js.or_lit (Js.or_str (full_name_of userData) (a_full_name address)) "Guest"))
         (obj_set "order_number" (MStr number)
            (obj_set "order_id" (MStr (o_id orderData)) []));
     n_is_read := false |}.

(** [orderData.total.toFixed(2)] when the total of the row is [null]. *)
Definition toFixed_of_null : js_error :=
  {| err_code := None;
     err_message := Some "Cannot read properties of null (reading 'toFixed')";
     err_details := None; err_hint := None; err_is_Error := true;
     err_product_id := None |}.

(** The row is built before the insert is sent: for an order whose total
    is [null] building it throws, and nothing is sent. *)
Definition create_admin_notification (orderData : order) (userData : option user)
    (address : address) : M unit :=
  try_catch
    (match o_total orderData with
     | Some total =>
         _ <- remote (InsertNotification "order")
                (fun e _ d =>
                   Db.insert_notification
                     (admin_notification e orderData total userData address) d) ;;
         ret tt
     | None => throw toFixed_of_null
     end)
    (fun _ => ret tt).

(** Lines 1130-1397: what follows the stock of the items. *)
Definition after_stock (b : create_body) (items : list item_input)
    (orderData : order) (finalOrderNumber : string) (address : address) : M response :=
  userData <- fetch_user b ;;
  record_transaction b items orderData finalOrderNumber userData address ;;;
  send_confirmation userData orderData ;;;
  record_coupon_usage b ;;;
  notify_admin ;;;
  create_admin_notification orderData userData address ;;;
  ret (success "Order created successfully" (OrderData orderData)).

(** [from('orders').insert([orderInsertData]).select().single()] *)
Definition insert_order (b : create_body) (items : list item_input)
    (delivery_address : address) (finalOrderNumber : string) : M (pg order) :=
  remote (InsertOrder finalOrderNumber)
    (fun e n d =>
       Db.insert_order (orderInsertData e n b items delivery_address finalOrderNumber) d).

(** [order_number || await this.generateOrderNumber()] *)
Definition final_order_number (b : create_body) : M string :=
  match c_order_number b with
  | Some n => if String.eqb n "" then generateOrderNumber else ret n
  | None => generateOrderNumber
  end.

(** Lines 804-1397: the order is numbered, inserted with its items, and
    the rest follows. *)
Definition place_order (b : create_body) (items : list item_input)
    (delivery_address : address) : M response :=
  finalOrderNumber <- final_order_number b ;;
  let address := shippingAddress b delivery_address in
  let finalTotal := calculatedTotal b items in
  if Js.lt finalTotal 0
  then ret {| r_status := 400; r_success := false;
              r_message := "Invalid order total: negative amount detected.";
              r_error := Some "NEGATIVE_ORDER_TOTAL"; r_details := None;
              r_code := None; r_missing := []; r_data := NoData |}
  else if Js.gt finalTotal 100000
  then
    e <- ask ;;
    ret {| r_status := 400; r_success := false;
           r_message :=
             ("Invalid order total detected (" ++ e_to_fixed2 e finalTotal ++
              " GHS). Prices must be in GHS, not pesewas. Please contact support.")%string;
           r_error := Some "INVALID_TOTAL_PESEWAS_DETECTED";
           r_details :=
             Some "Order total exceeds reasonable limit. This may indicate prices were sent in pesewas instead of GHS.";
           r_code := None; r_missing := []; r_data := NoData |}
  else
    inserted <- insert_order b items delivery_address finalOrderNumber ;;
    match inserted with
    | PgError orderError => throw orderError
    | PgData orderData =>
        insert_order_items orderData items ;;;
        decrement_stock b items ;;;
        after_stock b items orderData finalOrderNumber address
    end.

(** Lines 742-800: every product of the order exists. *)
Definition validate_products (items : list item_input)
    (k : M response) : M response :=
  let productIds := map it_product_id items in
  if (List.length productIds =? 0)%nat
  then ret (failure 400 "No product IDs found in order items" (Some "INVALID_ORDER_ITEMS"))
  else
    let valid := validProductIds productIds in
    if negb (List.length valid =? List.length productIds)%nat
    then ret (failure 400 "Some order items have invalid product IDs"
                (Some "INVALID_PRODUCT_IDS"))
    else
      checked <- remote (SelectProductsIn valid)
                   (fun _ _ d => (PgData (Db.products_in valid d), d)) ;;
      match checked with
      | PgError productsCheckError =>
          ret (failure 400 "Failed to validate products" (err_message productsCheckError))
      | PgData existingProducts =>
          let existingProductIds := map p_id existingProducts in
          let missingProductIds :=
            filter (fun id => negb (Db.mem id existingProductIds)) valid in
          if (0 <? List.length missingProductIds)%nat
          then ret {| r_status := 400; r_success := false;
                      r_message :=
                        ("Products not found: " ++ String.concat ", " missingProductIds ++
                         ". These products may have been removed from the catalog.")%string;
                      r_error := Some "PRODUCTS_NOT_FOUND"; r_details := None;
                      r_code := None; r_missing := missingProductIds; r_data := NoData |}
          else k
      end.

(** The [catch] of [createOrder] (lines 1398-1415). *)
Definition create_failure (x : js_error) : response :=
  {| r_status := 500; r_success := false; r_message := "Failed to create order";
     r_error :=
       Some (if err_is_Error x then Js.or_empty (err_message x)
             else Js.or_lit (err_message x) "Unknown error");
     r_details := Js.or_str (err_details x) (or_null (err_hint x));
     r_code := or_null (err_code x);
     r_missing := []; r_data := NoData |}.

(** [async createOrder(req, res)] (lines 668-1416) *)
Definition createOrder (b : create_body) : M response :=
  try_catch
    (match c_order_items b with
     | None =>
         ret (failure 400 "Order items are required" (Some "No order items provided"))
     | Some [] =>
         ret (failure 400 "Order items are required" (Some "No order items provided"))
     | Some items =>
         match c_delivery_address b with
         | None =>
             ret (failure 400 "Delivery address is required"
                    (Some "No delivery address provided"))
         | Some delivery_address =>
             if negb (Js.truthy (c_total b)) || Js.le (Js.to_number (c_total b)) 0
             then ret (failure 400 "Invalid total amount"
                         (Some "Total must be greater than 0"))
             else validate_products items (place_order b items delivery_address)
         end
     end)
    (fun x => ret (create_failure x)).

End OrderController.

(* ------------------------------------------------------------------ *)
(** ** TransactionController *)
(* ------------------------------------------------------------------ *)

Module TransactionController.

(** The order joined to a transaction by
    [order:orders!transactions_order_id_fkey(id, order_number, status, payment_status)]. *)
Definition joined_order (t : transaction) (d : db) : option order :=
  match t_order_id t with
  | Some oid => hd_error (Db.order_by_id oid d)
  | None => None
  end.

Definition set_refunded (now : Z) (t : transaction) : transaction :=
  {| t_id := t_id t; t_order_id := t_order_id t; t_user_id := t_user_id t;
     t_transaction_reference := t_transaction_reference t;
     t_paystack_reference := t_paystack_reference t;
     t_payment_method := t_payment_method t;
     t_payment_provider := t_payment_provider t;
     t_amount := t_amount t; t_currency := t_currency t;
     t_status := "refunded"; t_payment_status := "refunded";
     t_customer_email := t_customer_email t; t_metadata := t_metadata t;
     t_initiated_at := t_initiated_at t; t_updated_at := now |}.

(** [from('transactions').select(`*, order:..`).eq('id', id).single()] *)
Definition select_transaction (id : string)
    : M (pg (option (transaction * option order))) :=
  remote (SelectTransaction id)
    (fun _ _ d =>
       (OrderController.pg_map (fun t => Some (t, joined_order t d))
          (Db.single (Db.transaction_by_id id d)), d)).

(** Lines 354-367: the payment status of the order a refunded transaction
    belongs to. *)
Definition refund_order (transaction : transaction) (order : option order) : M unit :=
  match t_order_id transaction, order with
  | Some order_id, Some o =>
      if Js.truthy_str (Some order_id) &&
         (String.eqb (o_status o) "cancelled" || String.eqb (o_status o) "pending")
      then
        now <- new_date ;;
        _ <- remote (UpdateOrder order_id)
               (fun _ _ d =>
                  Db.update_orders order_id
                    (OrderController.set_payment_status "refunded" (i_ms now)) d) ;;
        ret tt
      else ret tt
  | _, _ => ret tt
  end.

(** [async refundTransaction(req, res)] (lines 301-384) *)
Definition refundTransaction (id : string) : M response :=
  handle
    (fetched <- select_transaction id ;;
     match fetched with
     | PgError fetchError => throw fetchError
     | PgData None => ret (failure 404 "Transaction not found" None)
     | PgData (Some (transaction, order)) =>
         if negb (String.eqb (t_payment_status transaction) "paid")
         then ret (failure 400 "Only paid transactions can be refunded" None)
         else if String.eqb (t_payment_status transaction) "refunded"
         then ret (failure 400 "Transaction has already been refunded" None)
         else
           updated <- remote (RefundTransaction id)
                        (fun e n d =>
                           Db.update_transaction_returning id
                             (set_refunded (i_ms (e_clock e n))) d) ;;
           match updated with
           | PgError updateError => throw updateError
           | PgData updatedTransaction =>
               refund_order transaction order ;;;
               ret (success "Transaction refunded successfully"
                      (TransactionData updatedTransaction))
           end
     end)
    "Failed to refund transaction".

End TransactionController.

(* ------------------------------------------------------------------ *)
(** ** Vocabulary of the properties *)
(* ------------------------------------------------------------------ *)

(** The events a computation adds to the log, and the tables after it. *)
Definition log_of {A} (m : M A) (e : env) (w : world) : list event :=
  skipn (List.length (w_log w)) (w_log (snd (m e w))).

Definition db_after {A} (m : M A) (e : env) (w : world) : db :=
  w_db (snd (m e w)).

(** The world a request starts in. *)
Definition start (d : db) : world := {| w_db := d; w_tick := 0; w_log := [] |}.

(** A relation between the world before a computation and the world
    after it, whatever the computation returns or throws. *)
Definition eff {A} (e : env) (R : world -> world -> Prop) (m : M A) : Prop :=
  forall w, R w (snd (m e w)).

(** The computation leaves a part of the database as it is. *)
Definition keeps {X} (f : db -> X) (w w' : world) : Prop :=
  f (w_db w') = f (w_db w).

(** The computation adds events to the log, all of which satisfy [P]. *)
Definition logs (P : event -> Prop) (w w' : world) : Prop :=
  exists l, w_log w' = w_log w ++ l /\ Forall P l.

(** The clock of remote calls does not go back. *)
Definition ticks (w w' : world) : Prop := w_tick w <= w_tick w'.

(** The steps of order creation, in the order of the specification:
    1 the products are validated, 2 the order row is inserted (its number
    is looked up first), 3 the items are inserted (and the order deleted
    when that fails), 4 the stock is decremented (with the alerts of a
    product that runs out), 5 the payment transaction is created or linked
    (the user is read first), 6 the confirmation and admin emails are sent
    (the coupon usage is recorded between them), 7 the admin notification
    is created.  Calls that [createOrder] never makes are given 0. *)
Definition step_of (c : call) : nat :=
  match c with
  | SelectProductsIn _ => 1
  | SelectLastOrderToday => 2
  | InsertOrder _ => 2
  | InsertOrderItems _ => 3
  | DeleteOrder _ => 3
  | RpcDecrementStock _ _ => 4
  | SelectProduct _ => 4
  | UpdateProductStock _ _ _ => 4
  | InsertNotification type => if String.eqb type "alert" then 4 else 7
  | SendEmail OutOfStockAlert _ => 4
  | SelectUser _ => 5
  | SelectTransactionByReference _ => 5
  | LinkTransaction _ => 5
  | InsertTransaction _ => 5
  | SendEmail OrderConfirmation _ => 6
  | RpcRecordCouponUsage _ => 6
  | SendEmail AdminOrderNotification _ => 6
  | SendEmail OrderStatusUpdate _ => 0
  | SelectOrder _ => 0
  | UpdateOrder _ => 0
  | SelectTransaction _ => 0
  | RefundTransaction _ => 0
  end.

Definition step (ev : event) : nat := step_of (ev_call ev).

(** The events of a list are in the order of their steps, which lie
    between [lo] and [hi]. *)
Definition in_order (lo hi : nat) (l : list event) : Prop :=
  StronglySorted (fun a b => step a <= step b) l /\
  Forall (fun ev => lo <= step ev <= hi) l.

Definition staged (lo hi : nat) (w w' : world) : Prop :=
  exists l, w_log w' = w_log w ++ l /\ in_order lo hi l.

(** A write of a product row by a handler. *)
Definition is_stock_write (ev : event) : bool :=
  match ev_call ev with
  | UpdateProductStock _ _ _ => true
  | _ => false
  end.




(* ------------------------------------------------------------------ *)
(** ** Sample data *)
(* ------------------------------------------------------------------ *)

(** A small shop: one product with five units in stock, and requests on
    it.  The statements below are tried on these. *)
Module Sample.

Definition noon : instant :=
  {| i_day := 2; i_month := 10; i_year := 2026;
     i_ms := 1793620800123; i_midnight := 1793577600000 |}.

(** Every call is carried out; the database has no stored procedure for
    the stock, so that the handlers take it themselves. *)
Definition env_ok : env :=
  {| e_reply := fun _ => Done;
     e_uuid := fun n => ("row-" ++ Js.string_of_N (N.of_nat n))%string;
     e_clock := fun _ => noon;
     e_mail := fun _ => Sent;
     e_decrement_product_stock := None;
     e_locale_date := fun s => s;
     e_to_fixed2 := fun _ => "0.00";
     e_toLowerCase := Js.ascii_lower_case |}.

Definition unreachable : js_error :=
  {| err_code := None; err_message := Some "fetch failed"; err_details := None;
     err_hint := None; err_is_Error := true; err_product_id := None |}.

(** The environment in which the calls numbered in [refused] are refused
    and those in [raised] throw. *)
Definition env_with (refused raised : list nat) : env :=
  {| e_reply := fun n =>
       if existsb (Nat.eqb n) raised then Raised unreachable
       else if existsb (Nat.eqb n) refused then Refused unreachable
       else Done;
     e_uuid := e_uuid env_ok;
     e_clock := e_clock env_ok;
     e_mail := e_mail env_ok;
     e_decrement_product_stock := None;
     e_locale_date := e_locale_date env_ok;
     e_to_fixed2 := e_to_fixed2 env_ok;
     e_toLowerCase := e_toLowerCase env_ok |}.

Definition phone : product :=
  {| p_id := "p1"; p_name := Some "Phone";
     p_stock_quantity := Js.Num 5; p_in_stock := true |}.

Definition home : address :=
  {| a_email := Some "ama@example.com"; a_full_name := Some "Ama Mensah";
     a_first_name := None; a_recipient_name := None; a_delivery_option := None;
     a_is_pre_order := false; a_pre_order_shipping_option := None;
     a_estimated_arrival_date := None; a_payment_reference := None |}.

Definition shop : db :=
  {| products := [phone]; orders := []; order_items := []; transactions := [];
     notifications := []; users := [] |}.

Definition two_phones : OrderController.item_input :=
  {| OrderController.it_product_id := Some "p1";
     OrderController.it_product_name := Some "Phone";
     OrderController.it_product_image := None;
     OrderController.it_quantity := Js.Num 2;
     OrderController.it_unit_price := Js.Num 100;
     OrderController.it_subtotal := Js.Undefined;
     OrderController.it_total_price := Js.Undefined;
     OrderController.it_selected_variants := None |}.

(** An order of two phones, 200 plus 10 for delivery, paid on delivery. *)
Definition request (pre_order : bool) (reference : option string)
    : OrderController.create_body :=
  {| OrderController.c_user_id := None;
     OrderController.c_order_number := None;
     OrderController.c_subtotal := Js.Num 200;
     OrderController.c_discount := Js.Undefined;
     OrderController.c_tax := Js.Undefined;
     OrderController.c_delivery_fee := Js.Num 10;
     OrderController.c_delivery_option := None;
     OrderController.c_total := Js.Num 210;
     OrderController.c_payment_method :=
       match reference with Some _ => Some "paystack" | None => Some "cash_on_delivery" end;
     OrderController.c_delivery_address := Some home;
     OrderController.c_customer_bio := None;
     OrderController.c_order_items := Some [two_phones];
     OrderController.c_notes := None;
     OrderController.c_payment_reference := reference;
     OrderController.c_is_pre_order := pre_order;
     OrderController.c_pre_order_shipping_option := None;
     OrderController.c_estimated_arrival_date := None;
     OrderController.c_coupon_id := None |}.

(** An order of two phones as the table holds it. *)
Definition stored (status : string) (column_flag address_flag : bool) : order :=
  {| o_id := "o1"; o_user_id := None; o_order_number := Some "ORD-001021126";
     o_subtotal := Some 200%float; o_discount := Some 0%float; o_tax := Some 0%float;
     o_shipping_fee := Some 10%float;
     o_total := Some 210%float; o_payment_method := Some "cash_on_delivery";
     o_shipping_address :=
       Some {| a_email := Some "ama@example.com"; a_full_name := Some "Ama Mensah";
               a_first_name := None; a_recipient_name := None;
               a_delivery_option := None; a_is_pre_order := address_flag;
               a_pre_order_shipping_option := None;
               a_estimated_arrival_date := None; a_payment_reference := None |};
     o_customer_bio := None; o_notes := None;
     o_status := status; o_payment_status := "pending";
     o_tracking_number := None; o_is_pre_order := column_flag;
     o_created_at := 1793620000000; o_updated_at := 1793620000000 |}.

Definition stored_item : order_item :=
  {| oi_order_id := "o1"; oi_product_id := Some "p1"; oi_product_name := Some "Phone";
     oi_product_image := None; oi_quantity := Js.Num 2; oi_unit_price := Some 100%float;
     oi_total_price := Some 200%float; oi_selected_variants := None |}.

(** The shop with that order in it. *)
Definition shop_with (o : order) : db :=
  {| products := [phone]; orders := [o]; order_items := [stored_item];
     transactions := []; notifications := []; users := [] |}.

Definition by_owner : OrderController.cancel_body :=
  {| OrderController.k_cancellation_reason := None;
     OrderController.k_email := Some "ama@example.com" |}.

Definition to_status (s : string) : OrderController.status_body :=
  {| OrderController.s_status := Some s;
     OrderController.s_tracking_number := None;
     OrderController.s_notes := None |}.

(** A transaction a payment webhook made before the order. *)
Definition webhook_transaction : transaction :=
  {| t_id := "t1"; t_order_id := None; t_user_id := None;
     t_transaction_reference := "PAY-77"; t_paystack_reference := Some "PAY-77";
     t_payment_method := "paystack"; t_payment_provider := "paystack";
     t_amount := Some 210%float; t_currency := "GHS"; t_status := "paid";
     t_payment_status := "paid"; t_customer_email := None;
     t_metadata := Some [("channel", MStr "card")];
     t_initiated_at := 1793620000000; t_updated_at := 1793620000000 |}.

Definition shop_paid : db :=
  {| products := [phone]; orders := []; order_items := [];
     transactions := [webhook_transaction]; notifications := []; users := [] |}.

End Sample.

(* ------------------------------------------------------------------ *)
(** ** The words of the specification *)
(* ------------------------------------------------------------------ *)

(** The four payment statuses of the specification. *)
Definition valid_payment_status (s : string) : Prop :=
  s = "pending" \/ s = "paid" \/ s = "failed" \/ s = "refunded".

(** No product row is written: the products are as before and no write
    of a product row is logged. *)
Definition no_stock_write (ev : event) : Prop := is_stock_write ev = false.

Definition quiet (w w' : world) : Prop :=
  products (w_db w') = products (w_db w) /\ logs no_stock_write w w'.

(** The number of product rows written according to a log. *)
Definition stock_writes (l : list event) : nat :=
  List.length (filter is_stock_write l).

(** *** Order numbers *)

(** Two and three decimal digits, with leading zeros. *)
Definition two_digits (n : N) : string :=
  String (Js.digit_char (n / 10)) (String (Js.digit_char (n mod 10)) EmptyString).

Definition three_digits_of (n : N) : string :=
  String (Js.digit_char (n / 100)) (two_digits (n mod 100)).

(** DDMMYY: the day, the month counted from 1 and the last two digits of
    the year. *)
Definition ddmmyy (now : instant) : string :=
  (two_digits (i_day now) ++ two_digits (i_month now + 1) ++
   two_digits (i_year now mod 100))%string.

(** A date of the calendar. *)
Definition calendar (now : instant) : Prop :=
  (i_day now <= 31 /\ i_month now <= 11 /\ 10 <= i_year now)%N.

(** The sequence in an order number: the three digits after its first
    [ORD-] followed by three digits. *)
Definition sequence_of (lastOrder : option order) : option N :=
  match lastOrder with
  | Some o =>
      match o_order_number o with
      | Some number => option_map Js.parse_int (OrderController.match_ord number)
      | None => None
      end
  | None => None
  end.

(** One more than the sequence of the most recent order of today; 1 when
    there is none, and 1 again when the sequence would exceed 999. *)
Definition claimed_sequence (last : option N) : N :=
  match last with
  | Some s => if (s + 1 <=? 999)%N then (s + 1)%N else 1%N
  | None => 1%N
  end.

(** ORD-SSSDDMMYY *)
Definition claimed_order_number (now : instant) (sequence : N) : string :=
  ("ORD-" ++ three_digits_of sequence ++ ddmmyy now)%string.

(** The order number of the specification at the [n]-th call of a
    request on the database [d]: the sequence follows that of the most
    recent order of today. *)
Definition claimed_number_at (e : env) (n : nat) (d : db) : string :=
  claimed_order_number (e_clock e n)
    (claimed_sequence (sequence_of (Db.last_order_since (i_midnight (e_clock e n)) d))).

(** The order number as amended: when the lookup of the last order is
    refused there is no last order, and when it throws the sequence is
    replaced by the last three digits of the clock in milliseconds. *)
Definition generated_number_at (e : env) (n : nat) (d : db) : string :=
  match e_reply e n with
  | Done => claimed_number_at e n d
  | Refused _ => claimed_order_number (e_clock e n) 1
  | Raised _ =>
      ("ORD-" ++ Js.slice_last 3 (Js.string_of_N (Z.to_N (i_ms (e_clock e (S n))))) ++
       ddmmyy (e_clock e (S n)))%string
  end.

(** The order number an event of inserting an order carries is [number]. *)
Definition inserts_number (number : string) (ev : event) : Prop :=
  forall n, ev_call ev = InsertOrder n -> n = number.

(** *** Totals *)

(** The request with another [total]. *)
Definition with_total (t : Js.num) (b : OrderController.create_body)
    : OrderController.create_body :=
  {| OrderController.c_user_id := OrderController.c_user_id b;
     OrderController.c_order_number := OrderController.c_order_number b;
     OrderController.c_subtotal := OrderController.c_subtotal b;
     OrderController.c_discount := OrderController.c_discount b;
     OrderController.c_tax := OrderController.c_tax b;
     OrderController.c_delivery_fee := OrderController.c_delivery_fee b;
     OrderController.c_delivery_option := OrderController.c_delivery_option b;
     OrderController.c_total := t;
     OrderController.c_payment_method := OrderController.c_payment_method b;
     OrderController.c_delivery_address := OrderController.c_delivery_address b;
     OrderController.c_customer_bio := OrderController.c_customer_bio b;
     OrderController.c_order_items := OrderController.c_order_items b;
     OrderController.c_notes := OrderController.c_notes b;
     OrderController.c_payment_reference := OrderController.c_payment_reference b;
     OrderController.c_is_pre_order := OrderController.c_is_pre_order b;
     OrderController.c_pre_order_shipping_option :=
       OrderController.c_pre_order_shipping_option b;
     OrderController.c_estimated_arrival_date :=
       OrderController.c_estimated_arrival_date b;
     OrderController.c_coupon_id := OrderController.c_coupon_id b |}.

(** The number a key of the request gives: none when the key is
    missing or [null], and none for zero and for what is no number. *)
Definition given (v : Js.num) : option float :=
  match v with
  | Js.Num x => if PrimFloat.is_zero x || PrimFloat.is_nan x then None else Some x
  | _ => None
  end.

(** An amount of the request, zero when none is given. *)
Definition amount (v : Js.num) : float :=
  match given v with
  | Some x => x
  | None => 0%float
  end.

(** The amount of an item: the subtotal it gives, or else its unit price
    times its quantity, a quantity that is not given counting as one. *)
Definition claimed_item_amount (item : OrderController.item_input) : float :=
  match given (OrderController.it_subtotal item) with
  | Some x => x
  | None =>
      (Js.to_number (OrderController.it_unit_price item) *
       match given (OrderController.it_quantity item) with
       | Some q => q
       | None => 1
       end)%float
  end.

(** The subtotal of the specification: the one supplied, or the sum over
    the items when it is missing or zero. *)
Definition claimed_subtotal (b : OrderController.create_body)
    (items : list OrderController.item_input) : float :=
  match given (OrderController.c_subtotal b) with
  | Some x => x
  | None => fold_left (fun sum item => (sum + claimed_item_amount item)%float) items 0%float
  end.

(** subtotal + delivery_fee + tax - discount *)
Definition claimed_total (b : OrderController.create_body)
    (items : list OrderController.item_input) : float :=
  (claimed_subtotal b items + amount (OrderController.c_delivery_fee b)
   + amount (OrderController.c_tax b) - amount (OrderController.c_discount b))%float.

(** The request with another subtotal, another discount and other items. *)
Definition with_amounts (subtotal discount : Js.num)
    (items : list OrderController.item_input) (b : OrderController.create_body)
    : OrderController.create_body :=
  {| OrderController.c_user_id := OrderController.c_user_id b;
     OrderController.c_order_number := OrderController.c_order_number b;
     OrderController.c_subtotal := subtotal;
     OrderController.c_discount := discount;
     OrderController.c_tax := OrderController.c_tax b;
     OrderController.c_delivery_fee := OrderController.c_delivery_fee b;
     OrderController.c_delivery_option := OrderController.c_delivery_option b;
     OrderController.c_total := OrderController.c_total b;
     OrderController.c_payment_method := OrderController.c_payment_method b;
     OrderController.c_delivery_address := OrderController.c_delivery_address b;
     OrderController.c_customer_bio := OrderController.c_customer_bio b;
     OrderController.c_order_items := Some items;
     OrderController.c_notes := OrderController.c_notes b;
     OrderController.c_payment_reference := OrderController.c_payment_reference b;
     OrderController.c_is_pre_order := OrderController.c_is_pre_order b;
     OrderController.c_pre_order_shipping_option :=
       OrderController.c_pre_order_shipping_option b;
     OrderController.c_estimated_arrival_date :=
       OrderController.c_estimated_arrival_date b;
     OrderController.c_coupon_id := OrderController.c_coupon_id b |}.

(** Three phones at 100 each, with no subtotal of their own. *)
Definition three_phones : OrderController.item_input :=
  {| OrderController.it_product_id := Some "p1";
     OrderController.it_product_name := Some "Phone";
     OrderController.it_product_image := None;
     OrderController.it_quantity := Js.Num 3;
     OrderController.it_unit_price := Js.Num 100;
     OrderController.it_subtotal := Js.Undefined;
     OrderController.it_total_price := Js.Undefined;
     OrderController.it_selected_variants := None |}.

(** The order of three phones without a subtotal: it is summed over the
    items, 300, and the total is 310. *)
Definition request_without_subtotal : OrderController.create_body :=
  with_amounts Js.Undefined Js.Undefined [three_phones] (Sample.request false None).

(** A phone without a price. *)
Definition unpriced_phone : OrderController.item_input :=
  {| OrderController.it_product_id := Some "p1";
     OrderController.it_product_name := Some "Phone";
     OrderController.it_product_image := None;
     OrderController.it_quantity := Js.Num 1;
     OrderController.it_unit_price := Js.Undefined;
     OrderController.it_subtotal := Js.Undefined;
     OrderController.it_total_price := Js.Undefined;
     OrderController.it_selected_variants := None |}.

(** An order without a subtotal whose item has no price: its total is
    no number. *)
Definition unpriced_request : OrderController.create_body :=
  with_amounts Js.Undefined Js.Undefined [unpriced_phone] (Sample.request false None).

(** A discount of 500 on the order of 210 makes the total negative. *)
Definition discounted_request : OrderController.create_body :=
  {| OrderController.c_user_id := None; OrderController.c_order_number := None;
     OrderController.c_subtotal := Js.Num 200; OrderController.c_discount := Js.Num 500; OrderController.c_tax := Js.Undefined;
     OrderController.c_delivery_fee := Js.Num 10; OrderController.c_delivery_option := None; OrderController.c_total := Js.Num 210;
     OrderController.c_payment_method := Some "cash_on_delivery";
     OrderController.c_delivery_address := Some Sample.home; OrderController.c_customer_bio := None;
     OrderController.c_order_items := Some [Sample.two_phones]; OrderController.c_notes := None;
     OrderController.c_payment_reference := None; OrderController.c_is_pre_order := false;
     OrderController.c_pre_order_shipping_option := None; OrderController.c_estimated_arrival_date := None;
     OrderController.c_coupon_id := None |}.

(** *** Events of the steps *)

(** An event of the steps before the items are inserted. *)
Definition early (ev : event) : Prop := step ev <= 2.

(** An event of step [s]. *)
Definition of_step (s : nat) (ev : event) : Prop := step ev = s.

(** An event of the steps from [s] on. *)
Definition from_step (s : nat) (ev : event) : Prop := s <= step ev.

(** What [createOrder] runs once the order is inserted (lines 956-1397),
    under its [catch]. *)
Definition after_insert (b : OrderController.create_body)
    (items : list OrderController.item_input) (o : order) (number : string)
    (a : address) : M response :=
  try_catch
    (bind (OrderController.insert_order_items o items)
       (fun _ =>
          bind (OrderController.decrement_stock b items)
            (fun _ => OrderController.after_stock b items o number a)))
    (fun x => ret (OrderController.create_failure x)).

(** The computation logs the call [c] first, and then events that satisfy
    [P]. *)
Definition logs_from (c : call) (P : event -> Prop) (w w' : world) : Prop :=
  exists res l,
    w_log w' = w_log w ++ {| ev_call := c; ev_result := res |} :: l /\ Forall P l.

(** The computation logs a call of step [s] first, and then events of
    that step. *)
Definition logs_some (s : nat) (w w' : world) : Prop :=
  exists c, step_of c = s /\ logs_from c (of_step s) w w'.

(** A call on the table of transactions. *)
Definition on_transactions (ev : event) : bool :=
  match ev_call ev with
  | SelectTransactionByReference _ => true
  | LinkTransaction _ => true
  | InsertTransaction _ => true
  | _ => false
  end.

Definition off_transactions (ev : event) : Prop := on_transactions ev = false.

(** *** The steps of an order, one by one *)













(* ------------------------------------------------------------------ *)
(** ** Further sample data *)
(* ------------------------------------------------------------------ *)

Module Sample2.

(** The request of two phones with another list of items. *)
Definition with_items (items : option (list OrderController.item_input))
    (b : OrderController.create_body) : OrderController.create_body :=
  {| OrderController.c_user_id := OrderController.c_user_id b;
     OrderController.c_order_number := OrderController.c_order_number b;
     OrderController.c_subtotal := OrderController.c_subtotal b;
     OrderController.c_discount := OrderController.c_discount b;
     OrderController.c_tax := OrderController.c_tax b;
     OrderController.c_delivery_fee := OrderController.c_delivery_fee b;
     OrderController.c_delivery_option := OrderController.c_delivery_option b;
     OrderController.c_total := OrderController.c_total b;
     OrderController.c_payment_method := OrderController.c_payment_method b;
     OrderController.c_delivery_address := OrderController.c_delivery_address b;
     OrderController.c_customer_bio := OrderController.c_customer_bio b;
     OrderController.c_order_items := items;
     OrderController.c_notes := OrderController.c_notes b;
     OrderController.c_payment_reference := OrderController.c_payment_reference b;
     OrderController.c_is_pre_order := OrderController.c_is_pre_order b;
     OrderController.c_pre_order_shipping_option :=
       OrderController.c_pre_order_shipping_option b;
     OrderController.c_estimated_arrival_date :=
       OrderController.c_estimated_arrival_date b;
     OrderController.c_coupon_id := OrderController.c_coupon_id b |}.

(** An item of a product the shop does not have. *)
Definition a_tablet : OrderController.item_input :=
  {| OrderController.it_product_id := Some "p9";
     OrderController.it_product_name := Some "Tablet";
     OrderController.it_product_image := None;
     OrderController.it_quantity := Js.Num 1;
     OrderController.it_unit_price := Js.Num 200;
     OrderController.it_subtotal := Js.Undefined;
     OrderController.it_total_price := Js.Undefined;
     OrderController.it_selected_variants := None |}.

(** An item without a product id. *)
Definition nameless : OrderController.item_input :=
  {| OrderController.it_product_id := None;
     OrderController.it_product_name := Some "Phone";
     OrderController.it_product_image := None;
     OrderController.it_quantity := Js.Num 1;
     OrderController.it_unit_price := Js.Num 200;
     OrderController.it_subtotal := Js.Undefined;
     OrderController.it_total_price := Js.Undefined;
     OrderController.it_selected_variants := None |}.

End Sample2.

(** *** Requests for an order *)

(** The product ids of the items of a request that no product of the
    table has. *)
Definition unknown_products (items : list OrderController.item_input) (d : db)
    : list string :=
  filter (fun id => negb (Db.mem id (map p_id (products d))))
    (OrderController.validProductIds (map OrderController.it_product_id items)).

(** The item names a product by an id that is not blank. *)
Definition names_product (item : OrderController.item_input) : bool :=
  match OrderController.it_product_id item with
  | Some id => negb (String.eqb (Js.trim id) "")
  | None => false
  end.

(** The fields [createOrder] requires are there: items, an address and a
    total above zero. *)
Definition complete (b : OrderController.create_body)
    (items : list OrderController.item_input) : Prop :=
  OrderController.c_order_items b = Some items /\ items <> [] /\
  OrderController.c_delivery_address b <> None /\
  Js.truthy (OrderController.c_total b) = true /\
  Js.le (Js.to_number (OrderController.c_total b)) 0 = false.

(** *** The answers of the handlers *)

(** Every response a computation returns satisfies [P]. *)
Definition answers (e : env) (P : response -> Prop) (m : M response) : Prop :=
  forall w r, fst (m e w) = Val r -> P r.

(** The status of a response is one of [l], and the response says
    [success] exactly with the status 200. *)
Definition status_in (l : list nat) (r : response) : Prop :=
  In (r_status r) l /\ (r_success r = true <-> r_status r = 200).

(** The message of the branch of [refundTransaction] for a transaction
    that is refunded already. *)
Definition already_refunded : string := "Transaction has already been refunded".
(** *** Cancelling the order of a guest *)

(** The email given with a cancellation is the one stored with the
    order, once [toLowerCase] has been applied to both. *)
Definition email_verified (e : env) (b : OrderController.cancel_body) (o : order) : bool :=
  Js.truthy_str (OrderController.k_email b) &&
  Js.truthy_str (OrderController.address_email (o_shipping_address o)) &&
  String.eqb
    (e_toLowerCase e (Js.or_empty (OrderController.address_email (o_shipping_address o))))
    (e_toLowerCase e (Js.or_empty (OrderController.k_email b))).

Module Sample3.

(** Cancellations of the stored order by someone else, and by nobody. *)
Definition by_stranger : OrderController.cancel_body :=
  {| OrderController.k_cancellation_reason := Some "changed my mind";
     OrderController.k_email := Some "kofi@example.com" |}.

Definition by_nobody : OrderController.cancel_body :=
  {| OrderController.k_cancellation_reason := None;
     OrderController.k_email := None |}.

(** The owner, in capital letters. *)
Definition by_owner_in_capitals : OrderController.cancel_body :=
  {| OrderController.k_cancellation_reason := None;
     OrderController.k_email := Some "AMA@Example.COM" |}.

End Sample3.
Module Sample4.

(** The stored order as the order of the user [u1]. *)
Definition of_user : order :=
  {| o_id := "o1"; o_user_id := Some "u1"; o_order_number := Some "ORD-001021126";
     o_subtotal := Some 200%float; o_discount := Some 0%float; o_tax := Some 0%float;
     o_shipping_fee := Some 10%float;
     o_total := Some 210%float; o_payment_method := Some "cash_on_delivery";
     o_shipping_address := Some Sample.home;
     o_customer_bio := None; o_notes := None;
     o_status := "pending"; o_payment_status := "pending";
     o_tracking_number := None; o_is_pre_order := false;
     o_created_at := 1793620000000; o_updated_at := 1793620000000 |}.

End Sample4.
(** *** What a change of status leaves *)

(** [o'] is the order [o] with, at most, another status, payment status,
    tracking number, notes and time of update; and it is [o] itself when
    [o] is not the order [id]. *)
Definition still_the_order (id : string) (o o' : order) : Prop :=
  o_id o' = o_id o /\ o_user_id o' = o_user_id o /\
  o_order_number o' = o_order_number o /\
  o_subtotal o' = o_subtotal o /\ o_discount o' = o_discount o /\
  o_tax o' = o_tax o /\ o_shipping_fee o' = o_shipping_fee o /\
  o_total o' = o_total o /\ o_payment_method o' = o_payment_method o /\
  o_shipping_address o' = o_shipping_address o /\
  o_customer_bio o' = o_customer_bio o /\
  o_is_pre_order o' = o_is_pre_order o /\ o_created_at o' = o_created_at o /\
  (o_id o <> id -> o' = o).

(** The table of orders has the same orders, row by row, and the tables
    of items, transactions, notifications and users are as before. *)
Definition orders_framed (id : string) (w w' : world) : Prop :=
  Forall2 (still_the_order id) (orders (w_db w)) (orders (w_db w')) /\
  order_items (w_db w') = order_items (w_db w) /\
  transactions (w_db w') = transactions (w_db w) /\
  notifications (w_db w') = notifications (w_db w) /\
  users (w_db w') = users (w_db w).
Module Sample5.

(** The stored order, refunded. *)
Definition refunded : order :=
  OrderController.set_payment_status "refunded" 1793620500000
    (Sample.stored "pending" false false).

End Sample5.

Module Sample6.


End Sample6.

(** *** Stock of one product *)

(** *** The products a cancellation may touch *)

(** The product is the product of one of the items. *)
Definition named_by (items : list order_item) (p : product) : bool :=
  existsb (fun item => Db.id_is (oi_product_id item) p) items.

(** The table of products has the same products, row by row, under the
    same ids and names, and those that no item names are as before. *)
Definition products_framed (items : list order_item) (w w' : world) : Prop :=
  Forall2 (fun p p' => p_id p' = p_id p /\ p_name p' = p_name p /\
                       (named_by items p = false -> p' = p))
    (products (w_db w)) (products (w_db w')).

(* ------------------------------------------------------------------ *)
(** ** OrderController: the handlers that read *)
(* ------------------------------------------------------------------ *)

Module OrderQueries.

(** The world after a call that the log has no name for. *)
Definition asked (w : world) : world :=
  {| w_db := w_db w; w_tick := S (w_tick w); w_log := w_log w |}.

(** An awaited [select]: it reads the tables, and ends as the
    environment says. *)
Definition query {A} (sem : db -> pg A) : M (pg A) :=
  fun e w =>
    match e_reply e (w_tick w) with
    | Done => (Val (sem (w_db w)), asked w)
    | Refused x => (Val (PgError x), asked w)
    | Raised x => (Exn x, asked w)
    end.

(** [res.status(s).json({ success, message, error, data })] *)
Record answer (A : Type) : Type := {
  q_status : nat;
  q_success : bool;
  q_message : option string;
  q_error : option string;
  q_data : option A }.
Arguments q_status {A} _.
Arguments q_success {A} _.
Arguments q_message {A} _.
Arguments q_error {A} _.
Arguments q_data {A} _.

Definition found {A} (data : A) : answer A :=
  {| q_status := 200; q_success := true; q_message := None; q_error := None;
     q_data := Some data |}.

Definition failed {A} (s : nat) (message : string) (error : option string) : answer A :=
  {| q_status := s; q_success := false; q_message := Some message; q_error := error;
     q_data := None |}.

(** The [catch] of a reading handler. *)
Definition caught {A} (m : M (answer A)) (message : string) : M (answer A) :=
  try_catch m (fun x => ret (failed 500 message (Some (message_of x)))).

(** An order as these handlers return it: the row with its user and its
    items, and the pre-order fields read from the column or from the
    shipping address (lines 205-215; the rows of the model have no
    columns [pre_order_shipping_option] and [estimated_arrival_date]:
    [createOrder] writes them in the address only). *)
Record order_json : Type := {
  j_view : OrderController.order_view;
  j_is_pre_order : bool;
  j_pre_order_shipping_option : option string;
  j_estimated_arrival_date : option string }.

Definition with_pre_order_fields (v : OrderController.order_view) : order_json :=
  let o := OrderController.v_order v in
  {| j_view := v;
     j_is_pre_order := OrderController.is_pre_order_of o;
     j_pre_order_shipping_option :=
       match o_shipping_address o with
       | Some a => OrderController.or_null (a_pre_order_shipping_option a)
       | None => None
       end;
     j_estimated_arrival_date :=
       match o_shipping_address o with
       | Some a => OrderController.or_null (a_estimated_arrival_date a)
       | None => None
       end |}.

(** [async getOrderById(req, res)] (lines 187-230) *)
Definition getOrderById (id : string) : M (answer order_json) :=
  caught
    (fetched <- query (fun d =>
                  OrderController.pg_map (OrderController.view d)
                    (Db.single (Db.order_by_id id d))) ;;
     match fetched with
     | PgError error => throw error
     | PgData data => ret (found (with_pre_order_fields data))
     end)
    "Failed to fetch order".

Record track_body : Type := {
  tr_order_number_or_id : option string;
  tr_email : option string }.

Definition order_by_number (number : string) (d : db) : list order :=
  filter (fun o => match o_order_number o with
                   | Some n => String.eqb n number
                   | None => false
                   end) (orders d).

(** [.eq(column, key).maybeSingle()] with the user and the items. *)
Definition select_maybe (rows : db -> list order) : M (pg (option OrderController.order_view)) :=
  query (fun d =>
           OrderController.pg_map (option_map (OrderController.view d))
             (Db.maybe_single (rows d))).

(** [userEmail === providedEmail || deliveryEmail === providedEmail]
    (lines 140-146): the emails of the order after [toLowerCase] against
    the given one after [toLowerCase] and [trim]. *)
Definition emailMatches (toLowerCase : string -> string)
    (data : OrderController.order_view) (email : string) : bool :=
  let userEmail :=
    match OrderController.v_user data with
    | Some u => option_map toLowerCase (u_email u)
    | None => None
    end in
  let deliveryEmail :=
    option_map toLowerCase
      (OrderController.address_email (o_shipping_address (OrderController.v_order data))) in
  let providedEmail := Js.trim (toLowerCase email) in
  let is_provided (x : option string) :=
    match x with
    | Some s => String.eqb s providedEmail
    | None => false
    end in
  is_provided userEmail || is_provided deliveryEmail.

Definition not_found : answer order_json := failed 404 "Order not found" None.

(** [async trackOrder(req, res)] (lines 58-185) *)
Definition trackOrder (b : track_body) : M (answer order_json) :=
  caught
    (match tr_order_number_or_id b, tr_email b with
     | Some key, Some email =>
         if negb (Js.truthy_str (Some key)) || negb (Js.truthy_str (Some email))
         then ret (failed 400 "Order number/ID and email are required" None)
         else
           byNumberResult <- select_maybe (order_by_number key) ;;
           byIdResult <-
             match byNumberResult with
             | PgData None => select_maybe (Db.order_by_id key)
             | _ => ret byNumberResult
             end ;;
           match byIdResult with
           | PgError fetchError =>
               ret (failed 500 "Failed to fetch order" (err_message fetchError))
           | PgData None => ret not_found
           | PgData (Some data) =>
               e <- ask ;;
               if negb (emailMatches (e_toLowerCase e) data email) then ret not_found
               else ret (found (with_pre_order_fields data))
           end
     | _, _ => ret (failed 400 "Order number/ID and email are required" None)
     end)
    "Failed to track order".

End OrderQueries.
(** *** Emails of an order *)

(** The email is, once [toLowerCase] has been applied to both and the
    white space around the given one is removed, the email of the user of
    the order or the one of its shipping address. *)
Definition owner_email (toLowerCase : string -> string) (d : db) (o : order)
    (email : string) : Prop :=
  exists stored,
    (OrderController.address_email (o_shipping_address o) = Some stored \/
     exists u, OrderController.joined_user o d = Some u /\ u_email u = Some stored) /\
    toLowerCase stored = Js.trim (toLowerCase email).

Module Sample7.

Definition ask_for (key email : string) : OrderQueries.track_body :=
  {| OrderQueries.tr_order_number_or_id := Some key;
     OrderQueries.tr_email := Some email |}.

End Sample7.

(* ------------------------------------------------------------------ *)
(** ** The banner controller *)
(* ------------------------------------------------------------------ *)

Module BannerController.

(** A key of a JSON body: missing ([undefined]), [null], or a value. *)
Inductive json (A : Type) : Type :=
| Missing
| JNull
| Given (a : A).
Arguments Missing {A}.
Arguments JNull {A}.
Arguments Given {A} a.

(** A value as a column holds it: [null] is [None]. *)
Definition stored {A} (v : json A) : option A :=
  match v with
  | Given a => Some a
  | _ => None
  end.

(** [v || w] on strings, [null] when both are falsy. *)
Definition or_string (v : json string) (w : option string) : option string :=
  match v with
  | Given s => if String.eqb s "" then w else Some s
  | _ => w
  end.

(** [v || w] on numbers. *)
Definition or_number (v : json float) (w : float) : float :=
  match v with
  | Given x => if OrderController.falsy x then w else x
  | _ => w
  end.

Record banner : Type := {
  bn_id : string;
  bn_title : option string;
  bn_subtitle : option string;
  bn_image_url : option string;
  bn_link : option string;
  bn_button_text : option string;
  bn_order : option float;
  bn_active : option bool;
  bn_start_date : option string;
  bn_end_date : option string;
  bn_text_color : option string }.

(** [req.body] of [createBanner] and of [updateBanner]. *)
Record banner_body : Type := {
  bb_title : json string;
  bb_subtitle : json string;
  bb_image_url : json string;
  bb_link : json string;
  bb_link_url : json string;
  bb_button_text : json string;
  bb_order : json float;
  bb_position : json float;
  bb_display_order : json float;
  bb_active : json bool;
  bb_start_date : json string;
  bb_end_date : json string;
  bb_text_color : json string }.

(** [cleanBannerData] (lines 115-126), as the row the insertion makes of
    it under the id the database gives. *)
Definition cleanBannerData (id : string) (bannerData : banner_body) : banner :=
  {| bn_id := id;
     bn_title := stored (bb_title bannerData);
     bn_subtitle := or_string (bb_subtitle bannerData) None;
     bn_image_url := stored (bb_image_url bannerData);
     bn_link := or_string (bb_link bannerData) (or_string (bb_link_url bannerData) None);
     bn_button_text := or_string (bb_button_text bannerData) None;
     bn_order :=
       Some (or_number (bb_order bannerData)
               (or_number (bb_position bannerData)
                  (or_number (bb_display_order bannerData) 0)));
     bn_active :=
       match bb_active bannerData with
       | Missing => Some true
       | v => stored v
       end;
     bn_start_date := or_string (bb_start_date bannerData) None;
     bn_end_date := or_string (bb_end_date bannerData) None;
     bn_text_color := or_string (bb_text_color bannerData) (Some "#FFFFFF") |}.

(** The columns an update sets: [None] for a key that is not sent. *)
Record banner_update : Type := {
  up_title : option (option string);
  up_subtitle : option (option string);
  up_image_url : option (option string);
  up_link : option (option string);
  up_button_text : option (option string);
  up_order : option (option float);
  up_active : option (option bool);
  up_start_date : option (option string);
  up_end_date : option (option string);
  up_text_color : option (option string) }.

(** [if (v !== undefined) clean.key = v] *)
Definition sent {A} (v : json A) : option (option A) :=
  match v with
  | Missing => None
  | JNull => Some None
  | Given a => Some (Some a)
  end.

(** A later assignment to the same key wins. *)
Definition then_sent {A} (first : option (option A)) (v : json A) : option (option A) :=
  match sent v with
  | Some x => Some x
  | None => first
  end.

(** Lines 172-179: [String(updates.text_color).trim()], which is kept
    unless it is empty, ['null'] or ['undefined']. *)
Definition clean_text_color (v : json string) : option (option string) :=
  match v with
  | Missing => None
  | JNull => Some None          (* String(null) is 'null' *)
  | Given s =>
      let colorValue := Js.trim s in
      if negb (String.eqb colorValue "") && negb (String.eqb colorValue "null") &&
         negb (String.eqb colorValue "undefined")
      then Some (Some colorValue) else Some None
  end.

(** [cleanUpdates] (lines 155-179) *)
Definition cleanUpdates (updates : banner_body) : banner_update :=
  {| up_title := sent (bb_title updates);
     up_subtitle := sent (bb_subtitle updates);
     up_image_url := sent (bb_image_url updates);
     up_link := then_sent (sent (bb_link updates)) (bb_link_url updates);
     up_button_text := sent (bb_button_text updates);
     up_order :=
       then_sent (then_sent (sent (bb_order updates)) (bb_position updates))
         (bb_display_order updates);
     up_active := sent (bb_active updates);
     up_start_date := sent (bb_start_date updates);
     up_end_date := sent (bb_end_date updates);
     up_text_color := clean_text_color (bb_text_color updates) |}.

Definition set_column {A} (u : option (option A)) (old : option A) : option A :=
  match u with
  | Some v => v
  | None => old
  end.

(** The row after [update(cleanUpdates)]. *)
Definition apply_update (u : banner_update) (row : banner) : banner :=
  {| bn_id := bn_id row;
     bn_title := set_column (up_title u) (bn_title row);
     bn_subtitle := set_column (up_subtitle u) (bn_subtitle row);
     bn_image_url := set_column (up_image_url u) (bn_image_url row);
     bn_link := set_column (up_link u) (bn_link row);
     bn_button_text := set_column (up_button_text u) (bn_button_text row);
     bn_order := set_column (up_order u) (bn_order row);
     bn_active := set_column (up_active u) (bn_active row);
     bn_start_date := set_column (up_start_date u) (bn_start_date row);
     bn_end_date := set_column (up_end_date u) (bn_end_date row);
     bn_text_color := set_column (up_text_color u) (bn_text_color row) |}.

(** What [successResponse] and [errorResponse] are given: those helpers
    are not among the sources, and the status they use when none is
    passed is left open ([None]). *)
Record banner_answer : Type := {
  ba_success : bool;
  ba_status : option nat;
  ba_message : option string;
  ba_data : option banner }.

Definition successResponse (data : option banner) (message : string)
    (status : option nat) : banner_answer :=
  {| ba_success := true; ba_status := status; ba_message := Some message;
     ba_data := data |}.

Definition errorResponse (message : option string) (status : option nat)
    : banner_answer :=
  {| ba_success := false; ba_status := status; ba_message := message; ba_data := None |}.

Definition with_id (id : string) (row : banner) : bool := String.eqb (bn_id row) id.

(** A handler on the table of banners: the outcome of its one remote
    call, the id the database would give a new row, and the table. *)
Definition handler : Type := reply -> string -> list banner -> banner_answer * list banner.

(** [export const createBanner] (lines 109-147) *)
Definition createBanner (bannerData : banner_body) : handler :=
  fun outcome id rows =>
    match outcome with
    | Done =>
        if existsb (with_id id) rows
        then (errorResponse
                (err_message (pg_error "23505"
                                "duplicate key value violates unique constraint")) None,
              rows)
        else (successResponse (Some (cleanBannerData id bannerData))
                "Banner created successfully" (Some 201),
              rows ++ [cleanBannerData id bannerData])
    | Refused error => (errorResponse (err_message error) None, rows)
    | Raised error => (errorResponse (err_message error) None, rows)
    end.

(** [from('banners').update(cleanUpdates).eq('id', id).select('*').single()]:
    the data of a request for one object is the row, never [null]; the
    handler tests it all the same, so it is an option here. *)
Definition update_single (id : string) (u : banner_update) (rows : list banner)
    : pg (option banner) * list banner :=
  match filter (with_id id) rows with
  | [row] => (PgData (Some (apply_update u row)),
              Db.update_where (with_id id) (apply_update u) rows)
  | _ => (PgError Db.not_one_row, rows)
  end.

(** [export const updateBanner] (lines 149-201) *)
Definition updateBanner (id : string) (updates : banner_body) : handler :=
  fun outcome _ rows =>
    match outcome with
    | Done =>
        match update_single id (cleanUpdates updates) rows with
        | (PgError error, rows') => (errorResponse (err_message error) None, rows')
        | (PgData None, rows') => (errorResponse (Some "Banner not found") (Some 404), rows')
        | (PgData (Some data), rows') =>
            (successResponse (Some data) "Banner updated successfully" None, rows')
        end
    | Refused error => (errorResponse (err_message error) None, rows)
    | Raised error => (errorResponse (err_message error) None, rows)
    end.

(** [export const deleteBanner] (lines 203-216) *)
Definition deleteBanner (id : string) : handler :=
  fun outcome _ rows =>
    match outcome with
    | Done =>
        (successResponse None "Banner deleted successfully" None,
         filter (fun row => negb (with_id id row)) rows)
    | Refused error => (errorResponse (err_message error) None, rows)
    | Raised error => (errorResponse (err_message error) None, rows)
    end.

End BannerController.

(** *** What an update of a banner leaves *)

(** The column [get] of the row is as before unless its key was sent. *)
Definition kept_unless_sent {A B} (key : BannerController.json A)
    (get : BannerController.banner -> B) (r r' : BannerController.banner) : Prop :=
  key = BannerController.Missing -> get r' = get r.

(** [r'] is the banner [r] after the update [u] of the banner [id]. *)
Definition banner_updated (id : string) (u : BannerController.banner_body)
    (r r' : BannerController.banner) : Prop :=
  BannerController.bn_id r' = BannerController.bn_id r /\
  (BannerController.bn_id r <> id -> r' = r) /\
  kept_unless_sent (BannerController.bb_title u) BannerController.bn_title r r' /\
  kept_unless_sent (BannerController.bb_subtitle u) BannerController.bn_subtitle r r' /\
  kept_unless_sent (BannerController.bb_image_url u) BannerController.bn_image_url r r' /\
  kept_unless_sent (BannerController.bb_button_text u)
    BannerController.bn_button_text r r' /\
  kept_unless_sent (BannerController.bb_active u) BannerController.bn_active r r' /\
  kept_unless_sent (BannerController.bb_start_date u) BannerController.bn_start_date r r' /\
  kept_unless_sent (BannerController.bb_end_date u) BannerController.bn_end_date r r' /\
  kept_unless_sent (BannerController.bb_text_color u) BannerController.bn_text_color r r' /\
  (BannerController.bb_link u = BannerController.Missing ->
   kept_unless_sent (BannerController.bb_link_url u) BannerController.bn_link r r') /\
  (BannerController.bb_order u = BannerController.Missing ->
   BannerController.bb_position u = BannerController.Missing ->
   kept_unless_sent (BannerController.bb_display_order u) BannerController.bn_order r r').

Module Sample8.

Import BannerController.

Definition sale : banner :=
  {| bn_id := "b1"; bn_title := Some "Sale"; bn_subtitle := None;
     bn_image_url := Some "sale.png"; bn_link := Some "/sale"; bn_button_text := None;
     bn_order := Some 1%float; bn_active := Some true; bn_start_date := None;
     bn_end_date := None; bn_text_color := Some "#FFFFFF" |}.

Definition new_phones : banner :=
  {| bn_id := "b2"; bn_title := Some "New phones"; bn_subtitle := None;
     bn_image_url := Some "phones.png"; bn_link := None; bn_button_text := None;
     bn_order := Some 2%float; bn_active := Some true; bn_start_date := None;
     bn_end_date := None; bn_text_color := Some "#000000" |}.


(** Both [link] and [link_url] are sent, and the colour is the string
    [null]. *)
Definition two_links : banner_body :=
  {| bb_title := Missing; bb_subtitle := Missing; bb_image_url := Missing;
     bb_link := Given "/old"; bb_link_url := Given "/new"; bb_button_text := Missing;
     bb_order := Missing; bb_position := Missing; bb_display_order := Missing;
     bb_active := Missing; bb_start_date := Missing; bb_end_date := Missing;
     bb_text_color := Given " null " |}.

End Sample8.

(** *** The banner that [createBanner] stores *)



(* ------------------------------------------------------------------ *)
(** ** The email service: preferences and marketing emails *)
(* ------------------------------------------------------------------ *)

Module EmailService.

(** A row of [users] with the columns the service reads. *)
Record subscriber : Type := {
  sb_id : string;
  sb_email : option string;
  sb_first_name : option string;
  sb_last_name : option string;
  sb_email_notifications : option bool;
  sb_newsletter_subscribed : option bool;
  sb_sms_notifications : option bool }.

Record UserPreferences : Type := {
  email_notifications : bool;
  newsletter_subscribed : bool;
  sms_notifications : bool }.

Inductive email_type : Type :=
| transactional
| newsletter
| marketing.

(** What a call of the service meets outside its own code: how its
    [n]-th query ends, what [settingsService.isEnabled] answers or
    throws (the settings service is not part of the sources), what
    reading a template file throws, and how Resend answers. *)
Record surroundings : Type := {
  s_reply : nat -> reply;
  s_isEnabled : string -> outcome bool;
  s_readFileSync : string -> option js_error;
  s_resend : reply }.

Definition by_id (userId : string) (rows : list subscriber) : list subscriber :=
  filter (fun u => String.eqb (sb_id u) userId) rows.

(** [await supabaseAdmin.from('users').select(...).eq('id', userId).single()] *)
Definition select_user (r : reply) (rows : list subscriber) (userId : string)
  : outcome (pg subscriber) :=
  match r with
  | Done => Val (Db.single (by_id userId rows))
  | Refused x => Val (PgError x)
  | Raised x => Exn x
  end.

(** [x ?? d] *)
Definition nullish {A} (x : option A) (d : A) : A :=
  match x with
  | Some a => a
  | None => d
  end.

Definition default_preferences : UserPreferences :=
  {| email_notifications := true;
     newsletter_subscribed := false;
     sms_notifications := true |}.

(** [private async getUserPreferences(userId)] (lines 51-82) *)
Definition getUserPreferences (s : surroundings) (n : nat) (rows : list subscriber)
    (userId : string) : UserPreferences :=
  match select_user (s_reply s n) rows userId with
  | Val (PgError _) => default_preferences
  | Val (PgData data) =>
      {| email_notifications := nullish (sb_email_notifications data) true;
         newsletter_subscribed := nullish (sb_newsletter_subscribed data) false;
         sms_notifications := nullish (sb_sms_notifications data) true |}
  | Exn _ => default_preferences
  end.

(** [private async shouldSendEmail(userId, emailType)] (lines 85-98);
    the type of [emailType] leaves nothing to the [default] of the
    [switch]. *)
Definition shouldSendEmail (s : surroundings) (n : nat) (rows : list subscriber)
    (userId : string) (emailType : email_type) : bool :=
  let preferences := getUserPreferences s n rows userId in
  match emailType with
  | transactional => email_notifications preferences
  | newsletter => newsletter_subscribed preferences
  | marketing => newsletter_subscribed preferences
  end.

(** The [html] of an email: a text given by the caller, or a template
    file with the name of the customer and the items put in. *)
Inductive body (I : Type) : Type :=
| Content (html : string)
| Template (file : string) (customerName : string) (items : list I).
Arguments Content {I} html.
Arguments Template {I} file customerName items.

(** What [sendEmail] hands to Resend. *)
Record mail (I : Type) : Type := {
  m_to : option string;
  m_subject : string;
  m_html : body I;
  m_useSupportEmail : bool }.
Arguments m_to {I} _.
Arguments m_subject {I} _.
Arguments m_html {I} _.
Arguments m_useSupportEmail {I} _.

(** [async sendEmail(options, useSupportEmail)] (lines 100-138): [true]
    when Resend answers without an error, [false] when it answers with
    one or throws. *)
Definition sendEmail (s : surroundings) : bool :=
  match s_resend s with
  | Done => true
  | Refused _ => false
  | Raised _ => false
  end.

(** [{ success, skipped, reason }]; [skipped] is [false] where the
    source leaves it out. *)
Record send_result : Type := {
  sr_success : bool;
  sr_skipped : bool;
  sr_reason : option string }.

Definition skip (why : string) : send_result :=
  {| sr_success := true; sr_skipped := true; sr_reason := Some why |}.

Definition user_not_found : send_result :=
  {| sr_success := false; sr_skipped := false; sr_reason := Some "User not found" |}.

(** The [catch] of a method. *)
Definition thrown (error : js_error) : send_result :=
  {| sr_success := false; sr_skipped := false; sr_reason := Some (message_of error) |}.

Definition sent (s : surroundings) : send_result :=
  {| sr_success := sendEmail s; sr_skipped := false; sr_reason := None |}.

(** [`${user.first_name || ''} ${user.last_name || ''}`.trim() || 'Customer'] *)
Definition customerName (user : subscriber) : string :=
  Js.or_lit
    (Some (Js.trim (Js.or_empty (sb_first_name user) ++ " " ++
                    Js.or_empty (sb_last_name user))))
    "Customer".

(** [async sendNewsletter(userId, subject, content)] (lines 425-465):
    the result and the emails handed to Resend. *)
Definition sendNewsletter {I} (s : surroundings) (n : nat) (rows : list subscriber)
    (userId subject content : string) : send_result * list (mail I) :=
  match s_isEnabled s "email_notifications_enabled" with
  | Exn error => (thrown error, [])
  | Val false => (skip "Email notifications disabled in settings", [])
  | Val true =>
      if negb (shouldSendEmail s n rows userId newsletter)
      then (skip "User has unsubscribed from newsletter", [])
      else
        match select_user (s_reply s (S n)) rows userId with
        | Exn error => (thrown error, [])
        | Val (PgError _) => (user_not_found, [])
        | Val (PgData user) =>
            (sent s,
             [{| m_to := sb_email user; m_subject := subject;
                 m_html := Content content; m_useSupportEmail := false |}])
        end
  end.

(** [async sendWishlistReminder(userId, wishlistItems)] (lines 681-736) *)
Definition sendWishlistReminder {I} (s : surroundings) (n : nat)
    (rows : list subscriber) (userId : string) (wishlistItems : list I)
  : send_result * list (mail I) :=
  match s_isEnabled s "email_notifications_enabled" with
  | Exn error => (thrown error, [])
  | Val false => (skip "Email notifications disabled in settings", [])
  | Val true =>
      match s_isEnabled s "email_wishlist_reminders" with
      | Exn error => (thrown error, [])
      | Val false => (skip "Wishlist reminder emails disabled in settings", [])
      | Val true =>
          if negb (shouldSendEmail s n rows userId marketing)
          then (skip "User has disabled email notifications", [])
          else
            match select_user (s_reply s (S n)) rows userId with
            | Exn error => (thrown error, [])
            | Val (PgError _) => (user_not_found, [])
            | Val (PgData user) =>
                match s_readFileSync s "wishlist-reminder.html" with
                | Some error => (thrown error, [])
                | None =>
                    (sent s,
                     [{| m_to := sb_email user;
                         m_subject := "Items in your wishlist are waiting!";
                         m_html := Template "wishlist-reminder.html"
                                     (customerName user) wishlistItems;
                         m_useSupportEmail := false |}])
                end
            end
      end
  end.

(** [async sendCartAbandonmentReminder(userId, cartItems)] (lines 739-794) *)
Definition sendCartAbandonmentReminder {I} (s : surroundings) (n : nat)
    (rows : list subscriber) (userId : string) (cartItems : list I)
  : send_result * list (mail I) :=
  match s_isEnabled s "email_notifications_enabled" with
  | Exn error => (thrown error, [])
  | Val false => (skip "Email notifications disabled in settings", [])
  | Val true =>
      match s_isEnabled s "email_cart_abandonment" with
      | Exn error => (thrown error, [])
      | Val false => (skip "Cart abandonment emails disabled in settings", [])
      | Val true =>
          if negb (shouldSendEmail s n rows userId marketing)
          then (skip "User has disabled email notifications", [])
          else
            match select_user (s_reply s (S n)) rows userId with
            | Exn error => (thrown error, [])
            | Val (PgError _) => (user_not_found, [])
            | Val (PgData user) =>
                match s_readFileSync s "cart-abandonment.html" with
                | Some error => (thrown error, [])
                | None =>
                    (sent s,
                     [{| m_to := sb_email user;
                         m_subject := "Don't forget your items!";
                         m_html := Template "cart-abandonment.html"
                                     (customerName user) cartItems;
                         m_useSupportEmail := false |}])
                end
            end
      end
  end.

End EmailService.

(** *** The reminder handlers of the order controller *)

Module OrderReminders.

Import EmailService.

(** The product joined to a row of [wishlists]. *)
Record wish_product : Type := {
  wp_name : option string;
  wp_description : option string;
  wp_price : Js.num;
  wp_discount_price : Js.num }.

Record wish : Type := {
  ws_user_id : string;
  ws_product : option wish_product }.

Record wishlist_item : Type := {
  product_name : string;
  product_description : string;
  product_price : float }.

(** The item of a wishlist row (lines 1445-1449). *)
Definition wishlistItem (item : wish) : wishlist_item :=
  match ws_product item with
  | Some product =>
      {| product_name := Js.or_lit (wp_name product) "Unknown Product";
         product_description := Js.or_empty (wp_description product);
         product_price :=
           Js.or_num (wp_discount_price product)
             (Js.or_num (wp_price product) PrimFloat.zero) |}
  | None =>
      {| product_name := "Unknown Product";
         product_description := "";
         product_price := PrimFloat.zero |}
  end.

(** [await supabaseAdmin.from('wishlists').select(...).eq('user_id', user_id)] *)
Definition select_wishlist (r : reply) (wishlists : list wish) (user_id : string)
  : outcome (pg (list wish)) :=
  match r with
  | Done => Val (PgData (filter (fun i => String.eqb (ws_user_id i) user_id) wishlists))
  | Refused x => Val (PgError x)
  | Raised x => Exn x
  end.

Definition failed (message : string) (error : js_error) : response :=
  failure 500 message (Some (message_of error)).

(** [async sendWishlistReminder(req, res)] (lines 1419-1477): the
    response and the emails handed to Resend.  The handler makes the
    queries 0 and 1, the service the next ones. *)
Definition sendWishlistReminder (s : surroundings) (rows : list subscriber)
    (wishlists : list wish) (user_id : string)
  : response * list (mail wishlist_item) :=
  match select_user (s_reply s 0) rows user_id with
  | Exn error => (failed "Failed to send wishlist reminder" error, [])
  | Val (PgError userError) => (failed "Failed to send wishlist reminder" userError, [])
  | Val (PgData userData) =>
      match select_wishlist (s_reply s 1) wishlists user_id with
      | Exn error => (failed "Failed to send wishlist reminder" error, [])
      | Val (PgError wishlistError) =>
          (failed "Failed to send wishlist reminder" wishlistError, [])
      | Val (PgData wishlistData) =>
          let mails :=
            if (0 <? List.length wishlistData)%nat
            then snd (EmailService.sendWishlistReminder s 2 rows (sb_id userData)
                        (map wishlistItem wishlistData))
            else [] in
          (success "Wishlist reminder sent successfully" NoData, mails)
      end
  end.

(** [async sendCartAbandonmentReminder(req, res)] (lines 1479-1516),
    for a body whose [user_id] is a string. *)
Definition sendCartAbandonmentReminder {I} (s : surroundings) (rows : list subscriber)
    (user_id : string) (cart_items : option (list I))
  : response * list (mail I) :=
  match select_user (s_reply s 0) rows user_id with
  | Exn error => (failed "Failed to send cart abandonment reminder" error, [])
  | Val (PgError userError) =>
      (failed "Failed to send cart abandonment reminder" userError, [])
  | Val (PgData userData) =>
      (success "Cart abandonment reminder sent successfully" NoData,
       snd (EmailService.sendCartAbandonmentReminder s 1 rows (sb_id userData)
              (match cart_items with
               | Some items => items
               | None => []
               end)))
  end.

End OrderReminders.
(** *** Who a marketing email is for *)

(** The email [m] goes to the one row of [users] with the id [userId],
    and that row has subscribed to the newsletter. *)
Definition for_subscriber {I} (rows : list EmailService.subscriber) (userId : string)
    (m : EmailService.mail I) : Prop :=
  exists u,
    EmailService.by_id userId rows = [u] /\
    EmailService.sb_newsletter_subscribed u = Some true /\
    EmailService.m_to m = EmailService.sb_email u.

(** The emails of the three marketing methods, for one user. *)
Inductive marketing_mails {I} (s : EmailService.surroundings) (n : nat) (rows : list EmailService.subscriber)
    (userId : string) : list (EmailService.mail I) -> Prop :=
| of_newsletter subject content :
    marketing_mails s n rows userId (snd (EmailService.sendNewsletter s n rows userId subject content))
| of_wishlist items :
    marketing_mails s n rows userId (snd (EmailService.sendWishlistReminder s n rows userId items))
| of_cart items :
    marketing_mails s n rows userId (snd (EmailService.sendCartAbandonmentReminder s n rows userId items)).

(** Two rows of [users] that differ at most in [email_notifications] and
    [sms_notifications]. *)
Definition same_but_notifications (u v : EmailService.subscriber) : Prop :=
  EmailService.sb_id u = EmailService.sb_id v /\
  EmailService.sb_email u = EmailService.sb_email v /\
  EmailService.sb_first_name u = EmailService.sb_first_name v /\
  EmailService.sb_last_name u = EmailService.sb_last_name v /\
  EmailService.sb_newsletter_subscribed u = EmailService.sb_newsletter_subscribed v.

Module Sample9.

Import EmailService.

Definition ama (notifications newsletter : option bool) : subscriber :=
  {| sb_id := "u-1"; sb_email := Some "ama@example.com";
     sb_first_name := Some "Ama"; sb_last_name := None;
     sb_email_notifications := notifications;
     sb_newsletter_subscribed := newsletter;
     sb_sms_notifications := None |}.

Definition kofi : subscriber :=
  {| sb_id := "u-2"; sb_email := Some "kofi@example.com";
     sb_first_name := Some "Kofi"; sb_last_name := Some "Mensah";
     sb_email_notifications := None;
     sb_newsletter_subscribed := None;
     sb_sms_notifications := None |}.

(** Every query is carried out, every setting is on, the templates are
    there and Resend accepts the email. *)
Definition all_well : surroundings :=
  {| s_reply := fun _ => Done;
     s_isEnabled := fun _ => Val true;
     s_readFileSync := fun _ => None;
     s_resend := Done |}.

(** The same with the settings switched off. *)
Definition switched_off : surroundings :=
  {| s_reply := fun _ => Done;
     s_isEnabled := fun _ => Val false;
     s_readFileSync := fun _ => None;
     s_resend := Done |}.

Definition a_wish : OrderReminders.wish :=
  {| OrderReminders.ws_user_id := "u-1";
     OrderReminders.ws_product :=
       Some {| OrderReminders.wp_name := Some "Phone";
               OrderReminders.wp_description := None;
               OrderReminders.wp_price := Js.Num 100%float;
               OrderReminders.wp_discount_price := Js.Null |} |}.

End Sample9.

(** The wishlist rows of a user. *)
Definition wishes_of (user_id : string) (wishlists : list OrderReminders.wish)
  : list OrderReminders.wish :=
  filter (fun i => String.eqb (OrderReminders.ws_user_id i) user_id) wishlists.

(** An item as a reminder can print it: it has a name and its price is
    a number. *)
Definition printable (i : OrderReminders.wishlist_item) : Prop :=
  OrderReminders.product_name i <> "" /\
  PrimFloat.is_nan (OrderReminders.product_price i) = false.

(* ------------------------------------------------------------------ *)
(** ** Listing orders *)
(* ------------------------------------------------------------------ *)

From Stdlib Require Import Permutation.

Module OrderListing.

Import OrderQueries.

(** [.order('created_at', { ascending: false })]: the rows sorted by
    insertion, the newer first.  Rows of the same instant keep the order
    of the table; the database promises no order among them and nothing
    below depends on one. *)
Fixpoint insert_newest (o : order) (l : list order) : list order :=
  match l with
  | [] => [o]
  | x :: r =>
      if (o_created_at x <=? o_created_at o)%Z then o :: l
      else x :: insert_newest o r
  end.

Definition newest_first (l : list order) : list order :=
  fold_right insert_newest [] l.

(** [.eq('user_id', user_id)] *)
Definition of_user (user_id : string) (d : db) : list order :=
  filter (fun o => match o_user_id o with
                   | Some u => String.eqb u user_id
                   | None => false
                   end) (orders d).

(** The rows the query of [getAllOrders] asks for (lines 12-23): those
    of the user when [user_id] is truthy, else all. *)
Definition selected (user_id : option string) (d : db) : list order :=
  match user_id with
  | Some id => if Js.truthy_str user_id then of_user id d else orders d
  | None => orders d
  end.

(** [async getAllOrders(req, res)] (lines 8-55), for a query string
    whose [user_id] is absent or one string. *)
Definition getAllOrders (user_id : option string) : M (answer (list order_json)) :=
  caught
    (fetched <- query (fun d =>
                  PgData (map (OrderController.view d)
                            (newest_first (selected user_id d)))) ;;
     match fetched with
     | PgError error => throw error
     | PgData data => ret (found (map with_pre_order_fields data))
     end)
    "Failed to fetch orders".

(** The row of a listed order. *)
Definition listed (j : order_json) : order :=
  OrderController.v_order (j_view j).

(** [b] was not created after [a]. *)
Definition not_older (a b : order) : Prop :=
  (o_created_at b <= o_created_at a)%Z.

End OrderListing.

Module Sample10.

(** An order of the user [user], placed at [t]. *)
Definition placed (id : string) (user : option string) (t : Z) : order :=
  {| o_id := id; o_user_id := user; o_order_number := None;
     o_subtotal := Some 200%float; o_discount := Some 0%float; o_tax := Some 0%float;
     o_shipping_fee := Some 10%float;
     o_total := Some 210%float; o_payment_method := Some "cash_on_delivery";
     o_shipping_address := None; o_customer_bio := None; o_notes := None;
     o_status := "pending"; o_payment_status := "pending";
     o_tracking_number := None; o_is_pre_order := false;
     o_created_at := t; o_updated_at := t |}.

Definition ledger : db :=
  {| products := [];
     orders := [placed "o1" (Some "u-1") 100; placed "o2" (Some "u-2") 200;
                placed "o3" (Some "u-1") 300; placed "o4" None 400];
     order_items := []; transactions := []; notifications := []; users := [] |}.

(** The ids of the orders of an answer. *)
Definition ids_of (r : outcome (OrderQueries.answer (list OrderQueries.order_json)))
  : list string :=
  match r with
  | Val a =>
      match OrderQueries.q_data a with
      | Some data => map (fun j => o_id (OrderListing.listed j)) data
      | None => []
      end
  | Exn _ => []
  end.

End Sample10.

Module Sample11.

(** A transaction that carries the payment reference as its
    [transaction_reference] only. *)
Definition reference_only : transaction :=
  {| t_id := "t1"; t_order_id := None; t_user_id := None;
     t_transaction_reference := "PAY-77"; t_paystack_reference := None;
     t_payment_method := "paystack"; t_payment_provider := "paystack";
     t_amount := Some 210%float; t_currency := "GHS"; t_status := "paid";
     t_payment_status := "paid"; t_customer_email := None;
     t_metadata := Some [("channel", MStr "card")];
     t_initiated_at := 1793620000000; t_updated_at := 1793620000000 |}.

Definition shop_with_reference_only : db :=
  {| products := [Sample.phone]; orders := []; order_items := [];
     transactions := [reference_only]; notifications := []; users := [] |}.

(** What a transaction shows of its link to an order. *)
Definition link_of (t : transaction) : string * string * option string * option string :=
  (t_id t, t_transaction_reference t, t_order_id t, t_customer_email t).

End Sample11.

Module Sample12.

(** A [toLowerCase] that also knows the capital letters of Latin-1, which
    UTF-8 writes in two bytes (195 and 128 to 158, but for the sign of
    multiplication), as the lower case of the samples with an accent. *)
Fixpoint lower_latin1 (s : string) : string :=
  match s with
  | String c1 r1 =>
      match r1 with
      | String c2 r2 =>
          let n2 := nat_of_ascii c2 in
          if (nat_of_ascii c1 =? 195)%nat && (128 <=? n2)%nat && (n2 <=? 158)%nat &&
             negb (n2 =? 151)%nat
          then String c1 (String (ascii_of_nat (n2 + 32)) (lower_latin1 r2))
          else String (Js.lower_ascii c1) (lower_latin1 r1)
      | EmptyString => String (Js.lower_ascii c1) EmptyString
      end
  | EmptyString => EmptyString
  end.

Definition env_latin1 : env :=
  {| e_reply := e_reply Sample.env_ok;
     e_uuid := e_uuid Sample.env_ok;
     e_clock := e_clock Sample.env_ok;
     e_mail := e_mail Sample.env_ok;
     e_decrement_product_stock := None;
     e_locale_date := e_locale_date Sample.env_ok;
     e_to_fixed2 := e_to_fixed2 Sample.env_ok;
     e_toLowerCase := lower_latin1 |}.

(** The letters e with an acute accent, small and capital. *)
Definition e_acute : string :=
  String (ascii_of_nat 195) (String (ascii_of_nat 169) EmptyString).
Definition E_acute : string :=
  String (ascii_of_nat 195) (String (ascii_of_nat 137) EmptyString).

(** The stored order, its email beginning with the small letter. *)
Definition of_emile : order :=
  {| o_id := "o1"; o_user_id := None; o_order_number := Some "ORD-001021126";
     o_subtotal := Some 200%float; o_discount := Some 0%float; o_tax := Some 0%float;
     o_shipping_fee := Some 10%float;
     o_total := Some 210%float; o_payment_method := Some "cash_on_delivery";
     o_shipping_address :=
       Some {| a_email := Some (e_acute ++ "mile@example.com")%string;
               a_full_name := None;
               a_first_name := None; a_recipient_name := None;
               a_delivery_option := None; a_is_pre_order := false;
               a_pre_order_shipping_option := None;
               a_estimated_arrival_date := None; a_payment_reference := None |};
     o_customer_bio := None; o_notes := None;
     o_status := "pending"; o_payment_status := "pending";
     o_tracking_number := None; o_is_pre_order := false;
     o_created_at := 1793620000000; o_updated_at := 1793620000000 |}.

(** The cancellation that gives the email in capital letters. *)
Definition by_EMILE : OrderController.cancel_body :=
  {| OrderController.k_cancellation_reason := None;
     OrderController.k_email := Some (E_acute ++ "MILE@EXAMPLE.COM")%string |}.

(** A no-break space, U+00A0. *)
Definition nbsp : string :=
  String (ascii_of_nat 194) (String (ascii_of_nat 160) EmptyString).

(** The order of two phones, the id of the product a no-break space. *)
Definition blank_id_request : OrderController.create_body :=
  with_amounts (Js.Num 200) Js.Undefined
    [{| OrderController.it_product_id := Some nbsp;
        OrderController.it_product_name := Some "Phone";
        OrderController.it_product_image := None;
        OrderController.it_quantity := Js.Num 2;
        OrderController.it_unit_price := Js.Num 100;
        OrderController.it_subtotal := Js.Undefined;
        OrderController.it_total_price := Js.Undefined;
        OrderController.it_selected_variants := None |}]
    (Sample.request false None).

End Sample12.

(* ------------------------------------------------------------------ *)
(** ** Reasoning about computations *)
(* ------------------------------------------------------------------ *)

Section Effects.

Variable e : env.

Lemma eff_ret {A} (R : world -> world -> Prop) (a : A) :
  (forall w, R w w) -> eff e R (ret a).
Proof. intros HR w. apply HR. Qed.

Lemma eff_throw {A} (R : world -> world -> Prop) (x : js_error) :
  (forall w, R w w) -> eff e R (@throw A x).
Proof. intros HR w. apply HR. Qed.

Lemma eff_ask (R : world -> world -> Prop) :
  (forall w, R w w) -> eff e R ask.
Proof. intros HR w. apply HR. Qed.

Lemma eff_new_date (R : world -> world -> Prop) :
  (forall w, R w w) -> eff e R new_date.
Proof. intros HR w. apply HR. Qed.

(** A computation followed by another: the relations compose. *)
Lemma eff_bind_gen {A B} (R1 R2 R : world -> world -> Prop)
    (m : M A) (k : A -> M B) :
  eff e R1 m -> (forall a, eff e R2 (k a)) ->
  (forall w1 w2, R1 w1 w2 -> R w1 w2) ->
  (forall w1 w2 w3, R1 w1 w2 -> R2 w2 w3 -> R w1 w3) ->
  eff e R (bind m k).
Proof.
  intros Hm Hk Hweak Htrans w. unfold bind.
  specialize (Hm w). destruct (m e w) as [[a | x] w1]; simpl in *.
  - eapply Htrans; [exact Hm | apply Hk].
  - apply Hweak, Hm.
Qed.

Lemma eff_bind {A B} (R : world -> world -> Prop) (m : M A) (k : A -> M B) :
  (forall w1 w2 w3, R w1 w2 -> R w2 w3 -> R w1 w3) ->
  eff e R m -> (forall a, eff e R (k a)) -> eff e R (bind m k).
Proof.
  intros Htrans Hm Hk. eapply eff_bind_gen; eauto.
Qed.

Lemma eff_try_catch {A} (R : world -> world -> Prop) (m : M A) (h : js_error -> M A) :
  (forall w1 w2 w3, R w1 w2 -> R w2 w3 -> R w1 w3) ->
  eff e R m -> (forall x, eff e R (h x)) -> eff e R (try_catch m h).
Proof.
  intros Htrans Hm Hh w. unfold try_catch.
  specialize (Hm w). destruct (m e w) as [[a | x] w1]; simpl in *.
  - exact Hm.
  - eapply Htrans; [exact Hm | apply Hh].
Qed.

Lemma eff_for_each {A} (R : world -> world -> Prop) (l : list A) (body : A -> M unit) :
  (forall w, R w w) ->
  (forall w1 w2 w3, R w1 w2 -> R w2 w3 -> R w1 w3) ->
  (forall a, In a l -> eff e R (body a)) -> eff e R (for_each l body).
Proof.
  intros Hrefl Htrans. induction l as [| a l IH]; intros Hbody; simpl.
  - now apply eff_ret.
  - apply eff_bind; auto.
    + apply Hbody. now left.
    + intros _. apply IH. intros b Hb. apply Hbody. now right.
Qed.

(** A remote call: either the tables stay and the call is logged as
    failed, or the query is carried out. *)
Lemma eff_remote {A} (R : world -> world -> Prop) (c : call)
    (sem : env -> nat -> db -> pg A * db) :
  (forall w res, R w (record c res (w_db w) w)) ->
  (forall w, R w (record c (result_of (fst (sem e (w_tick w) (w_db w))))
                    (snd (sem e (w_tick w) (w_db w))) w)) ->
  eff e R (remote c sem).
Proof.
  intros Hfail Hdone w. unfold remote.
  destruct (e_reply e (w_tick w)) as [| x | x]; simpl.
  - specialize (Hdone w). destruct (sem e (w_tick w) (w_db w)) as [r d]. exact Hdone.
  - apply Hfail.
  - apply Hfail.
Qed.

Lemma eff_send_mail (R : world -> world -> Prop) (kind : mail_kind) (to : option string) :
  (forall w res, R w (record (SendEmail kind to) res (w_db w) w)) ->
  eff e R (send_mail kind to).
Proof. intros H w. unfold send_mail. simpl. apply H. Qed.

End Effects.

(** *** The relations are preorders *)

Lemma keeps_refl {X} (f : db -> X) w : keeps f w w.
Proof. reflexivity. Qed.

Lemma keeps_trans {X} (f : db -> X) w1 w2 w3 :
  keeps f w1 w2 -> keeps f w2 w3 -> keeps f w1 w3.
Proof. unfold keeps. congruence. Qed.

Lemma logs_refl P w : logs P w w.
Proof. exists []. split; [now rewrite app_nil_r | constructor]. Qed.

Lemma logs_trans P w1 w2 w3 : logs P w1 w2 -> logs P w2 w3 -> logs P w1 w3.
Proof.
  intros [l1 [H1 F1]] [l2 [H2 F2]]. exists (l1 ++ l2). split.
  - now rewrite H2, H1, app_assoc.
  - apply Forall_app. now split.
Qed.

Lemma ticks_refl w : ticks w w.
Proof. unfold ticks. lia. Qed.

Lemma ticks_trans w1 w2 w3 : ticks w1 w2 -> ticks w2 w3 -> ticks w1 w3.
Proof. unfold ticks. lia. Qed.



Lemma logs_record P c res d w :
  P {| ev_call := c; ev_result := res |} -> logs P w (record c res d w).
Proof.
  intros H. exists [{| ev_call := c; ev_result := res |}].
  split; [reflexivity | now constructor].
Qed.

Lemma log_of_app {A} (m : M A) e w l :
  w_log (snd (m e w)) = w_log w ++ l -> log_of m e w = l.
Proof.
  intros H. unfold log_of. rewrite H.
  rewrite skipn_app, skipn_all, Nat.sub_diag. reflexivity.
Qed.

(** *** Tactics *)

Create HintDb dbs.
#[local] Hint Unfold Db.update_order_returning Db.update_orders Db.insert_order
  Db.insert_items Db.delete_order Db.restore_stock Db.decrement_stock
  Db.insert_notification Db.insert_transaction Db.update_transactions
  Db.update_transaction_returning Db.set_products Db.set_orders
  Db.set_order_items Db.set_transactions Db.set_notifications : dbs.

Ltac head_of t :=
  lazymatch t with
  | ?f _ => head_of f
  | _ => t
  end.

(** [eff_go known refl trans leaf] proves [eff e R m] along the shape of
    [m]: [known] closes the computations a lemma is at hand for, [refl]
    and [trans] are the preorder of [R], and [leaf] proves [R] across one
    logged call. *)
Ltac eff_go known refl trans leaf :=
  first
    [ solve [known]
    | lazymatch goal with
      | |- eff _ _ (ret _) => apply eff_ret; intros; apply refl
      | |- eff _ _ (throw _) => apply eff_throw; intros; apply refl
      | |- eff _ _ ask => apply eff_ask; intros; apply refl
      | |- eff _ _ new_date => apply eff_new_date; intros; apply refl
      | |- eff _ _ (bind _ _) =>
          apply eff_bind;
          [ intros ? ? ?; apply trans
          | eff_go known refl trans leaf
          | intros; eff_go known refl trans leaf ]
      | |- eff _ _ (try_catch _ _) =>
          apply eff_try_catch;
          [ intros ? ? ?; apply trans
          | eff_go known refl trans leaf
          | intros; eff_go known refl trans leaf ]
      | |- eff _ _ (for_each _ _) =>
          apply eff_for_each;
          [ intros; apply refl
          | intros ? ? ?; apply trans
          | intros ? _; eff_go known refl trans leaf ]
      | |- eff _ _ (remote _ _) => apply eff_remote; intros; leaf
      | |- eff _ _ (send_mail _ _) => apply eff_send_mail; intros; leaf
      | |- eff _ _ (if ?b then _ else _) => destruct b; eff_go known refl trans leaf
      | |- eff _ _ (match ?x with _ => _ end) => destruct x; eff_go known refl trans leaf
      | |- eff _ _ (let _ := _ in _) => cbv zeta; eff_go known refl trans leaf
      | |- eff _ _ ?m => let h := head_of m in unfold h; eff_go known refl trans leaf
      end ].

Ltac break_matches :=
  repeat (match goal with
          | |- context [match ?x with _ => _ end] => destruct x
          end; simpl).

(** One call leaves the part [f] of the database as it is. *)
Ltac leaf_keeps :=
  unfold keeps; autounfold with dbs; simpl; break_matches; reflexivity.

Ltac keeps_go known f :=
  eff_go known (@keeps_refl _ f) (@keeps_trans _ f) leaf_keeps.

(** One call logs an event that satisfies [P]. *)
Ltac leaf_logs := apply logs_record; simpl; try exact I; try reflexivity.


Ltac no_lemma := fail.

(** *** Running a computation step by step *)

Lemma bind_run {A B} (m : M A) (k : A -> M B) e w :
  bind m k e w =
  match m e w with
  | (Val a, w') => k a e w'
  | (Exn x, w') => (Exn x, w')
  end.
Proof. reflexivity. Qed.

Lemma try_catch_run {A} (m : M A) (h : js_error -> M A) e w :
  try_catch m h e w =
  match m e w with
  | (Val a, w') => (Val a, w')
  | (Exn x, w') => h x e w'
  end.
Proof. reflexivity. Qed.

Lemma bind_val {A B} (m : M A) (k : A -> M B) e w b w' :
  bind m k e w = (Val b, w') ->
  exists a w1, m e w = (Val a, w1) /\ k a e w1 = (Val b, w').
Proof.
  rewrite bind_run. destruct (m e w) as [[a | x] w1]; intros H.
  - exists a, w1. now split.
  - discriminate.
Qed.

Lemma remote_run {A} (c : call) (sem : env -> nat -> db -> pg A * db) e w :
  remote c sem e w =
  match e_reply e (w_tick w) with
  | Done => (Val (fst (sem e (w_tick w) (w_db w))),
             record c (result_of (fst (sem e (w_tick w) (w_db w))))
               (snd (sem e (w_tick w) (w_db w))) w)
  | Refused x => (Val (PgError x), record c Error (w_db w) w)
  | Raised x => (Exn x, record c Thrown (w_db w) w)
  end.
Proof.
  unfold remote. destruct (e_reply e (w_tick w)); try reflexivity.
  now destruct (sem e (w_tick w) (w_db w)).
Qed.

(** A handler answers: what is thrown inside it becomes a 500 response. *)
Lemma handle_answers (m : M response) (message : string) e w :
  exists r, fst (handle m message e w) = Val r.
Proof.
  unfold handle. rewrite try_catch_run.
  destruct (m e w) as [[r | x] w1]; simpl; eauto.
Qed.

Lemma filter_single_in {A} (f : A -> bool) l x :
  filter f l = [x] -> In x l /\ f x = true.
Proof.
  intros H. assert (Hin : In x (filter f l)) by (rewrite H; now left).
  now apply filter_In in Hin.
Qed.


Import OrderController.

(* ------------------------------------------------------------------ *)
(** ** Stock and the [in_stock] flag *)
(* ------------------------------------------------------------------ *)
















(* ------------------------------------------------------------------ *)
(** ** Payment status *)
(* ------------------------------------------------------------------ *)

Lemma valid_payment_status_mem s :
  Db.mem s ["pending"; "paid"; "failed"; "refunded"] = true <-> valid_payment_status s.
Proof.
  unfold Db.mem, valid_payment_status. simpl.
  rewrite !orb_true_iff, !String.eqb_eq. intuition congruence.
Qed.

Lemma truthy_valid s : valid_payment_status s -> Js.truthy_str (Some s) = true.
Proof. intros [-> | [-> | [-> | ->]]]; reflexivity. Qed.

(** C7.  [updatePaymentStatus] answers 400 to every request whose
    [payment_status] is not one of pending, paid, failed, refunded, and
    changes nothing; for one of the four, it sets the payment status of
    the order with the given id to it (when the update is carried out on
    the one row of that id). *)
Theorem updatePaymentStatus_validates (id : string) (e : env) (w : world) :
  (forall ps,
      (forall s, ps = Some s -> ~ valid_payment_status s) ->
      exists r, updatePaymentStatus id ps e w = (Val r, w) /\ r_status r = 400) /\
  (forall s o,
      valid_payment_status s ->
      e_reply e (w_tick w) = Done ->
      Db.order_by_id id (w_db w) = [o] ->
      let now := i_ms (e_clock e (w_tick w)) in
      fst (updatePaymentStatus id (Some s) e w)
        = Val (success "Payment status updated successfully"
                 (OrderData (set_payment_status s now o))) /\
      orders (db_after (updatePaymentStatus id (Some s)) e w)
        = Db.update_where (fun o' => String.eqb (o_id o') id)
            (set_payment_status s now) (orders (w_db w)) /\
      o_payment_status (set_payment_status s now o) = s).
Proof.
  split.
  - intros ps Hps. unfold updatePaymentStatus, handle. rewrite try_catch_run.
    destruct ps as [s |]; [| simpl; eauto].
    destruct (negb (Js.truthy_str (Some s)) ||
              negb (Db.mem s ["pending"; "paid"; "failed"; "refunded"])) eqn:E.
    + simpl; eauto.
    + exfalso. apply orb_false_iff in E. destruct E as [_ E].
      apply negb_false_iff in E. apply valid_payment_status_mem in E.
      exact (Hps s eq_refl E).
  - intros s o Hs Hreply Hrow now.
    unfold db_after, updatePaymentStatus, handle. rewrite try_catch_run.
    rewrite (truthy_valid s Hs).
    rewrite (proj2 (valid_payment_status_mem s) Hs). cbn [negb orb].
    rewrite bind_run. unfold update_order. rewrite remote_run, Hreply.
    unfold Db.update_order_returning. rewrite Hrow. simpl. auto.
Qed.

(** The status [shipped] is refused; [paid] is written on the stored
    order. *)
Lemma updatePaymentStatus_validates_witness :
  (exists r,
      updatePaymentStatus "o1" (Some "shipped") Sample.env_ok
        (start (Sample.shop_with (Sample.stored "pending" false false)))
      = (Val r, start (Sample.shop_with (Sample.stored "pending" false false))) /\
      r_status r = 400) /\
  map o_payment_status
    (orders (db_after (updatePaymentStatus "o1" (Some "paid")) Sample.env_ok
               (start (Sample.shop_with (Sample.stored "pending" false false)))))
  = ["paid"].
Proof.
  split.
  - apply (proj1 (updatePaymentStatus_validates "o1" Sample.env_ok
                    (start (Sample.shop_with (Sample.stored "pending" false false))))).
    intros s [= <-] [H | [H | [H | H]]]; discriminate H.
  - destruct (proj2 (updatePaymentStatus_validates "o1" Sample.env_ok
                       (start (Sample.shop_with (Sample.stored "pending" false false))))
                "paid" (Sample.stored "pending" false false)
                (or_intror (or_introl eq_refl)) eq_refl eq_refl) as (_ & H & _).
    rewrite H. reflexivity.
Defined.

(* ------------------------------------------------------------------ *)
(** ** Restoring stock on cancellation *)
(* ------------------------------------------------------------------ *)

Lemma quiet_refl w : quiet w w.
Proof. split; [reflexivity | apply logs_refl]. Qed.

Lemma quiet_trans w1 w2 w3 : quiet w1 w2 -> quiet w2 w3 -> quiet w1 w3.
Proof.
  intros [H1 L1] [H2 L2]. split; [congruence | eapply logs_trans; eauto].
Qed.

Ltac leaf_quiet := split; [leaf_keeps | leaf_logs].

Ltac quiet_go known := eff_go known quiet_refl quiet_trans leaf_quiet.

(** The relation of a computation at one world. *)
Lemma try_catch_at {A} (R : world -> world -> Prop) (m : M A) h e w :
  (forall w1 w2 w3, R w1 w2 -> R w2 w3 -> R w1 w3) ->
  R w (snd (m e w)) -> (forall x, eff e R (h x)) -> R w (snd (try_catch m h e w)).
Proof.
  intros Htrans Hm Hh. rewrite try_catch_run.
  destruct (m e w) as [[a | x] w1]; simpl in *; [exact Hm |].
  eapply Htrans; [exact Hm | apply Hh].
Qed.

Lemma bind_at {A B} (R : world -> world -> Prop) (m : M A) (k : A -> M B) e w :
  (forall w1 w2 w3, R w1 w2 -> R w2 w3 -> R w1 w3) ->
  R w (snd (m e w)) ->
  (forall a w1, m e w = (Val a, w1) -> R w1 (snd (k a e w1))) ->
  R w (snd (bind m k e w)).
Proof.
  intros Htrans Hm Hk. rewrite bind_run.
  destruct (m e w) as [[a | x] w1] eqn:E; simpl in *; [| exact Hm].
  eapply Htrans; [exact Hm | now apply Hk].
Qed.

(** A goal at one world, from the relation at every world. *)
Ltac by_eff tac :=
  match goal with
  | |- ?R ?w (snd (?m ?e ?w)) =>
      let E := fresh "E" in assert (E : eff e R m) by tac; apply E
  end.

(** What [select_order] returns is the one row of that id. *)
Lemma select_order_row id e w v w1 :
  select_order id e w = (Val (PgData (Some v)), w1) ->
  In (v_order v) (orders (w_db w)) /\ o_id (v_order v) = id /\
  v = view (w_db w) (v_order v).
Proof.
  unfold select_order. rewrite remote_run.
  destruct (e_reply e (w_tick w)); try discriminate.
  unfold Db.single.
  destruct (Db.order_by_id id (w_db w)) as [| o [| o' l]] eqn:E; simpl; try discriminate.
  intros [= <- _]. apply filter_single_in in E. destruct E as [Hin Hid].
  apply String.eqb_eq in Hid. auto.
Qed.

Lemma select_order_quiet e id : eff e quiet (select_order id).
Proof. quiet_go no_lemma. Qed.

Lemma updateOrderStatus_quiet id b e w :
  (forall o, In o (orders (w_db w)) -> o_id o = id -> o_status o = "cancelled") ->
  quiet w (snd (updateOrderStatus id b e w)).
Proof.
  intros Hc. unfold updateOrderStatus, handle.
  apply try_catch_at; [exact quiet_trans | | intros; quiet_go no_lemma].
  apply bind_at; [exact quiet_trans | apply select_order_quiet |].
  intros [[v |] | x] w1 Hsel;
    [| by_eff ltac:(quiet_go no_lemma) | by_eff ltac:(quiet_go no_lemma)].
  destruct (select_order_row _ _ _ _ _ Hsel) as (Hin & Hid & _).
  cbv zeta. rewrite (Hc _ Hin Hid).
  change (negb (String.eqb "cancelled" "cancelled")) with false.
  rewrite andb_false_r. cbn [andb].
  by_eff ltac:(quiet_go no_lemma).
Qed.

Lemma cancelOrder_quiet id b e w :
  (forall o, In o (orders (w_db w)) -> o_id o = id -> o_status o = "cancelled") ->
  quiet w (snd (cancelOrder id b e w)).
Proof.
  intros Hc. unfold cancelOrder, handle.
  apply try_catch_at; [exact quiet_trans | | intros; quiet_go no_lemma].
  apply bind_at; [exact quiet_trans | apply select_order_quiet |].
  intros [[v |] | x] w1 Hsel;
    [| by_eff ltac:(quiet_go no_lemma) | by_eff ltac:(quiet_go no_lemma)].
  destruct (select_order_row _ _ _ _ _ Hsel) as (Hin & Hid & _).
  cbv zeta. rewrite (Hc _ Hin Hid).
  change (negb (String.eqb "cancelled" "cancelled")) with false.
  cbn [andb].
  by_eff ltac:(quiet_go no_lemma).
Qed.

(** A status other than [cancelled] restores nothing. *)
Lemma updateOrderStatus_other_status id b e :
  s_status b <> Some "cancelled" ->
  eff e quiet (updateOrderStatus id b).
Proof.
  intros Hs.
  assert (Hg : match s_status b with
               | Some s => String.eqb s "cancelled"
               | None => false
               end = false).
  { destruct (s_status b) as [s |]; [| reflexivity].
    apply String.eqb_neq. congruence. }
  unfold updateOrderStatus. cbv zeta. rewrite Hg. cbn [andb].
  quiet_go no_lemma.
Qed.

Lemma quiet_log_of {A} (m : M A) e w :
  quiet w (snd (m e w)) ->
  products (db_after m e w) = products (w_db w) /\ stock_writes (log_of m e w) = 0.
Proof.
  intros [Hp [l [Hl Hf]]]. split; [exact Hp |].
  rewrite (log_of_app _ _ _ _ Hl). unfold stock_writes.
  clear Hl. induction Hf as [| ev l Hev _ IH]; [reflexivity |].
  simpl. unfold no_stock_write in Hev. now rewrite Hev.
Qed.

(** What the guard on the previous status does give: a call of
    [cancelOrder] or [updateOrderStatus] on an order whose status is
    already [cancelled] writes no product row. *)
Theorem restores_only_when_not_cancelled (id : string) (e : env) (w : world) :
  (forall o, In o (orders (w_db w)) -> o_id o = id -> o_status o = "cancelled") ->
  (forall b,
      products (db_after (cancelOrder id b) e w) = products (w_db w) /\
      stock_writes (log_of (cancelOrder id b) e w) = 0) /\
  (forall b,
      products (db_after (updateOrderStatus id b) e w) = products (w_db w) /\
      stock_writes (log_of (updateOrderStatus id b) e w) = 0).
Proof.
  intros Hc. split; intros b; apply quiet_log_of.
  - now apply cancelOrder_quiet.
  - now apply updateOrderStatus_quiet.
Qed.

(** The stored order, already cancelled, is cancelled once more: the five
    phones stay five. *)
Lemma restores_only_when_not_cancelled_witness :
  map p_stock_quantity
    (products (db_after (cancelOrder "o1" Sample.by_owner) Sample.env_ok
                 (start (Sample.shop_with (Sample.stored "cancelled" false false)))))
  = [Js.Num 5].
Proof.
  rewrite (proj1 (proj1 (restores_only_when_not_cancelled "o1" Sample.env_ok
                           (start (Sample.shop_with (Sample.stored "cancelled" false false)))
                           ltac:(intros o [<- | []] _; reflexivity))
                    Sample.by_owner)).
  reflexivity.
Defined.

(** The guard looks at the status only.  The stored order of two phones
    is cancelled, set back to [pending] and cancelled again: its stock is
    restored twice, and the five phones, of which none was taken, become
    nine. *)
Lemma restored_twice_after_reactivation :
  let w0 := start (Sample.shop_with (Sample.stored "pending" false false)) in
  let w1 := snd (cancelOrder "o1" Sample.by_owner Sample.env_ok w0) in
  let w2 := snd (updateOrderStatus "o1" (Sample.to_status "pending") Sample.env_ok w1) in
  let w3 := snd (cancelOrder "o1" Sample.by_owner Sample.env_ok w2) in
  stock_writes (w_log w3) = 2 /\
  map p_stock_quantity (products (w_db w3)) = [Js.Num 9] /\
  map o_status (orders (w_db w1)) = ["cancelled"] /\
  map o_status (orders (w_db w2)) = ["pending"].
Proof. vm_compute. repeat split; reflexivity. Qed.

(** C2.  The stock of one order is restored twice.  [updateOrderStatus]
    restores the stock before it updates the order (lines 262-313 and
    316-332): when the update is refused the request fails with 500, the
    order is still [pending] and its two phones are back in stock, five
    becoming seven; the same request made again finds the order not
    cancelled, restores the two phones once more, seven becoming nine,
    and cancels the order. *)
Theorem restored_twice_when_update_fails :
  let e := Sample.env_with [3] [] in
  let w0 := start (Sample.shop_with (Sample.stored "pending" false false)) in
  let first := updateOrderStatus "o1" (Sample.to_status "cancelled") e w0 in
  let second := updateOrderStatus "o1" (Sample.to_status "cancelled") e (snd first) in
  option_map r_status (fst (run (updateOrderStatus "o1" (Sample.to_status "cancelled")) e w0))
  = Some 500 /\
  map o_status (orders (w_db (snd first))) = ["pending"] /\
  map p_stock_quantity (products (w_db (snd first))) = [Js.Num 7] /\
  option_map r_status
    (fst (run (updateOrderStatus "o1" (Sample.to_status "cancelled")) e (snd first)))
  = Some 200 /\
  map o_status (orders (w_db (snd second))) = ["cancelled"] /\
  map p_stock_quantity (products (w_db (snd second))) = [Js.Num 9] /\
  stock_writes (w_log (snd second)) = 2.
Proof. vm_compute. repeat split; reflexivity. Qed.

(* ------------------------------------------------------------------ *)
(** ** Pre-orders *)
(* ------------------------------------------------------------------ *)

(** [createOrder] leaves the stock of a pre-order alone. *)
Lemma decrement_stock_pre_order e b items :
  c_is_pre_order b = true -> eff e quiet (decrement_stock b items).
Proof.
  intros H. unfold decrement_stock. rewrite H. simpl.
  apply eff_ret. exact quiet_refl.
Qed.

Lemma createOrder_pre_order e b :
  c_is_pre_order b = true -> eff e quiet (createOrder b).
Proof.
  intros H. quiet_go ltac:(apply decrement_stock_pre_order; exact H).
Qed.

(** [updateOrderStatus] reads the flag of a pre-order from the column and
    from the address, and restores nothing. *)
Lemma updateOrderStatus_pre_order id b e w :
  (forall o, In o (orders (w_db w)) -> o_id o = id -> is_pre_order_of o = true) ->
  quiet w (snd (updateOrderStatus id b e w)).
Proof.
  intros Hc. unfold updateOrderStatus, handle.
  apply try_catch_at; [exact quiet_trans | | intros; quiet_go no_lemma].
  apply bind_at; [exact quiet_trans | apply select_order_quiet |].
  intros [[v |] | x] w1 Hsel;
    [| by_eff ltac:(quiet_go no_lemma) | by_eff ltac:(quiet_go no_lemma)].
  destruct (select_order_row _ _ _ _ _ Hsel) as (Hin & Hid & _).
  cbv zeta. rewrite (Hc _ Hin Hid). cbn [negb].
  rewrite andb_false_r. cbn [andb].
  by_eff ltac:(quiet_go no_lemma).
Qed.

(** [cancelOrder] reads the flag from the column only. *)
Lemma cancelOrder_pre_order_column id b e w :
  (forall o, In o (orders (w_db w)) -> o_id o = id -> o_is_pre_order o = true) ->
  quiet w (snd (cancelOrder id b e w)).
Proof.
  intros Hc. unfold cancelOrder, handle.
  apply try_catch_at; [exact quiet_trans | | intros; quiet_go no_lemma].
  apply bind_at; [exact quiet_trans | apply select_order_quiet |].
  intros [[v |] | x] w1 Hsel;
    [| by_eff ltac:(quiet_go no_lemma) | by_eff ltac:(quiet_go no_lemma)].
  destruct (select_order_row _ _ _ _ _ Hsel) as (Hin & Hid & _).
  cbv zeta. rewrite (Hc _ Hin Hid). cbn [negb].
  rewrite andb_false_r.
  by_eff ltac:(quiet_go no_lemma).
Qed.

(** C3, where the code departs from it.  A pre-order of two phones is
    created: its flag is stored in the address and not in the column,
    and the five phones stay five.  The order is then cancelled, and
    [cancelOrder], which reads the column only, restores two phones that
    were never taken: the stock becomes seven. *)
Lemma cancelOrder_restores_a_pre_order :
  let w0 := start Sample.shop in
  let w1 := snd (createOrder (Sample.request true None) Sample.env_ok w0) in
  let w2 := snd (cancelOrder "row-2" Sample.by_owner Sample.env_ok w1) in
  map p_stock_quantity (products (w_db w1)) = [Js.Num 5] /\
  map (fun o => (o_id o, o_is_pre_order o, option_map a_is_pre_order (o_shipping_address o)))
    (orders (w_db w1)) = [("row-2", false, Some true)] /\
  map p_stock_quantity (products (w_db w2)) = [Js.Num 7].
Proof. vm_compute. repeat split; reflexivity. Qed.

(** [updateOrderStatus] on the same order restores nothing. *)
Lemma updateOrderStatus_skips_a_pre_order :
  let w0 := start Sample.shop in
  let w1 := snd (createOrder (Sample.request true None) Sample.env_ok w0) in
  let w2 := snd (updateOrderStatus "row-2" (Sample.to_status "cancelled") Sample.env_ok w1) in
  map p_stock_quantity (products (w_db w2)) = [Js.Num 5] /\
  map o_status (orders (w_db w2)) = ["cancelled"].
Proof. vm_compute. repeat split; reflexivity. Qed.

(* ------------------------------------------------------------------ *)
(** ** Refunds *)
(* ------------------------------------------------------------------ *)

Import TransactionController.

Lemma select_transaction_keeps e id : eff e (keeps (fun d => d)) (select_transaction id).
Proof. keeps_go no_lemma (fun d : db => d). Qed.

(** What [select_transaction] returns is the one row of that id. *)
Lemma select_transaction_row id e w t o w1 :
  select_transaction id e w = (Val (PgData (Some (t, o))), w1) ->
  Db.transaction_by_id id (w_db w) = [t] /\ o = joined_order t (w_db w) /\
  w1 = record (SelectTransaction id) Ok (w_db w) w.
Proof.
  unfold select_transaction. rewrite remote_run.
  destruct (e_reply e (w_tick w)); try discriminate.
  unfold Db.single.
  destruct (Db.transaction_by_id id (w_db w)) as [| t0 [| t1 l]] eqn:E; simpl; try discriminate.
  intros [= <- <- <-]. auto.
Qed.

(** [.single()] never resolves to neither data nor error: the branch
    that answers 404 is not reached. *)
Lemma select_transaction_not_null id e w w1 :
  select_transaction id e w <> (Val (PgData None), w1).
Proof.
  unfold select_transaction. rewrite remote_run.
  destruct (e_reply e (w_tick w)); try discriminate.
  unfold Db.single.
  destruct (Db.transaction_by_id id (w_db w)) as [| t0 [| t1 l]]; simpl; discriminate.
Qed.

(** A transaction that is not [paid] is not refunded: nothing changes. *)
Lemma refund_only_when_paid id e w :
  (forall t, In t (transactions (w_db w)) -> t_id t = id -> t_payment_status t <> "paid") ->
  w_db (snd (refundTransaction id e w)) = w_db w.
Proof.
  intros Hp. unfold refundTransaction, handle.
  match goal with
  | |- w_db (snd (?m e w)) = w_db w => change (keeps (fun d : db => d) w (snd (m e w)))
  end.
  apply try_catch_at; [apply keeps_trans | | intros; keeps_go no_lemma (fun d : db => d)].
  apply bind_at; [apply keeps_trans | apply select_transaction_keeps |].
  intros [[[t o] |] | x] w1 Hsel;
    [| by_eff ltac:(keeps_go no_lemma (fun d : db => d))
     | by_eff ltac:(keeps_go no_lemma (fun d : db => d))].
  destruct (select_transaction_row _ _ _ _ _ _ Hsel) as (Hrow & _ & _).
  apply filter_single_in in Hrow. destruct Hrow as [Hin Hid].
  apply String.eqb_eq in Hid.
  specialize (Hp _ Hin Hid). apply String.eqb_neq in Hp.
  rewrite Hp. simpl. reflexivity.
Qed.

(** A transaction that exists and is not [paid] is answered 400. *)
Lemma refund_of_unpaid_is_400 id e w t :
  e_reply e (w_tick w) = Done ->
  Db.transaction_by_id id (w_db w) = [t] ->
  t_payment_status t <> "paid" ->
  fst (refundTransaction id e w)
  = Val (failure 400 "Only paid transactions can be refunded" None).
Proof.
  intros Hreply Hrow Hp. apply String.eqb_neq in Hp.
  unfold refundTransaction, handle. rewrite try_catch_run, bind_run.
  unfold select_transaction. rewrite remote_run, Hreply.
  unfold Db.single. rewrite Hrow. simpl. rewrite Hp. reflexivity.
Qed.

(** An id that no transaction has is answered 500, and not 404. *)
Lemma refund_of_missing_is_500 id e w :
  Db.transaction_by_id id (w_db w) = [] ->
  exists r, fst (refundTransaction id e w) = Val r /\ r_status r = 500.
Proof.
  intros Hrow.
  unfold refundTransaction, handle. rewrite try_catch_run, bind_run.
  unfold select_transaction. rewrite remote_run.
  destruct (e_reply e (w_tick w)) as [| x | x]; simpl.
  - unfold Db.single. rewrite Hrow. simpl. eauto.
  - eauto.
  - eauto.
Qed.

(** A paid transaction is refunded; the payment status of its order
    follows when the order is cancelled or pending. *)
Lemma refund_of_paid id e w t :
  e_reply e (w_tick w) = Done ->
  e_reply e (S (w_tick w)) = Done ->
  e_reply e (S (S (w_tick w))) = Done ->
  Db.transaction_by_id id (w_db w) = [t] ->
  t_payment_status t = "paid" ->
  let now := i_ms (e_clock e (S (w_tick w))) in
  let later := i_ms (e_clock e (S (S (w_tick w)))) in
  let d := db_after (refundTransaction id) e w in
  fst (refundTransaction id e w)
    = Val (success "Transaction refunded successfully"
             (TransactionData (set_refunded now t))) /\
  transactions d
    = Db.update_where (fun t' => String.eqb (t_id t') id) (set_refunded now)
        (transactions (w_db w)) /\
  t_status (set_refunded now t) = "refunded" /\
  t_payment_status (set_refunded now t) = "refunded" /\
  orders d
    = match t_order_id t, joined_order t (w_db w) with
      | Some order_id, Some o =>
          if Js.truthy_str (Some order_id) &&
             (String.eqb (o_status o) "cancelled" || String.eqb (o_status o) "pending")
          then Db.update_where (fun o' => String.eqb (o_id o') order_id)
                 (set_payment_status "refunded" later) (orders (w_db w))
          else orders (w_db w)
      | _, _ => orders (w_db w)
      end.
Proof.
  intros H0 H1 H2 Hrow Hp now later d. subst d.
  unfold db_after, refundTransaction, handle. rewrite try_catch_run, bind_run.
  unfold select_transaction. rewrite remote_run, H0.
  unfold Db.single. rewrite Hrow. cbn [fst snd OrderController.pg_map pg_ok].
  rewrite Hp. cbn [String.eqb Ascii.eqb Bool.eqb negb].
  rewrite bind_run, remote_run. cbn [record w_tick w_db]. rewrite H1.
  unfold Db.update_transaction_returning. rewrite Hrow.
  cbn [fst snd pg_ok]. rewrite bind_run.
  unfold refund_order, joined_order.
  destruct (t_order_id t) as [oid |]; [| simpl; auto].
  destruct (hd_error (Db.order_by_id oid (w_db w))) as [o |]; [| simpl; auto].
  destruct (Js.truthy_str (Some oid) &&
            (String.eqb (o_status o) "cancelled" || String.eqb (o_status o) "pending")) eqn:G.
  - rewrite bind_run. unfold new_date. rewrite bind_run, remote_run.
    cbn [record w_tick w_db]. rewrite H2. simpl. auto.
  - simpl. auto.
Qed.

(** C9, where the code departs from it.  A refund is asked for an id
    that no transaction has: the answer is 500, not 400 or 404, and
    nothing is changed. *)
Lemma refund_of_unknown_transaction :
  option_map r_status (fst (run (refundTransaction "t-404") Sample.env_ok
                              (start Sample.shop_paid))) = Some 500 /\
  db_after (refundTransaction "t-404") Sample.env_ok (start Sample.shop_paid)
  = Sample.shop_paid.
Proof. vm_compute. split; reflexivity. Qed.

(* ------------------------------------------------------------------ *)
(** ** Order numbers *)
(* ------------------------------------------------------------------ *)

(** *** Decimal digits *)

Lemma append_assoc s t u : ((s ++ t) ++ u = s ++ (t ++ u))%string.
Proof. induction s as [| c s IH]; simpl; [reflexivity | now rewrite IH]. Qed.

Lemma digits_fuel_acc fuel : forall n acc,
  Js.digits_fuel fuel n acc = (Js.digits_fuel fuel n EmptyString ++ acc)%string.
Proof.
  induction fuel as [| f IH]; intros n acc; simpl; [reflexivity |].
  destruct (n <? 10)%N; [reflexivity |].
  rewrite IH. rewrite (IH _ (String _ EmptyString)).
  rewrite append_assoc. reflexivity.
Qed.

Lemma size_nat_monotone n m : (n <= m)%N -> N.size_nat n <= N.size_nat m.
Proof.
  destruct n as [| p], m as [| q]; simpl; intros H; try lia.
  apply N.lt_eq_cases in H. destruct H as [H | H].
  - now apply Pos.size_nat_monotone.
  - injection H as ->. lia.
Qed.

Lemma size_nat_div2 n : (2 <= n)%N -> N.size_nat n = S (N.size_nat (N.div2 n)).
Proof.
  destruct n as [| [p | p |]]; simpl; intros H; try reflexivity; lia.
Qed.

Lemma size_nat_div10 n : (10 <= n)%N -> S (N.size_nat (n / 10)) <= N.size_nat n.
Proof.
  intros H. rewrite (size_nat_div2 n) by lia.
  apply le_n_S, size_nat_monotone.
  rewrite N.div2_div.
  apply N.div_le_compat_l. lia.
Qed.

Lemma digits_fuel_enough f1 : forall f2 n acc,
  N.size_nat n <= f1 -> N.size_nat n <= f2 ->
  Js.digits_fuel (S f1) n acc = Js.digits_fuel (S f2) n acc.
Proof.
  induction f1 as [| f1 IH]; intros f2 n acc H1 H2; simpl.
  - destruct (n <? 10)%N eqn:E; [reflexivity |].
    apply N.ltb_ge in E. pose proof (size_nat_div10 n E). lia.
  - destruct (n <? 10)%N eqn:E; [reflexivity |].
    apply N.ltb_ge in E. pose proof (size_nat_div10 n E) as Hd.
    destruct f2 as [| f2]; [lia |].
    apply IH; lia.
Qed.

Lemma string_of_N_small n :
  (n < 10)%N -> Js.string_of_N n = String (Js.digit_char n) EmptyString.
Proof.
  intros H. unfold Js.string_of_N. simpl.
  apply N.ltb_lt in H. rewrite H.
  apply N.ltb_lt in H. now rewrite N.mod_small.
Qed.

Lemma string_of_N_step n :
  (10 <= n)%N ->
  Js.string_of_N n
  = (Js.string_of_N (n / 10) ++ String (Js.digit_char (n mod 10)) EmptyString)%string.
Proof.
  intros H. unfold Js.string_of_N at 1. simpl.
  apply N.ltb_ge in H. rewrite H. apply N.ltb_ge in H.
  pose proof (size_nat_div10 n H) as Hd.
  rewrite digits_fuel_acc. f_equal.
  destruct (N.size_nat n) as [| k] eqn:Ek; [lia |].
  unfold Js.string_of_N. apply digits_fuel_enough; lia.
Qed.

Lemma string_of_N_two_digits n :
  (10 <= n < 100)%N -> Js.string_of_N n = two_digits n.
Proof.
  intros [H1 H2]. rewrite string_of_N_step by exact H1.
  rewrite string_of_N_small; [reflexivity |].
  apply N.Div0.div_lt_upper_bound. lia.
Qed.

Lemma pad_two_digits n :
  (n < 100)%N -> Js.pad_start 2 "0" (Js.string_of_N n) = two_digits n.
Proof.
  intros H. destruct (N.lt_ge_cases n 10) as [Hs | Hs].
  - rewrite string_of_N_small by exact Hs. unfold two_digits.
    rewrite N.div_small, N.mod_small by exact Hs. reflexivity.
  - rewrite string_of_N_two_digits by lia. reflexivity.
Qed.

Lemma div_mod_ten a b :
  (a < 10)%N -> ((a + 10 * b) / 10 = b /\ (a + 10 * b) mod 10 = a)%N.
Proof.
  intros H. split.
  - symmetry. apply N.div_unique with (r := a); lia.
  - symmetry. apply N.mod_unique with (q := b); lia.
Qed.

Lemma two_digits_of_hundred n :
  two_digits (n mod 100)
  = String (Js.digit_char ((n / 10) mod 10))
      (String (Js.digit_char (n mod 10)) EmptyString).
Proof.
  unfold two_digits.
  change 100%N with (10 * 10)%N. rewrite N.Div0.mod_mul_r.
  assert (H : (n mod 10 < 10)%N) by (apply N.mod_lt; lia).
  destruct (div_mod_ten (n mod 10) ((n / 10) mod 10) H) as [-> ->].
  reflexivity.
Qed.

Lemma pad_three_digits n :
  (n < 1000)%N -> Js.pad_start 3 "0" (Js.string_of_N n) = three_digits_of n.
Proof.
  intros H. unfold three_digits_of. rewrite two_digits_of_hundred.
  destruct (N.lt_ge_cases n 10) as [H1 | H1].
  - rewrite string_of_N_small by exact H1.
    rewrite (N.div_small n 100), (N.div_small n 10), (N.mod_small n 10) by lia.
    reflexivity.
  - rewrite string_of_N_step by exact H1.
    assert (Hq : (n / 10 < 100)%N) by (apply N.Div0.div_lt_upper_bound; lia).
    destruct (N.lt_ge_cases (n / 10) 10) as [H2 | H2].
    + rewrite string_of_N_small by exact H2.
      assert (H3 : (n < 100)%N).
      { destruct (N.lt_ge_cases n 100) as [H3 | H3]; [exact H3 | exfalso].
        assert (10 <= n / 10)%N by (apply N.div_le_lower_bound; lia). lia. }
      rewrite (N.div_small n 100), (N.mod_small (n / 10) 10) by lia.
      reflexivity.
    + rewrite string_of_N_step by exact H2.
      assert (H3 : (n / 10 / 10 < 10)%N) by (apply N.Div0.div_lt_upper_bound; lia).
      rewrite string_of_N_small by exact H3.
      rewrite N.Div0.div_div. reflexivity.
Qed.

Lemma substring_after s : forall n t,
  String.substring (String.length s) n (s ++ t)%string = String.substring 0 n t.
Proof.
  induction s as [| c s IH]; intros n t; simpl; [reflexivity | apply IH].
Qed.

Lemma length_append s t :
  String.length (s ++ t)%string = String.length s + String.length t.
Proof. induction s as [| c s IH]; simpl; [reflexivity | now rewrite IH]. Qed.

Lemma slice_last_append s t n :
  String.length t = n -> Js.slice_last n (s ++ t)%string = t.
Proof.
  intros <-. unfold Js.slice_last. rewrite length_append.
  replace (String.length s + String.length t - String.length t) with (String.length s) by lia.
  rewrite substring_after. clear s.
  induction t as [| c t IH]; simpl; [reflexivity | now rewrite IH].
Qed.

Lemma slice_last_two_digits n :
  (10 <= n)%N -> Js.slice_last 2 (Js.string_of_N n) = two_digits (n mod 100).
Proof.
  intros H. rewrite two_digits_of_hundred, string_of_N_step by exact H.
  destruct (N.lt_ge_cases (n / 10) 10) as [H2 | H2].
  - rewrite string_of_N_small by exact H2.
    rewrite (N.mod_small (n / 10) 10) by exact H2. reflexivity.
  - rewrite string_of_N_step by exact H2.
    rewrite append_assoc. now apply slice_last_append.
Qed.

(** The date of the code is DDMMYY. *)
Lemma date_str_ddmmyy now : calendar now -> date_str now = ddmmyy now.
Proof.
  intros (Hd & Hm & Hy). unfold date_str, ddmmyy.
  rewrite !pad_two_digits by lia.
  now rewrite slice_last_two_digits.
Qed.

(** *** The sequence *)

Lemma digit_val_bound c : Js.is_digit c = true -> (Js.digit_val c <= 9)%N.
Proof.
  unfold Js.is_digit, Js.digit_val. cbv zeta.
  rewrite andb_true_iff, !N.leb_le. lia.
Qed.

Lemma three_digits_bound s d :
  three_digits s = Some d -> (Js.parse_int d <= 999)%N.
Proof.
  unfold three_digits. cbv zeta.
  match goal with
  | |- (if ?c then _ else _) = _ -> _ => destruct c eqn:E
  end; [| discriminate].
  intros [= <-]. apply andb_true_iff in E. destruct E as [El Ed].
  apply Nat.eqb_eq in El.
  destruct (String.substring 0 3 s) as [| a [| b [| c [| x r]]]]; try discriminate.
  simpl in Ed. rewrite !andb_true_iff in Ed. destruct Ed as (Ha & Hb & Hc & _).
  apply digit_val_bound in Ha, Hb, Hc.
  unfold Js.parse_int. cbn [Js.parse_digits]. lia.
Qed.

Lemma match_ord_cons c s :
  match_ord (String c s)
  = match (if String.prefix "ORD-" (String c s)
           then three_digits (drop 4 (String c s)) else None) with
    | Some d => Some d
    | None => match_ord s
    end.
Proof. reflexivity. Qed.

Lemma match_ord_bound s d : match_ord s = Some d -> (Js.parse_int d <= 999)%N.
Proof.
  induction s as [| c s IH].
  - discriminate.
  - rewrite match_ord_cons.
    destruct (String.prefix "ORD-" (String c s)); [| exact IH].
    destruct (three_digits (drop 4 (String c s))) as [d' |] eqn:E; [| exact IH].
    intros [= ->]. eapply three_digits_bound. exact E.
Qed.

Lemma sequence_of_bound lastOrder s :
  sequence_of lastOrder = Some s -> (s <= 999)%N.
Proof.
  unfold sequence_of. destruct lastOrder as [o |]; [| discriminate].
  destruct (o_order_number o) as [number |]; [| discriminate].
  destruct (match_ord number) as [d |] eqn:E; [| discriminate].
  intros [= <-]. now apply match_ord_bound in E.
Qed.

Lemma claimed_sequence_bound last :
  (1 <= claimed_sequence last <= 999)%N.
Proof.
  unfold claimed_sequence. destruct last as [s |]; [| lia].
  destruct (s + 1 <=? 999)%N eqn:E; [| lia].
  apply N.leb_le in E. lia.
Qed.

(** The sequence of the code is the sequence of the specification. *)
Lemma next_sequence_claimed lastOrder :
  next_sequence lastOrder = claimed_sequence (sequence_of lastOrder).
Proof.
  unfold next_sequence, sequence_of, claimed_sequence.
  destruct lastOrder as [o |]; [| reflexivity].
  destruct (o_order_number o) as [number |]; [| reflexivity].
  destruct (Js.truthy_str (Some number)) eqn:T.
  - destruct (match_ord number) as [d |]; [| reflexivity]. simpl.
    destruct (Js.parse_int d + 1 <=? 999)%N eqn:E.
    + apply N.leb_le in E. apply N.ltb_ge in E. now rewrite E.
    + apply N.leb_gt in E. apply N.ltb_lt in E. now rewrite E.
  - simpl in T. apply negb_false_iff, String.eqb_eq in T. subst number.
    reflexivity.
Qed.

(** *** The number [generateOrderNumber] returns *)

Lemma generateOrderNumber_value e w :
  (forall n, calendar (e_clock e n)) ->
  fst (generateOrderNumber e w) = Val (generated_number_at e (w_tick w) (w_db w)).
Proof.
  intros Hcal. unfold generateOrderNumber, generated_number_at, claimed_number_at.
  rewrite try_catch_run, bind_run. unfold new_date at 1.
  rewrite bind_run. unfold select_last_order. rewrite bind_run, remote_run.
  destruct (e_reply e (w_tick w)) as [| x | x].
  - cbn [fst snd ret]. rewrite next_sequence_claimed.
    rewrite pad_three_digits, date_str_ddmmyy; [reflexivity | apply Hcal |].
    pose proof (claimed_sequence_bound
                  (sequence_of (Db.last_order_since (i_midnight (e_clock e (w_tick w))) (w_db w)))).
    lia.
  - cbn [fst snd ret next_sequence].
    rewrite pad_three_digits, date_str_ddmmyy; [reflexivity | apply Hcal | lia].
  - rewrite bind_run. unfold new_date. cbn [fst snd ret record w_tick].
    rewrite date_str_ddmmyy by apply Hcal. reflexivity.
Qed.

Lemma generateOrderNumber_logs e number :
  eff e (logs (inserts_number number)) generateOrderNumber.
Proof.
  eff_go no_lemma (logs_refl (inserts_number number)) (logs_trans (inserts_number number))
    ltac:(apply logs_record; intros ? ?; discriminate).
Qed.

Ltac leaf_number :=
  apply logs_record; intros ? Hev; simpl in Hev;
  first [ discriminate Hev | injection Hev as <-; reflexivity ].

(** What follows the numbering of an order inserts it under its number. *)
Lemma place_order_number b items da e w :
  (forall n, calendar (e_clock e n)) ->
  Js.truthy_str (c_order_number b) = false ->
  logs (inserts_number (generated_number_at e (w_tick w) (w_db w))) w
    (snd (place_order b items da e w)).
Proof.
  intros Hcal Hnone. unfold place_order, final_order_number.
  assert (Hgen : match c_order_number b with
                 | Some n => if String.eqb n "" then generateOrderNumber else ret n
                 | None => generateOrderNumber
                 end = generateOrderNumber).
  { destruct (c_order_number b) as [n |]; [| reflexivity].
    simpl in Hnone. apply negb_false_iff in Hnone. now rewrite Hnone. }
  rewrite Hgen.
  remember (generated_number_at e (w_tick w) (w_db w)) as number eqn:Hnum.
  apply (bind_at (logs (inserts_number number)));
    [exact (logs_trans _) | apply generateOrderNumber_logs |].
  intros a w1 Hrun.
  pose proof (generateOrderNumber_value e w Hcal) as Hv.
  rewrite Hrun, <- Hnum in Hv. injection Hv as ->.
  by_eff ltac:(eff_go no_lemma (logs_refl (inserts_number number))
                 (logs_trans (inserts_number number)) leaf_number).
Qed.

Lemma createOrder_number b e w :
  (forall n, calendar (e_clock e n)) ->
  Js.truthy_str (c_order_number b) = false ->
  logs (inserts_number (generated_number_at e (S (w_tick w)) (w_db w))) w
    (snd (createOrder b e w)).
Proof.
  intros Hcal Hnone.
  remember (generated_number_at e (S (w_tick w)) (w_db w)) as number eqn:Hnum.
  assert (Hquiet : forall r : response, eff e (logs (inserts_number number)) (ret r)).
  { intros r. apply eff_ret. apply logs_refl. }
  unfold createOrder.
  apply (try_catch_at (logs (inserts_number number)));
    [exact (logs_trans _) | | intros; apply Hquiet].
  destruct (c_order_items b) as [[| item items] |]; try apply Hquiet.
  destruct (c_delivery_address b) as [da |]; [| apply Hquiet].
  destruct (negb (Js.truthy (c_total b)) || Js.le (Js.to_number (c_total b)) 0);
    [apply Hquiet |].
  unfold validate_products. cbv zeta.
  destruct (List.length (map it_product_id (item :: items)) =? 0)%nat; [apply Hquiet |].
  destruct (negb (_ =? _)%nat); [apply Hquiet |].
  apply (bind_at (logs (inserts_number number))); [exact (logs_trans _) | |].
  - by_eff ltac:(eff_go no_lemma (logs_refl (inserts_number number))
                   (logs_trans (inserts_number number)) leaf_number).
  - intros checked w1 Hrun. rewrite remote_run in Hrun.
    destruct checked as [existingProducts | x]; [| apply Hquiet].
    destruct (0 <? _)%nat; [apply Hquiet |].
    assert (Hw : w_tick w1 = S (w_tick w) /\ w_db w1 = w_db w).
    { destruct (e_reply e (w_tick w)); injection Hrun as _ <-; split; reflexivity. }
    destruct Hw as [Ht Hd]. rewrite Hnum, <- Ht, <- Hd.
    now apply place_order_number.
Qed.

(** C5, as amended.  When a request does not supply an order number, the
    order is inserted under ORD-SSSDDMMYY, where DDMMYY is the date and
    SSS the sequence after that of the most recent order of today that
    the lookup returns (1 when it returns none or is refused, and 1 again
    beyond 999); when the lookup throws, SSS is instead the last three
    digits of the clock in milliseconds. *)
Theorem generated_order_number (e : env) (w : world) (b : create_body) :
  (forall n, calendar (e_clock e n)) ->
  Js.truthy_str (c_order_number b) = false ->
  fst (generateOrderNumber e w) = Val (generated_number_at e (w_tick w) (w_db w)) /\
  (forall number res,
      In {| ev_call := InsertOrder number; ev_result := res |} (log_of (createOrder b) e w) ->
      number = generated_number_at e (S (w_tick w)) (w_db w)).
Proof.
  intros Hcal Hnone. split; [now apply generateOrderNumber_value |].
  intros number res Hin.
  destruct (createOrder_number b e w Hcal Hnone) as [l [Hl Hf]].
  rewrite (log_of_app _ _ _ _ Hl) in Hin.
  rewrite Forall_forall in Hf. exact (Hf _ Hin number eq_refl).
Qed.

Lemma sample_calendar refused raised n :
  calendar (e_clock (Sample.env_with refused raised) n).
Proof. unfold calendar. simpl. lia. Qed.

(** The first order of the day is inserted as ORD-001021126. *)
Lemma generated_order_number_witness :
  In {| ev_call := InsertOrder "ORD-001021126"; ev_result := Ok |}
    (log_of (createOrder (Sample.request false None)) (Sample.env_with [] [])
       (start Sample.shop)) /\
  "ORD-001021126" = generated_number_at (Sample.env_with [] []) 1 Sample.shop.
Proof.
  assert (H : In {| ev_call := InsertOrder "ORD-001021126"; ev_result := Ok |}
                (log_of (createOrder (Sample.request false None)) (Sample.env_with [] [])
                   (start Sample.shop))).
  { vm_compute. right. right. left. reflexivity. }
  split; [exact H |].
  exact (proj2 (generated_order_number (Sample.env_with [] []) (start Sample.shop)
                  (Sample.request false None) (sample_calendar [] []) eq_refl)
           "ORD-001021126" Ok H).
Defined.

(** C5, as stated, fails.  The lookup of the last order throws: the
    order is numbered ORD-123021126, after the clock, although no order
    was placed today and the specification numbers it ORD-001021126. *)
Lemma order_number_when_lookup_throws :
  map o_order_number
    (orders (db_after (createOrder (Sample.request false None))
               (Sample.env_with [] [1]) (start Sample.shop)))
  = [Some "ORD-123021126"] /\
  claimed_number_at (Sample.env_with [] [1]) 1 Sample.shop = "ORD-001021126".
Proof. vm_compute. split; reflexivity. Qed.

(* ------------------------------------------------------------------ *)
(** ** Creating an order, step by step *)
(* ------------------------------------------------------------------ *)

(** The steps never throw where the code catches. *)
Lemma try_catch_returns {A} (m : M A) h e w :
  (forall x w1, exists a, fst (h x e w1) = Val a) ->
  exists a, fst (try_catch m h e w) = Val a.
Proof.
  intros Hh. rewrite try_catch_run.
  destruct (m e w) as [[a | x] w1]; simpl; eauto.
Qed.

Lemma generateOrderNumber_returns e w : exists n, fst (generateOrderNumber e w) = Val n.
Proof.
  unfold generateOrderNumber. apply try_catch_returns.
  intros x w1. rewrite bind_run. simpl. eauto.
Qed.

Lemma final_order_number_returns b e w :
  exists n, fst (final_order_number b e w) = Val n.
Proof.
  unfold final_order_number.
  destruct (c_order_number b) as [n |]; [| apply generateOrderNumber_returns].
  destruct (String.eqb n ""); [apply generateOrderNumber_returns | simpl; eauto].
Qed.

Lemma final_order_number_keeps e b : eff e (keeps (fun d => d)) (final_order_number b).
Proof. keeps_go no_lemma (fun d : db => d). Qed.

(** The order inserted is the row of the request. *)
Lemma insert_order_data b items da number e w o w1 :
  insert_order b items da number e w = (Val (PgData o), w1) ->
  o = orderInsertData e (w_tick w) b items da number /\
  w1 = record (InsertOrder number) Ok (Db.set_orders (orders (w_db w) ++ [o]) (w_db w)) w /\
  Db.order_by_id (o_id o) (w_db w) = [].
Proof.
  unfold insert_order. rewrite remote_run.
  destruct (e_reply e (w_tick w)); try discriminate.
  unfold Db.insert_order.
  destruct (existsb _ (orders (w_db w))) eqn:E; simpl; [discriminate |].
  intros [= <- <-]. repeat split.
  unfold Db.order_by_id.
  destruct (filter _ (orders (w_db w))) as [| o' l] eqn:F; [reflexivity | exfalso].
  assert (Hin : In o' (filter (fun o0 => String.eqb (o_id o0)
              (o_id (orderInsertData e (w_tick w) b items da number))) (orders (w_db w))))
    by (rewrite F; now left).
  apply filter_In in Hin. destruct Hin as [Hin Heq].
  assert (Hex : existsb (fun o0 => String.eqb (o_id o0)
              (o_id (orderInsertData e (w_tick w) b items da number))) (orders (w_db w)) = true)
    by (apply existsb_exists; eauto).
  congruence.
Qed.

(** The items were inserted: the call was carried out. *)
Lemma insert_order_items_done o items e w u w1 :
  insert_order_items o items e w = (Val u, w1) ->
  w1 = record (InsertOrderItems (o_id o)) Ok
         (Db.set_order_items (order_items (w_db w) ++ orderItems (o_id o) items) (w_db w)) w.
Proof.
  unfold insert_order_items. rewrite bind_run, remote_run.
  destruct (e_reply e (w_tick w)) as [| x | x]; simpl; try discriminate.
  - intros [= _ <-]. reflexivity.
  - rewrite bind_run.
    match goal with |- context [try_catch ?m ?h e ?w0] => destruct (try_catch m h e w0) as [[a | y] w2] end;
      discriminate.
Qed.

Lemma decrement_stock_keeps_orders e b items :
  eff e (keeps (fun d => (orders d, order_items d, transactions d))) (decrement_stock b items).
Proof.
  eff_go no_lemma
    (@keeps_refl _ (fun d : db => (orders d, order_items d, transactions d)))
    (@keeps_trans _ (fun d : db => (orders d, order_items d, transactions d)))
    leaf_keeps.
Qed.

Lemma after_stock_keeps_orders e b items o number a :
  eff e (keeps (fun d => (orders d, order_items d))) (after_stock b items o number a).
Proof.
  eff_go no_lemma
    (@keeps_refl _ (fun d : db => (orders d, order_items d)))
    (@keeps_trans _ (fun d : db => (orders d, order_items d)))
    leaf_keeps.
Qed.

(** What [after_stock] answers is the order. *)
Lemma after_stock_answer b items o number a e w r w1 :
  after_stock b items o number a e w = (Val r, w1) ->
  r = success "Order created successfully" (OrderData o).
Proof.
  unfold after_stock. intros H.
  repeat (apply bind_val in H; destruct H as (? & ? & _ & H)).
  now injection H as <- _.
Qed.

(** A request that is answered 200 went through every step. *)
Lemma createOrder_success b e w r w' :
  createOrder b e w = (Val r, w') -> r_status r = 200 ->
  exists items da number w2 o w3 w4 w5,
    c_order_items b = Some items /\ items <> [] /\
    c_delivery_address b = Some da /\
    e_reply e (w_tick w) = Done /\
    final_order_number b e
      (record (SelectProductsIn (validProductIds (map it_product_id items))) Ok (w_db w) w)
    = (Val number, w2) /\
    Js.lt (calculatedTotal b items) 0 = false /\
    Js.gt (calculatedTotal b items) 100000 = false /\
    insert_order b items da number e w2 = (Val (PgData o), w3) /\
    insert_order_items o items e w3 = (Val tt, w4) /\
    decrement_stock b items e w4 = (Val tt, w5) /\
    after_stock b items o number (shippingAddress b da) e w5 = (Val r, w').
Proof.
  unfold createOrder. rewrite try_catch_run. intros H H200.
  assert (Hno : forall s m err w0, (Val r, w') = (Val (failure s m err), w0) -> s <> 200 -> False).
  { intros s m err w0 [= -> _] Hs. apply Hs. exact H200. }
  destruct (c_order_items b) as [[| item items] |];
    try (exfalso; apply (Hno 400 _ _ _ (eq_sym H)); discriminate).
  destruct (c_delivery_address b) as [da |];
    [| exfalso; apply (Hno 400 _ _ _ (eq_sym H)); discriminate].
  destruct (negb (Js.truthy (c_total b)) || Js.le (Js.to_number (c_total b)) 0);
    [exfalso; apply (Hno 400 _ _ _ (eq_sym H)); discriminate |].
  unfold validate_products in H. cbv zeta in H.
  destruct (List.length (map it_product_id (item :: items)) =? 0)%nat;
    [exfalso; apply (Hno 400 _ _ _ (eq_sym H)); discriminate |].
  destruct (negb (_ =? _)%nat);
    [exfalso; apply (Hno 400 _ _ _ (eq_sym H)); discriminate |].
  rewrite bind_run, remote_run in H.
  destruct (e_reply e (w_tick w)) as [| x | x] eqn:Hreply;
    [| exfalso; apply (Hno 400 _ _ _ (eq_sym H)); discriminate
     | simpl in H; injection H as <- _; discriminate].
  cbn [fst snd result_of pg_ok] in H.
  destruct (0 <? _)%nat.
  { injection H as <- _. discriminate. }
  unfold place_order in H. rewrite bind_run in H.
  destruct (final_order_number b e _) as [[number | x] w2] eqn:Hnum;
    [| simpl in H; injection H as <- _; discriminate].
  destruct (Js.lt (calculatedTotal b (item :: items)) 0) eqn:Hneg.
  { injection H as <- _. discriminate. }
  destruct (Js.gt (calculatedTotal b (item :: items)) 100000) eqn:Hbig.
  { rewrite bind_run in H. simpl in H. injection H as <- _. discriminate. }
  rewrite bind_run in H.
  destruct (insert_order b (item :: items) da number e w2) as [[[o | x] | x] w3] eqn:Hins;
    try (simpl in H; injection H as <- _; discriminate).
  rewrite bind_run in H.
  destruct (insert_order_items o (item :: items) e w3) as [[[] | x] w4] eqn:Hitems;
    [| simpl in H; injection H as <- _; discriminate].
  rewrite bind_run in H.
  destruct (decrement_stock b (item :: items) e w4) as [[[] | x] w5] eqn:Hstock;
    [| simpl in H; injection H as <- _; discriminate].
  destruct (after_stock b (item :: items) o number (shippingAddress b da) e w5)
    as [[r' | x] w6] eqn:Hafter; [| simpl in H; injection H as <- _; discriminate].
  injection H as <- <-.
  exists (item :: items), da, number, w2, o, w3, w4, w5.
  repeat split; try assumption; try reflexivity. discriminate.
Qed.

(* ------------------------------------------------------------------ *)
(** ** The total of an order *)
(* ------------------------------------------------------------------ *)

Lemma or_num_truthy v : Js.truthy v = true -> Js.or_num v 0 = Js.to_number v.
Proof. unfold Js.or_num. now intros ->. Qed.

Lemma or_num_falsy v : Js.truthy v = false -> Js.or_num v 0 = 0%float.
Proof. unfold Js.or_num. now intros ->. Qed.

(** What a key gives is what [||] keeps of it. *)
Lemma given_truthy v : Js.truthy v = true -> given v = Some (Js.to_number v).
Proof.
  destruct v as [| | x]; try discriminate. cbn [Js.truthy given Js.to_number].
  intros H. apply negb_true_iff in H. now rewrite H.
Qed.

Lemma given_falsy v : Js.truthy v = false -> given v = None.
Proof.
  destruct v as [| | x]; try reflexivity. cbn [Js.truthy given].
  intros H. apply negb_false_iff in H. now rewrite H.
Qed.

Lemma or_num_amount v : Js.or_num v 0 = amount v.
Proof.
  unfold amount. destruct (Js.truthy v) eqn:T.
  - now rewrite (or_num_truthy _ T), (given_truthy _ T).
  - now rewrite (or_num_falsy _ T), (given_falsy _ T).
Qed.

Lemma item_subtotal_claimed item : item_subtotal item = claimed_item_amount item.
Proof.
  unfold item_subtotal, claimed_item_amount.
  destruct (Js.truthy (it_subtotal item)) eqn:T.
  - now rewrite (given_truthy _ T).
  - rewrite (given_falsy _ T). f_equal.
    destruct (Js.truthy (it_quantity item)) eqn:Q.
    + unfold Js.or_num. now rewrite Q, (given_truthy _ Q).
    + unfold Js.or_num. now rewrite Q, (given_falsy _ Q).
Qed.

Lemma fold_left_sum_ext (f g : item_input -> float) items :
  (forall item, f item = g item) ->
  forall x, fold_left (fun sum item => (sum + f item)%float) items x
            = fold_left (fun sum item => (sum + g item)%float) items x.
Proof.
  intros H. induction items as [| item items IH]; intros x; [reflexivity |].
  cbn [fold_left]. rewrite H. apply IH.
Qed.

(** The subtotal of the code is the supplied one, or the sum over the
    items when none or zero is supplied. *)
Lemma actualSubtotal_claimed b items : actualSubtotal b items = claimed_subtotal b items.
Proof.
  unfold actualSubtotal, claimed_subtotal, finalSubtotal, falsy.
  destruct (Js.truthy (c_subtotal b)) eqn:T.
  - rewrite (or_num_truthy _ T), (given_truthy _ T).
    destruct (c_subtotal b) as [| | x]; try discriminate.
    cbn [Js.truthy Js.to_number] in *. apply negb_true_iff in T. rewrite T.
    apply orb_false_iff in T. destruct T as [Tz _].
    change (PrimFloat.eqb x 0) with (PrimFloat.is_zero x). now rewrite Tz.
  - rewrite (or_num_falsy _ T), (given_falsy _ T).
    apply fold_left_sum_ext, item_subtotal_claimed.
Qed.

Lemma calculatedTotal_claimed b items : calculatedTotal b items = claimed_total b items.
Proof.
  unfold calculatedTotal, claimed_total, finalDeliveryFee, finalTax, finalDiscount.
  now rewrite actualSubtotal_claimed, !or_num_amount.
Qed.

(** When the computed total is out of range, the request is refused
    before the order is inserted. *)
Lemma place_order_out_of_range b items da e w :
  Js.lt (calculatedTotal b items) 0 = true \/ Js.gt (calculatedTotal b items) 100000 = true ->
  exists r, fst (place_order b items da e w) = Val r /\ r_status r = 400 /\
            r_success r = false /\
            w_db (snd (place_order b items da e w)) = w_db w.
Proof.
  intros Hrange. unfold place_order. rewrite bind_run.
  destruct (final_order_number_returns b e w) as [number Hn].
  pose proof (final_order_number_keeps e b w) as Hk. unfold keeps in Hk.
  destruct (final_order_number b e w) as [[n | x] w1]; simpl in Hn; [| discriminate].
  simpl in Hk. cbv zeta.
  destruct (Js.lt (calculatedTotal b items) 0) eqn:Hneg.
  - simpl. eauto 6.
  - destruct Hrange as [Hr | Hr]; [discriminate | rewrite Hr].
    rewrite bind_run. simpl. eauto 6.
Qed.

Lemma createOrder_out_of_range b items e w :
  c_order_items b = Some items ->
  Js.lt (calculatedTotal b items) 0 = true \/ Js.gt (calculatedTotal b items) 100000 = true ->
  exists r, fst (createOrder b e w) = Val r /\ r_success r = false /\
            db_after (createOrder b) e w = w_db w /\
            (r_status r = 400 \/
             r_status r = 500 /\ exists x, e_reply e (w_tick w) = Raised x) /\
            ((forall x, e_reply e (w_tick w) <> Raised x) -> r_status r = 400).
Proof.
  intros Hitems Hrange. unfold db_after, createOrder. rewrite try_catch_run, Hitems.
  destruct items as [| item items]; [simpl; eauto 8 |].
  destruct (c_delivery_address b) as [da |]; [| simpl; eauto 8].
  destruct (negb (Js.truthy (c_total b)) || Js.le (Js.to_number (c_total b)) 0);
    [simpl; eauto 8 |].
  unfold validate_products. cbv zeta.
  destruct (List.length (map it_product_id (item :: items)) =? 0)%nat; [simpl; eauto 8 |].
  destruct (negb (_ =? _)%nat); [simpl; eauto 8 |].
  rewrite bind_run, remote_run.
  destruct (e_reply e (w_tick w)) as [| x | x] eqn:Hreply.
  - cbn [fst snd result_of pg_ok].
    destruct (0 <? _)%nat; [simpl; eauto 8 |].
    match goal with
    | |- context [place_order b (item :: items) da e ?w1] =>
        destruct (place_order_out_of_range b (item :: items) da e w1 Hrange)
          as (r & Hr & Hs & Hf & Hd);
        destruct (place_order b (item :: items) da e w1) as [[r' | y] w2]
    end; simpl in Hr; [| discriminate].
    injection Hr as ->. simpl in Hd. simpl.
    exists r. repeat split; auto.
  - simpl. eauto 8.
  - simpl. eexists. repeat split.
    + right. split; [reflexivity | exists x; reflexivity].
    + intros Hx. exfalso. exact (Hx x eq_refl).
Qed.

Lemma createOrder_inserts_order b e w r :
  fst (createOrder b e w) = Val r -> r_status r = 200 ->
  exists items da number n o,
    c_order_items b = Some items /\ c_delivery_address b = Some da /\
    o = orderInsertData e n b items da number /\
    r = success "Order created successfully" (OrderData o) /\
    orders (db_after (createOrder b) e w) = orders (w_db w) ++ [o] /\
    order_items (db_after (createOrder b) e w)
    = order_items (w_db w) ++ orderItems (o_id o) items.
Proof.
  intros Hr H200. unfold db_after.
  destruct (createOrder b e w) as [[r' | x] w'] eqn:Hrun; simpl in Hr; [| discriminate].
  injection Hr as ->.
  destruct (createOrder_success b e w r w' Hrun H200)
    as (items & da & number & w2 & o & w3 & w4 & w5 &
        Hitems & _ & Hda & _ & Hnum & _ & _ & Hins & Hrows & Hstock & Hafter).
  exists items, da, number, (w_tick w2), o.
  apply insert_order_data in Hins. destruct Hins as (Ho & Hw3 & _).
  apply insert_order_items_done in Hrows.
  pose proof (final_order_number_keeps e b
                (record (SelectProductsIn (validProductIds (map it_product_id items))) Ok
                   (w_db w) w)) as K2.
  rewrite Hnum in K2. unfold keeps in K2. simpl in K2.
  pose proof (decrement_stock_keeps_orders e b items w4) as K5.
  rewrite Hstock in K5. unfold keeps in K5. simpl in K5.
  pose proof (after_stock_keeps_orders e b items o number (shippingAddress b da) w5) as K6.
  rewrite Hafter in K6. unfold keeps in K6. simpl in K6.
  injection K5 as K5o K5i _. injection K6 as K6o K6i.
  repeat split; try assumption.
  - now apply after_stock_answer in Hafter.
  - simpl. rewrite K6o, K5o, Hrows, Hw3. simpl. now rewrite K2.
  - simpl. rewrite K6i, K5i, Hrows, Hw3. simpl. now rewrite K2.
Qed.

(** What follows the validation of the fields does not read the [total]
    of the request. *)
Lemma validated_order_ignores_total t b items da :
  validate_products items (place_order (with_total t b) items da)
  = validate_products items (place_order b items da).
Proof. reflexivity. Qed.

Lemma createOrder_ignores_total t b e w :
  Js.truthy t = true -> Js.le (Js.to_number t) 0 = false ->
  Js.truthy (c_total b) = true -> Js.le (Js.to_number (c_total b)) 0 = false ->
  createOrder (with_total t b) e w = createOrder b e w.
Proof.
  intros Ht Hpos Hb Hbpos. unfold createOrder. rewrite !try_catch_run.
  change (c_order_items (with_total t b)) with (c_order_items b).
  change (c_delivery_address (with_total t b)) with (c_delivery_address b).
  change (c_total (with_total t b)) with t.
  destruct (c_order_items b) as [[| item items] |]; try reflexivity.
  destruct (c_delivery_address b) as [da |]; try reflexivity.
  rewrite Ht, Hpos, Hb, Hbpos. cbn [negb orb].
  now rewrite validated_order_ignores_total.
Qed.

(** C8.  The order a successful [createOrder] leaves in the table has
    for total the JSON value of subtotal + delivery_fee + tax - discount,
    where an amount that is not given is zero and the subtotal is summed
    over the items when it is not given: that number itself when it is
    finite.  The [total] of the request does not enter it: with any
    other total that passes the validation of the fields the request
    runs alike.  When the computed total is negative or above 100000,
    [createOrder] fails and the database is as before; the answer is 400,
    except that it is 500 when the lookup of the products threw. *)
Theorem order_total_is_computed (b : create_body) (e : env) (w : world) :
  (forall r,
      fst (createOrder b e w) = Val r -> r_status r = 200 ->
      exists items o,
        c_order_items b = Some items /\
        r_data r = OrderData o /\
        orders (db_after (createOrder b) e w) = orders (w_db w) ++ [o] /\
        o_total o = Js.json_number (claimed_total b items) /\
        (PrimFloat.is_finite (claimed_total b items) = true ->
         o_total o = Some (claimed_total b items))) /\
  (forall t,
      Js.truthy t = true -> Js.le (Js.to_number t) 0 = false ->
      Js.truthy (c_total b) = true -> Js.le (Js.to_number (c_total b)) 0 = false ->
      createOrder (with_total t b) e w = createOrder b e w) /\
  (forall items,
      c_order_items b = Some items ->
      Js.lt (claimed_total b items) 0 = true \/
      Js.gt (claimed_total b items) 100000 = true ->
      exists r,
        fst (createOrder b e w) = Val r /\ r_success r = false /\
        db_after (createOrder b) e w = w_db w /\
        (r_status r = 400 \/
         r_status r = 500 /\ exists x, e_reply e (w_tick w) = Raised x) /\
        ((forall x, e_reply e (w_tick w) <> Raised x) -> r_status r = 400)).
Proof.
  split; [| split].
  - intros r Hr H200.
    destruct (createOrder_inserts_order b e w r Hr H200)
      as (items & da & number & n & o & Hitems & _ & Ho & Hres & Horders & _).
    exists items, o.
    assert (Htotal : o_total o = Js.json_number (claimed_total b items)).
    { rewrite Ho. cbn [o_total orderInsertData]. now rewrite calculatedTotal_claimed. }
    repeat split; try assumption.
    + now rewrite Hres.
    + intros Hfinite. rewrite Htotal. unfold Js.json_number.
      unfold PrimFloat.is_finite in Hfinite. apply negb_true_iff in Hfinite.
      now rewrite Hfinite.
  - intros t. apply createOrder_ignores_total.
  - intros items Hitems Hrange. rewrite <- (calculatedTotal_claimed b items) in Hrange.
    exact (createOrder_out_of_range b items e w Hitems Hrange).
Qed.

(** The order of three phones without a subtotal is stored with the
    total 310, summed over its items, although the request says 99999;
    with a discount of 500 the order of two phones is refused with
    400. *)
Lemma order_total_is_computed_witness :
  (exists items o,
      c_order_items (with_total (Js.Num 99999) request_without_subtotal) = Some items /\
      orders (db_after (createOrder (with_total (Js.Num 99999) request_without_subtotal))
                Sample.env_ok (start Sample.shop)) = orders (w_db (start Sample.shop)) ++ [o] /\
      o_total o = Some 310%float) /\
  (exists r,
      fst (createOrder discounted_request Sample.env_ok (start Sample.shop)) = Val r /\
      r_status r = 400).
Proof.
  split.
  - destruct (fst (createOrder (with_total (Js.Num 99999) request_without_subtotal)
                     Sample.env_ok (start Sample.shop))) as [r | x] eqn:Hr;
      [| vm_compute in Hr; discriminate Hr].
    assert (H200 : r_status r = 200)
      by (vm_compute in Hr; injection Hr as <-; reflexivity).
    destruct (proj1 (order_total_is_computed
                       (with_total (Js.Num 99999) request_without_subtotal)
                       Sample.env_ok (start Sample.shop)) r Hr H200)
      as (items & o & Hitems & _ & Horders & _ & Htotal).
    exists items, o. split; [assumption |]. split; [assumption |].
    injection Hitems as <-. apply Htotal. reflexivity.
  - destruct (proj2 (proj2 (order_total_is_computed discounted_request Sample.env_ok
                              (start Sample.shop))) [Sample.two_phones] eq_refl
                (or_introl eq_refl)) as (r & Hr & _ & _ & _ & Hs).
    exists r. split; [exact Hr | apply Hs]. intros x. discriminate.
Defined.

(** With a discount of 500 the computed total of the order of two phones
    is negative; when the lookup of the products throws, the request is
    answered 500, not 400. *)
Lemma out_of_range_total_answered_500 :
  Js.lt (claimed_total discounted_request [Sample.two_phones]) 0 = true /\
  exists r,
    fst (createOrder discounted_request (Sample.env_with [] [0]) (start Sample.shop)) = Val r /\
    r_status r = 500 /\ r_status r <> 400 /\
    db_after (createOrder discounted_request) (Sample.env_with [] [0]) (start Sample.shop)
    = Sample.shop.
Proof.
  split; [reflexivity |]. eexists. split; [vm_compute; reflexivity |].
  repeat split. discriminate.
Qed.

(** The total of an order whose item has no price is no number: neither
    bound refuses it, the order is stored with the total [null], and the
    notification for the dashboard, which prints the total, is not
    inserted. *)
Lemma total_that_is_no_number_is_stored_as_null :
  PrimFloat.is_nan (claimed_total unpriced_request [unpriced_phone]) = true /\
  option_map r_status
    (fst (run (createOrder unpriced_request) Sample.env_ok (start Sample.shop))) = Some 200 /\
  map o_total
    (orders (db_after (createOrder unpriced_request) Sample.env_ok (start Sample.shop)))
  = [None] /\
  notifications (db_after (createOrder unpriced_request) Sample.env_ok (start Sample.shop))
  = [].
Proof. vm_compute. repeat split; reflexivity. Qed.

(* ------------------------------------------------------------------ *)
(** ** Compensation when the items cannot be inserted *)
(* ------------------------------------------------------------------ *)

Ltac leaf_step := apply logs_record; unfold early, of_step, from_step, step; simpl; lia.

Lemma final_order_number_early e b : eff e (logs early) (final_order_number b).
Proof. eff_go no_lemma (logs_refl early) (logs_trans early) leaf_step. Qed.

Lemma early_ret e (r : response) : eff e (logs early) (ret r).
Proof. apply eff_ret. apply logs_refl. Qed.

(** Either a request ends before its order is inserted, or it goes on
    from the inserted order. *)
Lemma createOrder_before_items b e w :
  logs early w (snd (createOrder b e w)) \/
  exists items da number w2 o w3,
    c_order_items b = Some items /\ c_delivery_address b = Some da /\
    w_db w2 = w_db w /\ logs early w w3 /\
    insert_order b items da number e w2 = (Val (PgData o), w3) /\
    createOrder b e w = after_insert b items o number (shippingAddress b da) e w3.
Proof.
  unfold createOrder. rewrite try_catch_run.
  destruct (c_order_items b) as [[| item items] |];
    try (left; apply (early_ret e)).
  destruct (c_delivery_address b) as [da |]; [| left; apply (early_ret e)].
  destruct (negb (Js.truthy (c_total b)) || Js.le (Js.to_number (c_total b)) 0);
    [left; apply (early_ret e) |].
  unfold validate_products. cbv zeta.
  destruct (List.length (map it_product_id (item :: items)) =? 0)%nat;
    [left; apply (early_ret e) |].
  destruct (negb (_ =? _)%nat); [left; apply (early_ret e) |].
  rewrite bind_run, remote_run.
  set (ids := validProductIds (map it_product_id (item :: items))).
  assert (L1 : forall res, logs early w (record (SelectProductsIn ids) res (w_db w) w))
    by (intros res; leaf_step).
  destruct (e_reply e (w_tick w)) as [| x | x]; [| left; apply L1 | left; apply L1].
  cbn [fst snd result_of pg_ok].
  destruct (0 <? _)%nat; [left; apply L1 |].
  unfold place_order. rewrite bind_run.
  pose proof (final_order_number_early e b (record (SelectProductsIn ids) Ok (w_db w) w)) as L2.
  pose proof (final_order_number_keeps e b (record (SelectProductsIn ids) Ok (w_db w) w)) as K2.
  destruct (final_order_number b e _) as [[number | x] w2];
    simpl in L2, K2; unfold keeps in K2; simpl in K2.
  2:{ left. simpl. eapply logs_trans; [apply L1 | exact L2]. }
  assert (L12 : logs early w w2) by (eapply logs_trans; [apply L1 | exact L2]).
  destruct (Js.lt (calculatedTotal b (item :: items)) 0); [left; exact L12 |].
  destruct (Js.gt (calculatedTotal b (item :: items)) 100000).
  { left. rewrite bind_run. simpl. exact L12. }
  rewrite bind_run.
  assert (L3 : logs early w2 (snd (insert_order b (item :: items) da number e w2))).
  { by_eff ltac:(eff_go no_lemma (logs_refl early) (logs_trans early) leaf_step). }
  destruct (insert_order b (item :: items) da number e w2) as [[[o | x] | x] w3] eqn:Hins;
    simpl in L3.
  - right. exists (item :: items), da, number, w2, o, w3.
    split; [reflexivity |]. split; [reflexivity |]. split; [exact K2 |].
    split; [eapply logs_trans; eassumption |]. split; [exact Hins |].
    unfold after_insert. rewrite try_catch_run. reflexivity.
  - left. simpl. eapply logs_trans; eassumption.
  - left. simpl. eapply logs_trans; eassumption.
Qed.

Lemma decrement_stock_from e b items : eff e (logs (from_step 4)) (decrement_stock b items).
Proof. eff_go no_lemma (logs_refl (from_step 4)) (logs_trans (from_step 4)) leaf_step. Qed.

Lemma after_stock_from e b items o number a :
  eff e (logs (from_step 4)) (after_stock b items o number a).
Proof. eff_go no_lemma (logs_refl (from_step 4)) (logs_trans (from_step 4)) leaf_step. Qed.

Lemma in_log_of {A} (m : M A) e w l ev :
  w_log (snd (m e w)) = w_log w ++ l -> In ev (log_of m e w) -> In ev l.
Proof. intros H. now rewrite (log_of_app _ _ _ _ H). Qed.

(** The run from the inserted order on, when the insertion of the items
    is refused: the order is deleted, and the request fails. *)
Lemma after_insert_refused b items o number a e w x :
  e_reply e (w_tick w) = Refused x ->
  let w1 := record (InsertOrderItems (o_id o)) Error (w_db w) w in
  after_insert b items o number a e w
  = (Val (create_failure (items_failure x)),
     match e_reply e (S (w_tick w)) with
     | Done => record (DeleteOrder (o_id o)) Ok
                 (snd (Db.delete_order (o_id o) (w_db w))) w1
     | Refused _ => record (DeleteOrder (o_id o)) Error (w_db w) w1
     | Raised _ => record (DeleteOrder (o_id o)) Thrown (w_db w) w1
     end).
Proof.
  intros Hreply w1. unfold after_insert, insert_order_items.
  rewrite try_catch_run, bind_run, bind_run, remote_run, Hreply.
  cbn [fst snd]. rewrite bind_run, try_catch_run, bind_run, remote_run.
  cbn [record w_tick w_db].
  destruct (e_reply e (S (w_tick w))); reflexivity.
Qed.

(** When the insertion of the items succeeds or throws, no event says
    that it was refused. *)
Lemma after_insert_otherwise b items o number a e w :
  (forall x, e_reply e (w_tick w) <> Refused x) ->
  logs (fun ev => forall oid, ev <> {| ev_call := InsertOrderItems oid; ev_result := Error |})
    w (snd (after_insert b items o number a e w)).
Proof.
  intros Hreply. unfold after_insert.
  set (P := fun ev => forall oid, ev <> {| ev_call := InsertOrderItems oid; ev_result := Error |}).
  assert (HP : forall ev, from_step 4 ev -> P ev).
  { intros ev H oid ->. unfold from_step, step in H. simpl in H. lia. }
  assert (Hweak : forall w1 w2, logs (from_step 4) w1 w2 -> logs P w1 w2).
  { intros w1 w2 [l [Hl Hf]]. exists l. split; [exact Hl |].
    eapply Forall_impl; [exact HP | exact Hf]. }
  apply try_catch_at; [exact (logs_trans _) | | intros; apply eff_ret; apply logs_refl].
  apply bind_at; [exact (logs_trans _) | |].
  - unfold insert_order_items. rewrite bind_run, remote_run.
    destruct (e_reply e (w_tick w)) as [| x | x].
    + simpl. apply logs_record. intros oid. discriminate.
    + exfalso. exact (Hreply x eq_refl).
    + simpl. apply logs_record. intros oid. discriminate.
  - intros _ w1 _. apply bind_at; [exact (logs_trans _) | |].
    + apply Hweak. apply decrement_stock_from.
    + intros _ w2 _. apply Hweak. apply after_stock_from.
Qed.

Lemma filter_out_fresh id (l : list order) o :
  filter (fun o' => String.eqb (o_id o') id) l = [] -> o_id o = id ->
  filter (fun o' => negb (String.eqb (o_id o') id)) (l ++ [o]) = l.
Proof.
  intros Hfresh Hid. rewrite filter_app. simpl.
  rewrite Hid, String.eqb_refl. simpl. rewrite app_nil_r.
  induction l as [| a l IH]; [reflexivity |].
  simpl in *. destruct (String.eqb (o_id a) id); [discriminate |].
  simpl. f_equal. now apply IH.
Qed.

(** C4, as amended.  When the insertion of the items of an order is
    refused, [createOrder] asks for the deletion of the order it has
    inserted and answers 500; when that deletion is carried out, the
    orders and the items are as before the request. *)
Theorem failed_items_delete_the_order (b : create_body) (e : env) (w : world)
    (oid : string) :
  In {| ev_call := InsertOrderItems oid; ev_result := Error |}
     (log_of (createOrder b) e w) ->
  (exists r, fst (createOrder b e w) = Val r /\ r_status r = 500) /\
  (exists res,
      In {| ev_call := DeleteOrder oid; ev_result := res |} (log_of (createOrder b) e w)) /\
  (In {| ev_call := DeleteOrder oid; ev_result := Ok |} (log_of (createOrder b) e w) ->
   orders (db_after (createOrder b) e w) = orders (w_db w) /\
   order_items (db_after (createOrder b) e w) = order_items (w_db w)).
Proof.
  intros Hin.
  assert (Hnot : forall ev, early ev ->
            forall o res, ev <> {| ev_call := InsertOrderItems o; ev_result := res |}).
  { intros ev H o res ->. unfold early, step in H. simpl in H. lia. }
  assert (Hnot' : forall ev, early ev ->
            forall o res, ev <> {| ev_call := DeleteOrder o; ev_result := res |}).
  { intros ev H o res ->. unfold early, step in H. simpl in H. lia. }
  destruct (createOrder_before_items b e w)
    as [[l [Hl Hf]] | (items & da & number & w2 & o & w3 & _ & _ & Hdb & [l [Hl Hf]] & Hins & Hrun)].
  { exfalso. apply (in_log_of _ _ _ _ _ Hl) in Hin.
    rewrite Forall_forall in Hf. exact (Hnot _ (Hf _ Hin) oid Error eq_refl). }
  rewrite Forall_forall in Hf.
  apply insert_order_data in Hins. destruct Hins as (Ho & Hw3 & Hfresh).
  destruct (e_reply e (w_tick w3)) as [| x | x] eqn:Hreply.
  - exfalso.
    destruct (after_insert_otherwise b items o number (shippingAddress b da) e w3)
      as [l' [Hl' Hf']]; [intros x; congruence |].
    rewrite <- Hrun, Hl, <- app_assoc in Hl'.
    apply (in_log_of _ _ _ _ _ Hl') in Hin. apply in_app_or in Hin.
    rewrite Forall_forall in Hf'. destruct Hin as [Hin | Hin].
    + exact (Hnot _ (Hf _ Hin) oid Error eq_refl).
    + exact (Hf' _ Hin oid eq_refl).
  - pose proof (after_insert_refused b items o number (shippingAddress b da) e w3 x Hreply)
      as Hrefused.
    cbv zeta in Hrefused. rewrite <- Hrun in Hrefused.
    assert (Hlog : exists res d,
               snd (createOrder b e w)
               = record (DeleteOrder (o_id o)) res d
                   (record (InsertOrderItems (o_id o)) Error (w_db w3) w3) /\
               (res = Ok -> d = snd (Db.delete_order (o_id o) (w_db w3)))).
    { rewrite Hrefused. simpl.
      destruct (e_reply e (S (w_tick w3))); eexists; eexists; split;
        try reflexivity; try discriminate; auto. }
    destruct Hlog as (res & d & Hw' & Hd).
    assert (Hl' : w_log (snd (createOrder b e w))
                  = w_log w ++ l ++ [{| ev_call := InsertOrderItems (o_id o); ev_result := Error |};
                                     {| ev_call := DeleteOrder (o_id o); ev_result := res |}]).
    { rewrite Hw'. simpl. rewrite Hl, <- !app_assoc. reflexivity. }
    assert (Hoid : oid = o_id o).
    { apply (in_log_of _ _ _ _ _ Hl') in Hin. apply in_app_or in Hin.
      destruct Hin as [Hin | [Hin | [Hin | []]]].
      - exfalso. exact (Hnot _ (Hf _ Hin) oid Error eq_refl).
      - now injection Hin.
      - discriminate Hin. }
    subst oid. split; [| split].
    + rewrite Hrefused. simpl. eauto.
    + exists res. rewrite (log_of_app _ _ _ _ Hl').
      apply in_or_app. right. right. now left.
    + intros Hdel. apply (in_log_of _ _ _ _ _ Hl') in Hdel. apply in_app_or in Hdel.
      assert (Hres : res = Ok).
      { destruct Hdel as [Hdel | [Hdel | [Hdel | []]]].
        - exfalso. exact (Hnot' _ (Hf _ Hdel) (o_id o) Ok eq_refl).
        - discriminate Hdel.
        - now injection Hdel. }
      unfold db_after. rewrite Hw'. simpl. rewrite (Hd Hres), Hw3. simpl.
      rewrite Hdb. split; [| reflexivity].
      apply filter_out_fresh; [| reflexivity].
      unfold Db.order_by_id in Hfresh. now rewrite Hdb in Hfresh.
  - exfalso.
    destruct (after_insert_otherwise b items o number (shippingAddress b da) e w3)
      as [l' [Hl' Hf']]; [intros y; congruence |].
    rewrite <- Hrun, Hl, <- app_assoc in Hl'.
    apply (in_log_of _ _ _ _ _ Hl') in Hin. apply in_app_or in Hin.
    rewrite Forall_forall in Hf'. destruct Hin as [Hin | Hin].
    + exact (Hnot _ (Hf _ Hin) oid Error eq_refl).
    + exact (Hf' _ Hin oid eq_refl).
Qed.

(** The insertion of the items of the sample order is refused: the order
    inserted as [row-2] is deleted again and the table of orders is empty
    as before. *)
Lemma failed_items_delete_the_order_witness :
  In {| ev_call := InsertOrderItems "row-2"; ev_result := Error |}
     (log_of (createOrder (Sample.request false None)) (Sample.env_with [3] [])
        (start Sample.shop)) /\
  orders (db_after (createOrder (Sample.request false None)) (Sample.env_with [3] [])
            (start Sample.shop)) = [].
Proof.
  assert (H : In {| ev_call := InsertOrderItems "row-2"; ev_result := Error |}
                (log_of (createOrder (Sample.request false None)) (Sample.env_with [3] [])
                   (start Sample.shop))).
  { vm_compute. right. right. right. left. reflexivity. }
  split; [exact H |].
  apply (proj2 (proj2 (failed_items_delete_the_order (Sample.request false None)
                         (Sample.env_with [3] []) (start Sample.shop) "row-2" H))).
  vm_compute. right. right. right. right. left. reflexivity.
Defined.

(** C4, as stated, fails.  The insertion of the items is refused and so
    is the deletion of the order: the request fails with 500 and the
    order stays in the table, without items. *)
Lemma order_left_behind_when_delete_fails :
  let w' := snd (createOrder (Sample.request false None) (Sample.env_with [3; 4] [])
                   (start Sample.shop)) in
  option_map r_status
    (fst (run (createOrder (Sample.request false None)) (Sample.env_with [3; 4] [])
            (start Sample.shop))) = Some 500 /\
  map o_id (orders (w_db w')) = ["row-2"] /\
  order_items (w_db w') = [] /\
  map ev_result (skipn 3 (w_log w')) = [Error; Error].
Proof. vm_compute. repeat split; reflexivity. Qed.

(** When the insertion of the items throws, the deletion is not asked
    for at all. *)
Lemma order_left_behind_when_items_throw :
  let w' := snd (createOrder (Sample.request false None) (Sample.env_with [] [3])
                   (start Sample.shop)) in
  option_map r_status
    (fst (run (createOrder (Sample.request false None)) (Sample.env_with [] [3])
            (start Sample.shop))) = Some 500 /\
  map o_id (orders (w_db w')) = ["row-2"] /\
  order_items (w_db w') = [] /\
  map ev_result (w_log w') = [Ok; Ok; Ok; Thrown].
Proof. vm_compute. repeat split; reflexivity. Qed.

(* ------------------------------------------------------------------ *)
(** ** The order of the side effects of [createOrder] *)
(* ------------------------------------------------------------------ *)

Lemma logs_from_then c P w1 w2 w3 :
  logs_from c P w1 w2 -> logs P w2 w3 -> logs_from c P w1 w3.
Proof.
  intros (res & l & Hl & Hf) (l' & Hl' & Hf'). exists res, (l ++ l'). split.
  - rewrite Hl', Hl, <- app_assoc. reflexivity.
  - apply Forall_app. now split.
Qed.

Lemma logs_some_then s w1 w2 w3 :
  logs_some s w1 w2 -> logs (of_step s) w2 w3 -> logs_some s w1 w3.
Proof.
  intros (c & Hc & H) H'. exists c. split; [exact Hc |]. eapply logs_from_then; eauto.
Qed.

(** A call followed by more of the same step. *)
Lemma remote_then {A B} s c (sem : env -> nat -> db -> pg A * db) (k : pg A -> M B) e :
  step_of c = s -> (forall a, eff e (logs (of_step s)) (k a)) ->
  eff e (logs_some s) (bind (remote c sem) k).
Proof.
  intros Hc Hk.
  apply (eff_bind_gen e (logs_from c (of_step s)) (logs (of_step s))).
  - intros w. rewrite remote_run.
    destruct (e_reply e (w_tick w)); eexists; exists []; split; try reflexivity; constructor.
  - exact Hk.
  - intros w1 w2 H. exists c. now split.
  - intros w1 w2 w3 H H'. exists c. split; [exact Hc |]. eapply logs_from_then; eauto.
Qed.

Lemma try_catch_some {A} s (m : M A) h e :
  eff e (logs_some s) m -> (forall x, eff e (logs (of_step s)) (h x)) ->
  eff e (logs_some s) (try_catch m h).
Proof.
  intros Hm Hh w. rewrite try_catch_run. specialize (Hm w).
  destruct (m e w) as [[a | x] w1]; simpl in *; [exact Hm |].
  eapply logs_some_then; [exact Hm | apply Hh].
Qed.

Ltac step_go s := eff_go no_lemma (logs_refl (of_step s)) (logs_trans (of_step s)) leaf_step.


Lemma decrement_stock_step e b items : eff e (logs (of_step 4)) (decrement_stock b items).
Proof. step_go 4. Qed.




Lemma record_coupon_usage_step e b : eff e (logs (of_step 6)) (record_coupon_usage b).
Proof. step_go 6. Qed.

(** The stock of an order that is not a pre-order is asked for, first of
    the first item. *)
Lemma decrement_stock_some e b item items :
  c_is_pre_order b = false ->
  eff e (logs_some 4) (decrement_stock b (item :: items)).
Proof.
  intros Hpre. unfold decrement_stock. rewrite Hpre. cbn [negb].
  apply try_catch_some; [| intros; step_go 4].
  cbn [for_each].
  intros w. rewrite bind_run.
  assert (H1 : logs_some 4 w (snd (decrement_item item e w))).
  { unfold decrement_item, rpc_decrement. apply remote_then; [reflexivity |].
    intros a. step_go 4. }
  assert (H2 : eff e (logs (of_step 4)) (for_each items decrement_item)) by step_go 4.
  destruct (decrement_item item e w) as [[u | x] w1]; simpl in *; [| exact H1].
  eapply logs_some_then; [exact H1 | apply H2].
Qed.




Lemma notify_admin_log e w :
  exists res,
    notify_admin e w
    = (Val tt, record (SendEmail AdminOrderNotification (Some admin_address)) res (w_db w) w).
Proof.
  unfold notify_admin. rewrite try_catch_run, bind_run. unfold send_mail.
  simpl. eauto.
Qed.

(** The notification of the dashboard: one insert for an order whose
    total is a number, and nothing for an order whose total is [null]. *)
Lemma create_admin_notification_run o u a e w :
  match o_total o with
  | Some total =>
      exists res d,
        create_admin_notification o u a e w
        = (Val tt, record (InsertNotification "order") res d w) /\
        (res = Ok ->
         notifications d = notifications (w_db w) ++ [admin_notification e o total u a])
  | None => create_admin_notification o u a e w = (Val tt, w)
  end.
Proof.
  unfold create_admin_notification. rewrite try_catch_run.
  destruct (o_total o) as [total |]; [| reflexivity].
  rewrite bind_run, remote_run.
  destruct (e_reply e (w_tick w)); cbn [fst snd ret Db.insert_notification result_of pg_ok];
    do 2 eexists; (split; [reflexivity |]); try discriminate.
  intros _. reflexivity.
Qed.

Lemma create_admin_notification_log o u a e w :
  exists l7,
    create_admin_notification o u a e w
    = (Val tt, snd (create_admin_notification o u a e w)) /\
    w_log (snd (create_admin_notification o u a e w)) = w_log w ++ l7 /\
    Forall (fun ev => ev_call ev = InsertNotification "order") l7.
Proof.
  pose proof (create_admin_notification_run o u a e w) as H.
  destruct (o_total o) as [total |].
  - destruct H as (res & d & -> & _). eexists. split; [reflexivity |].
    split; [reflexivity |]. repeat constructor.
  - rewrite H. exists []. split; [reflexivity |].
    split; [simpl; now rewrite app_nil_r | constructor].
Qed.

















(* ------------------------------------------------------------------ *)
(** ** The payment transaction of an order *)
(* ------------------------------------------------------------------ *)

Ltac leaf_off := apply logs_record; reflexivity.

Ltac off_go := eff_go no_lemma (logs_refl off_transactions) (logs_trans off_transactions) leaf_off.

Lemma final_order_number_off e b : eff e (logs off_transactions) (final_order_number b).
Proof. off_go. Qed.

Lemma decrement_stock_off e b items : eff e (logs off_transactions) (decrement_stock b items).
Proof. off_go. Qed.

Lemma fetch_user_off e b : eff e (logs off_transactions) (fetch_user b).
Proof. off_go. Qed.

Lemma send_confirmation_off e u o : eff e (logs off_transactions) (send_confirmation u o).
Proof. off_go. Qed.

Lemma record_coupon_usage_off e b : eff e (logs off_transactions) (record_coupon_usage b).
Proof. off_go. Qed.

Lemma fetch_user_keeps e b : eff e (keeps (fun d => d)) (fetch_user b).
Proof. keeps_go no_lemma (fun d : db => d). Qed.

Lemma send_confirmation_keeps e u o : eff e (keeps (fun d => d)) (send_confirmation u o).
Proof. keeps_go no_lemma (fun d : db => d). Qed.

Lemma record_coupon_usage_keeps e b : eff e (keeps (fun d => d)) (record_coupon_usage b).
Proof. keeps_go no_lemma (fun d : db => d). Qed.

Lemma transaction_reference_given b o reference :
  c_payment_reference b = Some reference -> reference <> "" ->
  transaction_reference b o = reference.
Proof.
  intros H Hne. unfold transaction_reference. rewrite H.
  apply String.eqb_neq in Hne. now rewrite Hne.
Qed.

(** The insertion of a transaction, under the [catch] of its step. *)
Lemma insert_transaction_run b items o number customer reference now e w :
  try_catch (insert_transaction b items o number customer reference now)
    (fun _ => ret tt) e w
  = (Val tt,
     match e_reply e (w_tick w) with
     | Done =>
         let ins := Db.insert_transaction
                      (transactionData (e_uuid e (w_tick w)) now b items o number customer
                         reference) (w_db w) in
         record (InsertTransaction (transaction_reference b o)) (result_of (fst ins)) (snd ins) w
     | Refused _ => record (InsertTransaction (transaction_reference b o)) Error (w_db w) w
     | Raised _ => record (InsertTransaction (transaction_reference b o)) Thrown (w_db w) w
     end).
Proof.
  unfold insert_transaction. rewrite try_catch_run, bind_run, remote_run.
  destruct (e_reply e (w_tick w)); reflexivity.
Qed.

(** The step of the transaction when the request carries a payment
    reference. *)
Lemma record_transaction_run b items o number u a e w reference :
  c_payment_reference b = Some reference -> reference <> "" ->
  let customer := transaction_customer u a in
  let now := i_ms (e_clock e (w_tick w)) in
  let looked res := record (SelectTransactionByReference reference) res (w_db w) w in
  let insert res :=
    try_catch (insert_transaction b items o number customer (Some reference) now)
      (fun _ => ret tt) e (looked res) in
  record_transaction b items o number u a e w
  = match e_reply e (w_tick w) with
    | Done =>
        match Db.transaction_by_reference reference (w_db w) with
        | PgData (Some t) =>
            (Val tt,
             match e_reply e (S (w_tick w)) with
             | Done =>
                 record (LinkTransaction (t_id t)) Ok
                   (snd (Db.update_transactions (t_id t)
                           (link_transaction b o number customer (t_metadata t)
                              (i_ms (e_clock e (S (w_tick w))))) (w_db w)))
                   (looked Ok)
             | Refused _ => record (LinkTransaction (t_id t)) Error (w_db w) (looked Ok)
             | Raised _ => record (LinkTransaction (t_id t)) Thrown (w_db w) (looked Ok)
             end)
        | PgData None => insert Ok
        | PgError _ => insert Error
        end
    | Refused _ => insert Error
    | Raised _ => (Val tt, looked Thrown)
    end.
Proof.
  intros Href Hne customer now looked insert. subst insert.
  unfold record_transaction. cbv zeta. rewrite Href.
  assert (Ht : Js.truthy_str (Some reference) = true).
  { simpl. apply String.eqb_neq in Hne. now rewrite Hne. }
  rewrite Ht. rewrite try_catch_run, bind_run. unfold new_date at 1.
  rewrite bind_run, remote_run.
  destruct (e_reply e (w_tick w)) as [| x | x]; cbn [fst snd].
  - destruct (Db.transaction_by_reference reference (w_db w)) as [[t |] | x];
      cbn [result_of pg_ok]; fold (looked Ok); fold (looked Error).
    + rewrite bind_run. unfold new_date at 1. rewrite bind_run, remote_run.
      cbn [w_tick looked record]. destruct (e_reply e (S (w_tick w))); reflexivity.
    + rewrite try_catch_run. reflexivity.
    + rewrite try_catch_run. reflexivity.
  - rewrite try_catch_run. reflexivity.
  - reflexivity.
Qed.

(** A successful request, around the step of its transaction. *)
Lemma createOrder_around_transaction b e w r :
  fst (createOrder b e w) = Val r -> r_status r = 200 ->
  exists items da number o u wa wb pre post,
    c_delivery_address b = Some da /\
    r_data r = OrderData o /\ o_order_number o = Some number /\
    transactions (w_db wa) = transactions (w_db w) /\
    w_log wa = w_log w ++ pre /\ Forall off_transactions pre /\
    record_transaction b items o number u (shippingAddress b da) e wa = (Val tt, wb) /\
    w_log (snd (createOrder b e w)) = w_log wb ++ post /\ Forall off_transactions post /\
    transactions (db_after (createOrder b) e w) = transactions (w_db wb).
Proof.
  intros Hr H200. unfold db_after.
  destruct (createOrder b e w) as [[r' | x] w'] eqn:Hrun; simpl in Hr; [| discriminate].
  injection Hr as ->.
  destruct (createOrder_success b e w r w' Hrun H200)
    as (items & da & number & w2 & o & w3 & w4 & w5 &
        Hitems & Hne & Hda & _ & Hnum & _ & _ & Hins & Hrows & Hstock & Hafter).
  set (ids := validProductIds (map it_product_id items)) in *.
  set (w1 := record (SelectProductsIn ids) Ok (w_db w) w) in *.
  pose proof (final_order_number_off e b w1) as [l2 [Hl2 F2]].
  pose proof (final_order_number_keeps e b w1) as K2.
  rewrite Hnum in Hl2, K2. unfold keeps in K2. simpl in Hl2, K2.
  apply insert_order_data in Hins. destruct Hins as (Ho & Hw3 & _).
  apply insert_order_items_done in Hrows.
  pose proof (decrement_stock_off e b items w4) as [l4 [Hl4 F4]].
  pose proof (decrement_stock_keeps_orders e b items w4) as K4.
  rewrite Hstock in Hl4, K4. unfold keeps in K4. simpl in Hl4, K4.
  injection K4 as _ _ K4.
  pose proof (after_stock_answer _ _ _ _ _ _ _ _ _ Hafter) as Hans.
  unfold after_stock in Hafter.
  apply bind_val in Hafter. destruct Hafter as (u & wa & Huser & Hafter).
  apply bind_val in Hafter. destruct Hafter as ([] & wb & Htxn & Hafter).
  apply bind_val in Hafter. destruct Hafter as ([] & wc & Hconf & Hafter).
  apply bind_val in Hafter. destruct Hafter as ([] & wd & Hcoupon & Hafter).
  apply bind_val in Hafter. destruct Hafter as ([] & we & Hadmin & Hafter).
  apply bind_val in Hafter. destruct Hafter as ([] & wf & Hnotif & Hafter).
  injection Hafter as _ <-.
  pose proof (fetch_user_off e b w5) as [l5 [Hl5 F5]].
  pose proof (fetch_user_keeps e b w5) as K5.
  rewrite Huser in Hl5, K5. unfold keeps in K5. simpl in Hl5, K5.
  pose proof (send_confirmation_off e u o wb) as [l6a [Hl6a F6a]].
  pose proof (send_confirmation_keeps e u o wb) as K6a.
  rewrite Hconf in Hl6a, K6a. unfold keeps in K6a. simpl in Hl6a, K6a.
  pose proof (record_coupon_usage_off e b wc) as [l6b [Hl6b F6b]].
  pose proof (record_coupon_usage_keeps e b wc) as K6b.
  rewrite Hcoupon in Hl6b, K6b. unfold keeps in K6b. simpl in Hl6b, K6b.
  destruct (notify_admin_log e wd) as [res6 Hadmin'].
  rewrite Hadmin in Hadmin'. injection Hadmin' as Hwe.
  pose proof (create_admin_notification_log o u (shippingAddress b da) e we)
    as (l7 & _ & Hl7 & F7).
  assert (K7 : transactions (w_db wf) = transactions (w_db we)).
  { change (keeps transactions we wf).
    replace wf with (snd (create_admin_notification o u (shippingAddress b da) e we))
      by now rewrite Hnotif.
    by_eff ltac:(keeps_go no_lemma transactions). }
  rewrite Hnotif in Hl7. cbn [snd] in Hl7.
  assert (F7' : Forall off_transactions l7).
  { eapply Forall_impl; [| exact F7]. intros ev Hev.
    unfold off_transactions, on_transactions. now rewrite Hev. }
  exists items, da, number, o, u, wa, wb.
  exists ([{| ev_call := SelectProductsIn ids; ev_result := Ok |}] ++ l2
          ++ [{| ev_call := InsertOrder number; ev_result := Ok |}]
          ++ [{| ev_call := InsertOrderItems (o_id o); ev_result := Ok |}] ++ l4 ++ l5).
  exists (l6a ++ l6b
          ++ [{| ev_call := SendEmail AdminOrderNotification (Some admin_address);
                 ev_result := res6 |}]
          ++ l7).
  split; [exact Hda |]. split; [now rewrite Hans |]. split; [now rewrite Ho |].
  split.
  { rewrite K5, K4, Hrows. simpl. rewrite Hw3. simpl. now rewrite K2. }
  split.
  { rewrite Hl5, Hl4, Hrows. simpl. rewrite Hw3. simpl. rewrite Hl2. simpl.
    repeat rewrite <- app_assoc. reflexivity. }
  split.
  { repeat (apply Forall_app; split); try assumption; repeat constructor. }
  split; [exact Htxn |].
  split.
  { simpl. rewrite Hl7, Hwe. simpl. rewrite Hl6b, Hl6a.
    repeat rewrite <- app_assoc. reflexivity. }
  split.
  { repeat (apply Forall_app; split); try assumption; repeat constructor. }
  simpl. rewrite K7, Hwe. simpl. now rewrite K6b, K6a.
Qed.

Lemma transaction_by_reference_frame reference d d' :
  transactions d' = transactions d ->
  Db.transaction_by_reference reference d' = Db.transaction_by_reference reference d.
Proof. unfold Db.transaction_by_reference. now intros ->. Qed.

Lemma off_not_in l ev : Forall off_transactions l -> on_transactions ev = true -> ~ In ev l.
Proof.
  intros Hf Hon Hin. rewrite Forall_forall in Hf. specialize (Hf _ Hin).
  unfold off_transactions in Hf. congruence.
Qed.

Lemma in_middle (pre mid post : list event) ev :
  Forall off_transactions pre -> Forall off_transactions post ->
  on_transactions ev = true ->
  In ev (pre ++ mid ++ post) <-> In ev mid.
Proof.
  intros Hpre Hpost Hon. split.
  - intros H. apply in_app_or in H. destruct H as [H | H].
    + now apply off_not_in in H.
    + apply in_app_or in H. destruct H as [H | H]; [exact H |].
      now apply off_not_in in H.
  - intros H. apply in_or_app. right. apply in_or_app. now left.
Qed.

(** What linking writes, and what it leaves. *)
Lemma link_transaction_writes b o number customer metadata now t :
  let t' := link_transaction b o number customer metadata now t in
  t_id t' = t_id t /\
  t_order_id t' = Some (o_id o) /\
  t_user_id t' = or_null (c_user_id b) /\
  t_customer_email t' = fst customer /\
  t_metadata t'
  = Some (obj_set "order_number" (MStr number)
            (obj_set "customer_name" (MStr (snd customer))
               (match metadata with Some m => m | None => [] end))) /\
  t_transaction_reference t' = t_transaction_reference t /\
  t_amount t' = t_amount t /\ t_status t' = t_status t /\
  t_payment_status t' = t_payment_status t.
Proof. repeat split. Qed.

(** What the linking does.  When [createOrder] receives a payment
    reference and its lookup returns a transaction, the transaction is
    updated in place with the id of the order, the user, the email and
    the name of the customer and the order number, and no transaction is
    inserted; when the lookup returns none, a transaction is inserted. *)
Theorem existing_transaction_is_linked (b : create_body) (e : env) (w : world)
    (r : response) (reference : string) :
  fst (createOrder b e w) = Val r -> r_status r = 200 ->
  c_payment_reference b = Some reference -> reference <> "" ->
  In {| ev_call := SelectTransactionByReference reference; ev_result := Ok |}
     (log_of (createOrder b) e w) ->
  exists o number customer,
    r_data r = OrderData o /\ o_order_number o = Some number /\
    (forall t,
        Db.transaction_by_reference reference (w_db w) = PgData (Some t) ->
        (forall reference' res,
            ~ In {| ev_call := InsertTransaction reference'; ev_result := res |}
                 (log_of (createOrder b) e w)) /\
        exists res,
          In {| ev_call := LinkTransaction (t_id t); ev_result := res |}
             (log_of (createOrder b) e w) /\
          (res = Ok ->
           exists now,
             transactions (db_after (createOrder b) e w)
             = Db.update_where (fun t' => String.eqb (t_id t') (t_id t))
                 (link_transaction b o number customer (t_metadata t) now)
                 (transactions (w_db w))) /\
          (res <> Ok ->
           transactions (db_after (createOrder b) e w) = transactions (w_db w))) /\
    (Db.transaction_by_reference reference (w_db w) = PgData None ->
     (forall id res,
         ~ In {| ev_call := LinkTransaction id; ev_result := res |}
              (log_of (createOrder b) e w)) /\
     exists res,
       In {| ev_call := InsertTransaction reference; ev_result := res |}
          (log_of (createOrder b) e w) /\
       (res = Ok ->
        exists row,
          transactions (db_after (createOrder b) e w) = transactions (w_db w) ++ [row] /\
          t_order_id row = Some (o_id o) /\
          t_transaction_reference row = reference /\
          t_paystack_reference row = Some reference)).
Proof.
  intros Hr H200 Href Hne Hlook.
  destruct (createOrder_around_transaction b e w r Hr H200)
    as (items & da & number & o & u & wa & wb & pre & post &
        Hda & Hdata & Hnumber & Htx & Hpre & Fpre & Hrun & Hpost & Fpost & Hafter).
  exists o, number, (transaction_customer u (shippingAddress b da)).
  split; [exact Hdata |]. split; [exact Hnumber |].
  rewrite (record_transaction_run b items o number u (shippingAddress b da) e wa reference
             Href Hne) in Hrun.
  cbv zeta in Hrun.
  rewrite (transaction_by_reference_frame reference _ _ Htx) in Hrun.
  rewrite !insert_transaction_run in Hrun.
  rewrite (transaction_reference_given b o reference Href Hne) in Hrun.
  (* the log of the request around that of the step *)
  assert (Hlog : forall mid, w_log wb = w_log wa ++ mid ->
                 log_of (createOrder b) e w = pre ++ mid ++ post).
  { intros mid Hmid. apply log_of_app. rewrite Hpost, Hmid, Hpre.
    repeat rewrite <- app_assoc. reflexivity. }
  rewrite Hafter.
  destruct (e_reply e (w_tick wa)) as [| x | x] eqn:Hreply.
  - destruct (Db.transaction_by_reference reference (w_db w)) as [[t |] | x] eqn:Hfound.
    + (* the transaction exists *)
      split; [| intros H; discriminate H].
      intros t' [= <-].
      destruct (e_reply e (S (w_tick wa))) as [| x | x] eqn:Hreply';
        injection Hrun as <-;
        (match goal with
         | |- context [record (LinkTransaction (t_id t)) ?res _ _] =>
             rewrite (Hlog [{| ev_call := SelectTransactionByReference reference;
                               ev_result := Ok |};
                            {| ev_call := LinkTransaction (t_id t); ev_result := res |}])
               by (simpl; rewrite <- app_assoc; reflexivity);
             split;
             [ intros reference' res' Hin;
               apply in_middle in Hin; try assumption; try reflexivity;
               destruct Hin as [Hin | [Hin | []]]; discriminate Hin
             | exists res; split;
               [ apply in_middle; try assumption; try reflexivity; right; now left
               | split; [ intros Hres | intros Hres ] ] ]
         end); try discriminate Hres; try (now elim Hres).
      * exists (i_ms (e_clock e (S (w_tick wa)))). simpl. now rewrite Htx.
      * simpl. exact Htx.
      * simpl. exact Htx.
    + (* no transaction has the reference *)
      split; [intros t H; discriminate H |]. intros _.
      cbn [record w_tick w_db] in Hrun.
      destruct (e_reply e (S (w_tick wa))) as [| x | x] eqn:Hreply';
        injection Hrun as <-.
      * set (row := transactionData (e_uuid e (S (w_tick wa))) (i_ms (e_clock e (w_tick wa)))
                      b items o number (transaction_customer u (shippingAddress b da))
                      (Some reference)).
        rewrite (Hlog [{| ev_call := SelectTransactionByReference reference;
                          ev_result := Ok |};
                       {| ev_call := InsertTransaction reference;
                          ev_result := result_of (fst (Db.insert_transaction row (w_db wa))) |}])
          by (simpl; rewrite <- app_assoc; reflexivity).
        split.
        { intros id res Hin. apply in_middle in Hin; try assumption; try reflexivity.
          destruct Hin as [Hin | [Hin | []]]; discriminate Hin. }
        eexists. split.
        { apply in_middle; try assumption; try reflexivity. right. now left. }
        intros Hres. exists row. unfold Db.insert_transaction in *.
        destruct (existsb _ (transactions (w_db wa))); [discriminate Hres |].
        simpl. rewrite Htx. repeat split.
        now apply transaction_reference_given.
      * rewrite (Hlog [{| ev_call := SelectTransactionByReference reference;
                          ev_result := Ok |};
                       {| ev_call := InsertTransaction reference; ev_result := Error |}])
          by (simpl; rewrite <- app_assoc; reflexivity).
        split.
        { intros id res Hin. apply in_middle in Hin; try assumption; try reflexivity.
          destruct Hin as [Hin | [Hin | []]]; discriminate Hin. }
        exists Error. split; [| discriminate].
        apply in_middle; try assumption; try reflexivity. right. now left.
      * rewrite (Hlog [{| ev_call := SelectTransactionByReference reference;
                          ev_result := Ok |};
                       {| ev_call := InsertTransaction reference; ev_result := Thrown |}])
          by (simpl; rewrite <- app_assoc; reflexivity).
        split.
        { intros id res Hin. apply in_middle in Hin; try assumption; try reflexivity.
          destruct Hin as [Hin | [Hin | []]]; discriminate Hin. }
        exists Thrown. split; [| discriminate].
        apply in_middle; try assumption; try reflexivity. right. now left.
    + (* several transactions have the reference: the lookup fails *)
      exfalso. cbn [record w_tick w_db] in Hrun.
      destruct (e_reply e (S (w_tick wa))); injection Hrun as <-;
        (erewrite Hlog in Hlook by (simpl; rewrite <- app_assoc; reflexivity));
        apply in_middle in Hlook; try assumption; try reflexivity;
        destruct Hlook as [Hin | [Hin | []]]; discriminate Hin.
  - exfalso. cbn [record w_tick w_db] in Hrun.
    destruct (e_reply e (S (w_tick wa))); injection Hrun as <-;
      (erewrite Hlog in Hlook by (simpl; rewrite <- app_assoc; reflexivity));
      apply in_middle in Hlook; try assumption; try reflexivity;
      destruct Hlook as [Hin | [Hin | []]]; discriminate Hin.
  - exfalso. injection Hrun as <-.
    erewrite Hlog in Hlook by (simpl; reflexivity).
    apply in_middle in Hlook; try assumption; try reflexivity.
    destruct Hlook as [Hin | []]. discriminate Hin.
Qed.

Lemma existing_transaction_is_linked_witness :
  (forall reference res,
      ~ In {| ev_call := InsertTransaction reference; ev_result := res |}
           (log_of (createOrder (Sample.request false (Some "PAY-77"))) Sample.env_ok
              (start Sample.shop_paid))) /\
  map t_id
    (transactions
       (db_after (createOrder (Sample.request false (Some "PAY-77"))) Sample.env_ok
          (start Sample.shop_paid)))
  = ["t1"] /\
  map t_order_id
    (transactions
       (db_after (createOrder (Sample.request false (Some "PAY-77"))) Sample.env_ok
          (start Sample.shop_paid)))
  = [Some "row-2"].
Proof.
  split; [| split; vm_compute; reflexivity].
  destruct (fst (createOrder (Sample.request false (Some "PAY-77")) Sample.env_ok
                   (start Sample.shop_paid)))
    as [r | x] eqn:Hr; [| vm_compute in Hr; discriminate Hr].
  assert (H200 : r_status r = 200)
    by (vm_compute in Hr; injection Hr as <-; reflexivity).
  assert (Hlook : In {| ev_call := SelectTransactionByReference "PAY-77"; ev_result := Ok |}
                    (log_of (createOrder (Sample.request false (Some "PAY-77")))
                       Sample.env_ok (start Sample.shop_paid)))
    by (vm_compute; repeat (try (left; reflexivity); right)).
  destruct (existing_transaction_is_linked (Sample.request false (Some "PAY-77"))
              Sample.env_ok (start Sample.shop_paid) r "PAY-77" Hr H200 eq_refl
              ltac:(discriminate) Hlook)
    as (o & number & customer & _ & _ & Hsome & _).
  destruct (Hsome Sample.webhook_transaction) as [Hnone _]; [vm_compute; reflexivity |].
  exact Hnone.
Defined.

(** C6.  A transaction that carries the payment reference of the request
    as its [transaction_reference], and no [paystack_reference], is not
    found by the lookup of lines 1188-1194, which asks for both columns
    to hold the reference: the order is created, a second transaction
    with the same reference is inserted, and the one that was there stays
    without an order.  The transaction that holds the reference in both
    columns is linked, in place, to the order and to the email of its
    customer. *)
Theorem transaction_with_reference_is_not_linked :
  let b := Sample.request false (Some "PAY-77") in
  map t_transaction_reference (transactions Sample11.shop_with_reference_only) = ["PAY-77"] /\
  option_map r_status
    (fst (run (createOrder b) Sample.env_ok (start Sample11.shop_with_reference_only)))
  = Some 200 /\
  map Sample11.link_of
    (transactions (db_after (createOrder b) Sample.env_ok
                     (start Sample11.shop_with_reference_only)))
  = [("t1", "PAY-77", None, None);
     ("row-8", "PAY-77", Some "row-2", Some "ama@example.com")] /\
  map Sample11.link_of
    (transactions (db_after (createOrder b) Sample.env_ok (start Sample.shop_paid)))
  = [("t1", "PAY-77", Some "row-2", Some "ama@example.com")].
Proof. vm_compute. repeat split; reflexivity. Qed.


(* ------------------------------------------------------------------ *)
(** ** What [createOrder] refuses *)
(* ------------------------------------------------------------------ *)

(** X1.  A request to [createOrder] without items (none, or an empty
    list), without a delivery address, or whose [total] is missing, zero
    or negative is answered 400 before any call is made: the database and
    the log are as before. *)
Theorem createOrder_requires_fields (b : create_body) (e : env) (w : world) :
  c_order_items b = None \/ c_order_items b = Some [] \/
  c_delivery_address b = None \/
  Js.truthy (c_total b) = false \/ Js.le (Js.to_number (c_total b)) 0 = true ->
  exists r, createOrder b e w = (Val r, w) /\ r_status r = 400 /\ r_success r = false.
Proof.
  intros H. unfold createOrder. rewrite try_catch_run.
  destruct (c_order_items b) as [[| item items] |]; try (simpl; eauto).
  destruct (c_delivery_address b) as [da |]; [| simpl; eauto].
  destruct H as [H | [H | [H | H]]]; try discriminate H.
  assert (Hbad : negb (Js.truthy (c_total b)) || Js.le (Js.to_number (c_total b)) 0 = true).
  { destruct H as [-> | ->]; [reflexivity | apply orb_true_r]. }
  rewrite Hbad. simpl. eauto.
Qed.

Lemma createOrder_requires_fields_witness :
  exists r,
    createOrder (with_total (Js.Num 0) (Sample.request false None)) Sample.env_ok
      (start Sample.shop) = (Val r, start Sample.shop) /\
    r_status r = 400 /\ r_success r = false.
Proof.
  apply createOrder_requires_fields. right. right. right. left. reflexivity.
Defined.

Lemma validProductIds_all items :
  forallb names_product items = true ->
  validProductIds (map it_product_id items)
  = map (fun item => Js.or_empty (it_product_id item)) items.
Proof.
  induction items as [| item items IH]; [reflexivity |].
  simpl. unfold names_product at 1. intros H. apply andb_prop in H. destruct H as [H1 H2].
  destruct (it_product_id item) as [id |]; [| discriminate].
  assert (Hne : String.eqb id "" = false).
  { destruct id; [discriminate H1 | reflexivity]. }
  simpl. unfold Js.or_empty, Js.or_lit. rewrite Hne, H1. simpl.
  f_equal. now apply IH.
Qed.

Lemma validProductIds_length ids : List.length (validProductIds ids) <= List.length ids.
Proof.
  induction ids as [| [id |] ids IH]; simpl; try lia.
  destruct (_ && _); simpl; lia.
Qed.

Lemma validProductIds_short items :
  forallb names_product items = false ->
  (List.length (validProductIds (map it_product_id items))
   =? List.length (map it_product_id items))%nat = false.
Proof.
  intros H. apply Nat.eqb_neq.
  induction items as [| item items IH]; [discriminate |].
  cbn [forallb] in H. cbn [map validProductIds List.length].
  pose proof (validProductIds_length (map it_product_id items)) as Hle.
  unfold names_product in H at 1.
  destruct (it_product_id item) as [id |]; [| lia].
  destruct (negb (String.eqb (Js.trim id) "")) eqn:Hid.
  - cbn [andb] in H. specialize (IH H).
    destruct (Js.truthy_str (Some id)); cbn [andb List.length]; lia.
  - rewrite andb_false_r. lia.
Qed.

Lemma mem_map_filter id (valid : list string) (ps : list product) :
  Db.mem id valid = true ->
  Db.mem id (map p_id (filter (fun p => Db.mem (p_id p) valid) ps))
  = Db.mem id (map p_id ps).
Proof.
  intros Hid. unfold Db.mem at 1 3.
  induction ps as [| p ps IH]; [reflexivity |].
  simpl. destruct (Db.mem (p_id p) valid) eqn:Hp; simpl.
  - now rewrite IH.
  - rewrite IH. destruct (String.eqb id (p_id p)) eqn:E; [| reflexivity].
    apply String.eqb_eq in E. subst. congruence.
Qed.

Lemma mem_self id (l : list string) : In id l -> Db.mem id l = true.
Proof.
  intros H. unfold Db.mem. apply existsb_exists. exists id. split; [exact H |].
  apply String.eqb_refl.
Qed.

Lemma missing_unknown items d :
  filter (fun id =>
            negb (Db.mem id (map p_id
                    (Db.products_in (validProductIds (map it_product_id items)) d))))
    (validProductIds (map it_product_id items))
  = unknown_products items d.
Proof.
  unfold unknown_products, Db.products_in. apply filter_ext_in. intros id Hin.
  now rewrite mem_map_filter by now apply mem_self.
Qed.

(** X2.  When an item of a request has no product id, or a blank one,
    [createOrder] answers 400 before any call.  When every item names a
    product and the table lacks some of them, it answers 400 after the
    lookup of the products, with the ids that are missing, and the
    database is as before. *)
Theorem createOrder_rejects_unknown_products (b : create_body)
    (items : list item_input) (e : env) (w : world) :
  complete b items ->
  (forallb names_product items = false ->
   exists r, createOrder b e w = (Val r, w) /\ r_status r = 400 /\
             r_error r = Some "INVALID_PRODUCT_IDS") /\
  (forallb names_product items = true ->
   e_reply e (w_tick w) = Done ->
   unknown_products items (w_db w) <> [] ->
   exists r, fst (createOrder b e w) = Val r /\ r_status r = 400 /\
             r_error r = Some "PRODUCTS_NOT_FOUND" /\
             r_missing r = unknown_products items (w_db w) /\
             db_after (createOrder b) e w = w_db w /\
             log_of (createOrder b) e w
             = [{| ev_call := SelectProductsIn
                                (map (fun item => Js.or_empty (it_product_id item)) items);
                   ev_result := Ok |}]).
Proof.
  intros (Hitems & Hne & Hda & Htruthy & Hpos).
  unfold db_after, log_of, createOrder. rewrite !try_catch_run, Hitems.
  destruct items as [| item items]; [now elim Hne |].
  destruct (c_delivery_address b) as [da |]; [| now elim Hda].
  rewrite Htruthy, Hpos. cbn [negb orb].
  unfold validate_products. cbv zeta.
  change (List.length (map it_product_id (item :: items)) =? 0)%nat with false.
  cbv iota. split.
  - intros Hbad. rewrite (validProductIds_short _ Hbad). simpl. eauto.
  - intros Hall Hreply Hmissing.
    pose proof (validProductIds_all _ Hall) as Hids.
    assert (Hlen : (List.length (validProductIds (map it_product_id (item :: items)))
                    =? List.length (map it_product_id (item :: items)))%nat = true).
    { rewrite Hids, !length_map. apply Nat.eqb_refl. }
    rewrite Hlen. cbn [negb]. rewrite bind_run, remote_run, Hreply.
    cbn [fst snd result_of pg_ok]. rewrite missing_unknown.
    destruct (unknown_products (item :: items) (w_db w)) as [| id ids] eqn:Hun;
      [now elim Hmissing |].
    cbn [List.length Nat.ltb Nat.leb]. unfold ret.
    cbn [fst snd r_status r_error r_missing record w_db w_log].
    eexists. repeat split.
    rewrite skipn_app, skipn_all, Nat.sub_diag, Hids. reflexivity.
Qed.

Lemma createOrder_rejects_unknown_products_witness :
  (exists r,
      createOrder (Sample2.with_items (Some [Sample.two_phones; Sample2.nameless])
                     (Sample.request false None)) Sample.env_ok (start Sample.shop)
      = (Val r, start Sample.shop) /\ r_status r = 400) /\
  (exists r,
      fst (createOrder (Sample2.with_items (Some [Sample.two_phones; Sample2.a_tablet])
                          (Sample.request false None)) Sample.env_ok (start Sample.shop))
      = Val r /\ r_missing r = ["p9"]).
Proof.
  split.
  - destruct (createOrder_rejects_unknown_products
                (Sample2.with_items (Some [Sample.two_phones; Sample2.nameless])
                   (Sample.request false None))
                [Sample.two_phones; Sample2.nameless] Sample.env_ok (start Sample.shop))
      as [H _].
    { repeat split; try reflexivity; discriminate. }
    destruct (H eq_refl) as (r & Hr & Hs & _). exists r. split; assumption.
  - destruct (createOrder_rejects_unknown_products
                (Sample2.with_items (Some [Sample.two_phones; Sample2.a_tablet])
                   (Sample.request false None))
                [Sample.two_phones; Sample2.a_tablet] Sample.env_ok (start Sample.shop))
      as [_ H].
    { repeat split; try reflexivity; discriminate. }
    destruct (H eq_refl eq_refl) as (r & Hr & _ & _ & Hm & _).
    { vm_compute. discriminate. }
    exists r. split; [exact Hr |]. rewrite Hm. reflexivity.
Defined.

(** What a request that is answered 200 has passed. *)
Lemma createOrder_validated b e w r :
  fst (createOrder b e w) = Val r -> r_status r = 200 ->
  exists items,
    complete b items /\ forallb names_product items = true /\
    unknown_products items (w_db w) = [].
Proof.
  unfold createOrder. rewrite try_catch_run. intros H H200.
  assert (Hno : forall (o : outcome response * world),
             fst o = Val r -> r_status (match fst o with Val a => a | Exn _ => r end) = 200).
  { intros o ->. exact H200. }
  destruct (c_order_items b) as [[| item items] |] eqn:Hitems;
    try (apply Hno in H; simpl in H; discriminate H).
  destruct (c_delivery_address b) as [da |] eqn:Hda;
    [| apply Hno in H; simpl in H; discriminate H].
  destruct (Js.truthy (c_total b)) eqn:Htruthy; [| apply Hno in H; simpl in H; discriminate H].
  destruct (Js.le (Js.to_number (c_total b)) 0) eqn:Hpos; [apply Hno in H; simpl in H; discriminate H |].
  cbn [negb orb] in H. unfold validate_products in H. cbv zeta in H.
  change (List.length (map it_product_id (item :: items)) =? 0)%nat with false in H.
  cbv iota in H.
  destruct (forallb names_product (item :: items)) eqn:Hall.
  2:{ rewrite (validProductIds_short _ Hall) in H. apply Hno in H. simpl in H. discriminate H. }
  exists (item :: items). split.
  { repeat split; try assumption; congruence. }
  split; [exact Hall |].
  destruct (negb (_ =? _)%nat); [apply Hno in H; simpl in H; discriminate H |].
  rewrite bind_run, remote_run in H.
  destruct (e_reply e (w_tick w)) as [| x | x];
    [| apply Hno in H; simpl in H; discriminate H | apply Hno in H; simpl in H; discriminate H].
  cbn [fst snd result_of pg_ok] in H. rewrite missing_unknown in H.
  destruct (unknown_products (item :: items) (w_db w)); [reflexivity |].
  apply Hno in H. simpl in H. discriminate H.
Qed.

Lemma mem_in id (l : list string) : Db.mem id l = true -> In id l.
Proof.
  unfold Db.mem. intros H. apply existsb_exists in H. destruct H as (x & Hx & E).
  apply String.eqb_eq in E. now subst.
Qed.

(** X3.  An order is created only from a request that carries items, an
    address and a total above zero, and only for products of the table:
    when [createOrder] answers 200, every item of the request names, by
    an id that is not blank, a product the table had when the request
    came in. *)
Theorem created_order_has_known_products (b : create_body) (e : env) (w : world)
    (r : response) :
  fst (createOrder b e w) = Val r -> r_status r = 200 ->
  exists items,
    complete b items /\
    forall item, In item items ->
      exists p, In p (products (w_db w)) /\ it_product_id item = Some (p_id p) /\
                Js.trim (p_id p) <> "".
Proof.
  intros Hr H200.
  destruct (createOrder_validated b e w r Hr H200) as (items & Hc & Hall & Hun).
  exists items. split; [exact Hc |]. intros item Hin.
  pose proof Hall as Hevery.
  rewrite forallb_forall in Hall. specialize (Hall item Hin).
  unfold names_product in Hall.
  destruct (it_product_id item) as [id |] eqn:Hid; [| discriminate].
  assert (Hval : In id (validProductIds (map it_product_id items))).
  { rewrite (validProductIds_all _ Hevery).
    apply in_map_iff. exists item. rewrite Hid. split; [| exact Hin].
    unfold Js.or_empty, Js.or_lit. destruct id; [discriminate Hall | reflexivity]. }
  assert (Hmem : Db.mem id (map p_id (products (w_db w))) = true).
  { destruct (Db.mem id (map p_id (products (w_db w)))) eqn:E; [reflexivity |].
    exfalso. unfold unknown_products in Hun.
    assert (Hf : In id (filter (fun id => negb (Db.mem id (map p_id (products (w_db w)))))
                          (validProductIds (map it_product_id items)))).
    { apply filter_In. split; [exact Hval |]. now rewrite E. }
    rewrite Hun in Hf. exact Hf. }
  apply mem_in, in_map_iff in Hmem. destruct Hmem as (p & Hp & Hinp).
  exists p. rewrite Hp. repeat split; try assumption.
  intros E. rewrite E in Hall. discriminate Hall.
Qed.

Lemma created_order_has_known_products_witness :
  exists items,
    complete (Sample.request false None) items /\
    forall item, In item items ->
      exists p, In p (products Sample.shop) /\ it_product_id item = Some (p_id p) /\
                Js.trim (p_id p) <> "".
Proof.
  destruct (fst (createOrder (Sample.request false None) Sample.env_ok (start Sample.shop)))
    as [r | x] eqn:Hr; [| vm_compute in Hr; discriminate Hr].
  assert (H200 : r_status r = 200)
    by (vm_compute in Hr; injection Hr as <-; reflexivity).
  exact (created_order_has_known_products (Sample.request false None) Sample.env_ok
           (start Sample.shop) r Hr H200).
Defined.


(* ------------------------------------------------------------------ *)
(** ** The transaction of a new order *)
(* ------------------------------------------------------------------ *)

(** A successful request, around the step of its transaction, with the
    row of the order. *)
Lemma createOrder_transaction_step b e w r :
  fst (createOrder b e w) = Val r -> r_status r = 200 ->
  exists items da number n o u wa wb pre post,
    c_order_items b = Some items /\ c_delivery_address b = Some da /\
    o = orderInsertData e n b items da number /\
    r_data r = OrderData o /\
    transactions (w_db wa) = transactions (w_db w) /\
    w_log wa = w_log w ++ pre /\ Forall off_transactions pre /\
    record_transaction b items o number u (shippingAddress b da) e wa = (Val tt, wb) /\
    w_log (snd (createOrder b e w)) = w_log wb ++ post /\ Forall off_transactions post /\
    transactions (db_after (createOrder b) e w) = transactions (w_db wb).
Proof.
  intros Hr H200. unfold db_after.
  destruct (createOrder b e w) as [[r' | x] w'] eqn:Hrun; simpl in Hr; [| discriminate].
  injection Hr as ->.
  destruct (createOrder_success b e w r w' Hrun H200)
    as (items & da & number & w2 & o & w3 & w4 & w5 &
        Hitems & Hne & Hda & _ & Hnum & _ & _ & Hins & Hrows & Hstock & Hafter).
  set (ids := validProductIds (map it_product_id items)) in *.
  set (w1 := record (SelectProductsIn ids) Ok (w_db w) w) in *.
  pose proof (final_order_number_off e b w1) as [l2 [Hl2 F2]].
  pose proof (final_order_number_keeps e b w1) as K2.
  rewrite Hnum in Hl2, K2. unfold keeps in K2. simpl in Hl2, K2.
  apply insert_order_data in Hins. destruct Hins as (Ho & Hw3 & _).
  apply insert_order_items_done in Hrows.
  pose proof (decrement_stock_off e b items w4) as [l4 [Hl4 F4]].
  pose proof (decrement_stock_keeps_orders e b items w4) as K4.
  rewrite Hstock in Hl4, K4. unfold keeps in K4. simpl in Hl4, K4.
  injection K4 as _ _ K4.
  pose proof (after_stock_answer _ _ _ _ _ _ _ _ _ Hafter) as Hans.
  unfold after_stock in Hafter.
  apply bind_val in Hafter. destruct Hafter as (u & wa & Huser & Hafter).
  apply bind_val in Hafter. destruct Hafter as ([] & wb & Htxn & Hafter).
  apply bind_val in Hafter. destruct Hafter as ([] & wc & Hconf & Hafter).
  apply bind_val in Hafter. destruct Hafter as ([] & wd & Hcoupon & Hafter).
  apply bind_val in Hafter. destruct Hafter as ([] & we & Hadmin & Hafter).
  apply bind_val in Hafter. destruct Hafter as ([] & wf & Hnotif & Hafter).
  injection Hafter as _ <-.
  pose proof (fetch_user_off e b w5) as [l5 [Hl5 F5]].
  pose proof (fetch_user_keeps e b w5) as K5.
  rewrite Huser in Hl5, K5. unfold keeps in K5. simpl in Hl5, K5.
  pose proof (send_confirmation_off e u o wb) as [l6a [Hl6a F6a]].
  pose proof (send_confirmation_keeps e u o wb) as K6a.
  rewrite Hconf in Hl6a, K6a. unfold keeps in K6a. simpl in Hl6a, K6a.
  pose proof (record_coupon_usage_off e b wc) as [l6b [Hl6b F6b]].
  pose proof (record_coupon_usage_keeps e b wc) as K6b.
  rewrite Hcoupon in Hl6b, K6b. unfold keeps in K6b. simpl in Hl6b, K6b.
  destruct (notify_admin_log e wd) as [res6 Hadmin'].
  rewrite Hadmin in Hadmin'. injection Hadmin' as Hwe.
  pose proof (create_admin_notification_log o u (shippingAddress b da) e we)
    as (l7 & _ & Hl7 & F7).
  assert (K7 : transactions (w_db wf) = transactions (w_db we)).
  { change (keeps transactions we wf).
    replace wf with (snd (create_admin_notification o u (shippingAddress b da) e we))
      by now rewrite Hnotif.
    by_eff ltac:(keeps_go no_lemma transactions). }
  rewrite Hnotif in Hl7. cbn [snd] in Hl7.
  assert (F7' : Forall off_transactions l7).
  { eapply Forall_impl; [| exact F7]. intros ev Hev.
    unfold off_transactions, on_transactions. now rewrite Hev. }
  exists items, da, number, (w_tick w2), o, u, wa, wb.
  exists ([{| ev_call := SelectProductsIn ids; ev_result := Ok |}] ++ l2
          ++ [{| ev_call := InsertOrder number; ev_result := Ok |}]
          ++ [{| ev_call := InsertOrderItems (o_id o); ev_result := Ok |}] ++ l4 ++ l5).
  exists (l6a ++ l6b
          ++ [{| ev_call := SendEmail AdminOrderNotification (Some admin_address);
                 ev_result := res6 |}]
          ++ l7).
  split; [exact Hitems |]. split; [exact Hda |]. split; [exact Ho |].
  split; [now rewrite Hans |].
  split.
  { rewrite K5, K4, Hrows. simpl. rewrite Hw3. simpl. now rewrite K2. }
  split.
  { rewrite Hl5, Hl4, Hrows. simpl. rewrite Hw3. simpl. rewrite Hl2. simpl.
    repeat rewrite <- app_assoc. reflexivity. }
  split.
  { repeat (apply Forall_app; split); try assumption; repeat constructor. }
  split; [exact Htxn |].
  split.
  { simpl. rewrite Hl7, Hwe. simpl. rewrite Hl6b, Hl6a.
    repeat rewrite <- app_assoc. reflexivity. }
  split.
  { repeat (apply Forall_app; split); try assumption; repeat constructor. }
  simpl. rewrite K7, Hwe. simpl. now rewrite K6b, K6a.
Qed.

(** Without a payment reference the step inserts a transaction. *)
Lemma record_transaction_plain b items o number u a e w :
  Js.truthy_str (c_payment_reference b) = false ->
  record_transaction b items o number u a e w
  = try_catch (insert_transaction b items o number (transaction_customer u a) None
                 (i_ms (e_clock e (w_tick w))))
      (fun _ => ret tt) e w.
Proof.
  intros H. unfold record_transaction. rewrite !try_catch_run. cbv zeta.
  rewrite bind_run. unfold new_date at 1.
  destruct (c_payment_reference b) as [reference |]; [| reflexivity].
  rewrite H. reflexivity.
Qed.

(** The row a successful insertion of the step adds. *)
Lemma record_transaction_inserted b items o number u a e w wb reference :
  record_transaction b items o number u a e w = (Val tt, wb) ->
  exists mid,
    w_log wb = w_log w ++ mid /\
    (In {| ev_call := InsertTransaction reference; ev_result := Ok |} mid ->
     reference = transaction_reference b o /\
     exists id now paystack,
       transactions (w_db wb)
       = transactions (w_db w)
         ++ [transactionData id now b items o number (transaction_customer u a) paystack]).
Proof.
  assert (Hins : forall paystack now w0 w1,
             try_catch (insert_transaction b items o number (transaction_customer u a)
                          paystack now) (fun _ => ret tt) e w0 = (Val tt, w1) ->
             exists res,
               w_log w1 = w_log w0
                          ++ [{| ev_call := InsertTransaction (transaction_reference b o);
                                 ev_result := res |}] /\
               (res = Ok ->
                exists id,
                  transactions (w_db w1)
                  = transactions (w_db w0)
                    ++ [transactionData id now b items o number (transaction_customer u a)
                          paystack])).
  { intros paystack now w0 w1. rewrite insert_transaction_run. intros [= <-].
    destruct (e_reply e (w_tick w0)).
    - cbv zeta. unfold Db.insert_transaction.
      destruct (existsb _ (transactions (w_db w0))); simpl.
      + exists Error. split; [reflexivity | discriminate].
      + exists Ok. split; [reflexivity |]. intros _. eexists. reflexivity.
    - exists Error. split; [reflexivity | discriminate].
    - exists Thrown. split; [reflexivity | discriminate]. }
  destruct (Js.truthy_str (c_payment_reference b)) eqn:Href.
  - destruct (c_payment_reference b) as [given |] eqn:Hgiven; [| discriminate Href].
    assert (Hne : given <> "").
    { intros ->. discriminate Href. }
    rewrite (record_transaction_run b items o number u a e w given Hgiven Hne).
    cbv zeta.
    destruct (e_reply e (w_tick w)) as [| x | x].
    + destruct (Db.transaction_by_reference given (w_db w)) as [[t |] | x].
      * intros [= <-].
        destruct (e_reply e (S (w_tick w)));
          (eexists; split; [simpl; rewrite <- app_assoc; reflexivity |]);
          intros [H | [H | []]]; discriminate H.
      * intros H. apply Hins in H. destruct H as (res & Hlog & Hrow).
        exists ([{| ev_call := SelectTransactionByReference given; ev_result := Ok |}]
                ++ [{| ev_call := InsertTransaction (transaction_reference b o);
                       ev_result := res |}]).
        split; [rewrite Hlog; simpl; now rewrite <- app_assoc |].
        intros [H | [H | []]]; [discriminate H |]. injection H as <- ->.
        split; [reflexivity |]. destruct (Hrow eq_refl) as [id Hid]. eauto.
      * intros H. apply Hins in H. destruct H as (res & Hlog & Hrow).
        exists ([{| ev_call := SelectTransactionByReference given; ev_result := Error |}]
                ++ [{| ev_call := InsertTransaction (transaction_reference b o);
                       ev_result := res |}]).
        split; [rewrite Hlog; simpl; now rewrite <- app_assoc |].
        intros [H | [H | []]]; [discriminate H |]. injection H as <- ->.
        split; [reflexivity |]. destruct (Hrow eq_refl) as [id Hid]. eauto.
    + intros H. apply Hins in H. destruct H as (res & Hlog & Hrow).
      exists ([{| ev_call := SelectTransactionByReference given; ev_result := Error |}]
              ++ [{| ev_call := InsertTransaction (transaction_reference b o);
                     ev_result := res |}]).
      split; [rewrite Hlog; simpl; now rewrite <- app_assoc |].
      intros [H | [H | []]]; [discriminate H |]. injection H as <- ->.
      split; [reflexivity |]. destruct (Hrow eq_refl) as [id Hid]. eauto.
    + intros [= <-]. eexists. split; [reflexivity |].
      intros [H | []]. discriminate H.
  - rewrite (record_transaction_plain b items o number u a e w Href).
    intros H. apply Hins in H. destruct H as (res & Hlog & Hrow).
    eexists. split; [exact Hlog |].
    intros [H | []]. injection H as <- ->.
    split; [reflexivity |]. destruct (Hrow eq_refl) as [id Hid]. eauto.
Qed.

(** X4.  The transaction row that [createOrder] inserts for a new order
    agrees with the order: it carries the id of the order, the total
    computed for it as amount, its payment status as status and as
    payment status, the currency GHS, and as reference the payment
    reference of the request or, without one, TXN- and the first eight
    characters of the id of the order. *)
Theorem transaction_matches_order (b : create_body) (e : env) (w : world)
    (r : response) (reference : string) :
  fst (createOrder b e w) = Val r -> r_status r = 200 ->
  In {| ev_call := InsertTransaction reference; ev_result := Ok |}
     (log_of (createOrder b) e w) ->
  exists o row,
    r_data r = OrderData o /\
    In o (orders (db_after (createOrder b) e w)) /\
    transactions (db_after (createOrder b) e w) = transactions (w_db w) ++ [row] /\
    t_order_id row = Some (o_id o) /\
    t_amount row = o_total o /\
    t_status row = o_payment_status o /\
    t_payment_status row = o_payment_status o /\
    t_currency row = "GHS" /\
    t_transaction_reference row = reference /\
    reference = Js.or_lit (c_payment_reference b) ("TXN-" ++ Js.slice_to 8 (o_id o)).
Proof.
  intros Hr H200 Hin.
  destruct (createOrder_transaction_step b e w r Hr H200)
    as (items & da & number & n & o & u & wa & wb & pre & post &
        Hitems & Hda & Ho & Hdata & Htx & Hpre & Fpre & Hrun & Hpost & Fpost & Hafter).
  destruct (createOrder_inserts_order b e w r Hr H200)
    as (items' & da' & number' & n' & o' & _ & _ & _ & Hr' & Horders & _).
  assert (o' = o) by (rewrite Hr' in Hdata; simpl in Hdata; congruence). subst o'.
  destruct (record_transaction_inserted _ _ _ _ _ _ _ _ _ reference Hrun)
    as (mid & Hmid & Hrow).
  assert (Hlog : log_of (createOrder b) e w = pre ++ mid ++ post).
  { apply log_of_app. rewrite Hpost, Hmid, Hpre. now rewrite <- !app_assoc. }
  rewrite Hlog in Hin. apply in_middle in Hin; [| assumption | assumption | reflexivity].
  destruct (Hrow Hin) as (Href & id & now & paystack & Hrows).
  exists o. eexists. split; [exact Hdata |].
  split; [rewrite Horders; apply in_or_app; right; now left |].
  split; [rewrite Hafter, Hrows, Htx; reflexivity |].
  assert (Hpaid : o_payment_status o = paymentStatus b) by now rewrite Ho.
  assert (Htotal : o_total o = Js.json_number (calculatedTotal b items)) by now rewrite Ho.
  rewrite Hpaid, Htotal.
  cbn -[calculatedTotal paymentStatus transaction_reference Js.slice_to].
  repeat split; try (symmetry; exact Href).
  rewrite Href. unfold transaction_reference, Js.or_lit. reflexivity.
Qed.

Lemma transaction_matches_order_witness :
  exists o row,
    In o (orders (db_after (createOrder (Sample.request false None)) Sample.env_ok
                    (start Sample.shop))) /\
    transactions (db_after (createOrder (Sample.request false None)) Sample.env_ok
                    (start Sample.shop)) = [row] /\
    t_amount row = o_total o /\ t_transaction_reference row = "TXN-row-2".
Proof.
  destruct (fst (createOrder (Sample.request false None) Sample.env_ok (start Sample.shop)))
    as [r | x] eqn:Hr; [| vm_compute in Hr; discriminate Hr].
  assert (H200 : r_status r = 200)
    by (vm_compute in Hr; injection Hr as <-; reflexivity).
  destruct (transaction_matches_order (Sample.request false None) Sample.env_ok
              (start Sample.shop) r "TXN-row-2" Hr H200)
    as (o & row & _ & Ho & Hrows & _ & Hamount & _ & _ & _ & Href & _).
  { vm_compute. repeat (try (left; reflexivity); right). }
  exists o, row. repeat split; assumption.
Defined.

(* ------------------------------------------------------------------ *)
(** ** The answers of the handlers *)
(* ------------------------------------------------------------------ *)

Section Answers.

Variable e : env.
Variable P : response -> Prop.

Lemma answers_ret r : P r -> answers e P (ret r).
Proof. intros H w r' [= <-]. exact H. Qed.

Lemma answers_throw x : answers e P (throw x).
Proof. intros w r H. discriminate H. Qed.

Lemma answers_bind {A} (m : M A) (k : A -> M response) :
  (forall a, answers e P (k a)) -> answers e P (bind m k).
Proof.
  intros Hk w r. rewrite bind_run.
  destruct (m e w) as [[a | x] w1]; [apply Hk | discriminate].
Qed.

(** The continuation is looked at for the values the computation can
    return. *)
Lemma answers_bind_when {A} (Q : A -> Prop) (m : M A) (k : A -> M response) :
  (forall w a w1, m e w = (Val a, w1) -> Q a) ->
  (forall a, Q a -> answers e P (k a)) -> answers e P (bind m k).
Proof.
  intros Hm Hk w r. rewrite bind_run.
  destruct (m e w) as [[a | x] w1] eqn:E; [| discriminate].
  apply Hk. eapply Hm. exact E.
Qed.

Lemma answers_try_catch (m : M response) (h : js_error -> M response) :
  answers e P m -> (forall x, answers e P (h x)) -> answers e P (try_catch m h).
Proof.
  intros Hm Hh w r. rewrite try_catch_run.
  destruct (m e w) as [[a | x] w1] eqn:E.
  - intros [= <-]. apply (Hm w). now rewrite E.
  - apply Hh.
Qed.

(** A handler whose body answers with [P], and whose 500 satisfies [P],
    always answers, with [P]. *)
Lemma handle_answers_with (m : M response) (message : string) :
  answers e P m ->
  (forall x, P (failure 500 message (Some (message_of x)))) ->
  forall w, exists r, fst (handle m message e w) = Val r /\ P r.
Proof.
  intros Hm H500 w. unfold handle. rewrite try_catch_run.
  destruct (m e w) as [[a | x] w1] eqn:E.
  - exists a. split; [reflexivity |]. apply (Hm w). now rewrite E.
  - simpl. eauto.
Qed.

End Answers.

(** [answers_go leaf] proves [answers e P m] along the shape of [m];
    [leaf] proves [P] of a response that is returned. *)
Ltac answers_go leaf :=
  lazymatch goal with
  | |- answers _ _ (ret _) => apply answers_ret; leaf
  | |- answers _ _ (throw _) => apply answers_throw
  | |- answers _ _ (bind _ _) => apply answers_bind; intros; answers_go leaf
  | |- answers _ _ (try_catch _ _) =>
      apply answers_try_catch; [answers_go leaf | intros; answers_go leaf]
  | |- answers _ _ (if ?b then _ else _) => destruct b; answers_go leaf
  | |- answers _ _ (match ?x with _ => _ end) => destruct x; answers_go leaf
  | |- answers _ _ (let _ := _ in _) => cbv zeta; answers_go leaf
  | |- answers _ _ ?m => let h := head_of m in unfold h; answers_go leaf
  end.

Ltac leaf_status :=
  unfold status_in; simpl;
  split; [tauto | split; intros; first [discriminate | reflexivity | congruence]].

Lemma select_order_not_null id e w w1 :
  select_order id e w <> (Val (PgData None), w1).
Proof.
  unfold select_order. rewrite remote_run.
  destruct (e_reply e (w_tick w)); try discriminate.
  destruct (Db.single (Db.order_by_id id (w_db w))); discriminate.
Qed.

(** X5.  The handlers always answer: whatever the database holds and
    however the remote calls end, no exception leaves a handler, the
    status is 200, 400 or 500 (403 as well for [cancelOrder]) and
    [success] is true exactly with 200.  [updateOrderStatus] never
    answers 400; [cancelOrder] and [refundTransaction] never answer 404,
    and [refundTransaction] never says that the transaction has already
    been refunded. *)
Theorem handlers_always_answer (e : env) (w : world) :
  (forall id b,
      exists r, fst (updateOrderStatus id b e w) = Val r /\ status_in [200; 500] r) /\
  (forall id ps,
      exists r, fst (updatePaymentStatus id ps e w) = Val r /\
                status_in [200; 400; 500] r) /\
  (forall id b,
      exists r, fst (cancelOrder id b e w) = Val r /\ status_in [200; 400; 403; 500] r) /\
  (forall b,
      exists r, fst (createOrder b e w) = Val r /\ status_in [200; 400; 500] r) /\
  (forall id,
      exists r, fst (refundTransaction id e w) = Val r /\ status_in [200; 400; 500] r /\
                r_message r <> already_refunded).
Proof.
  repeat split.
  - intros id b. unfold updateOrderStatus.
    apply handle_answers_with; [| intros; leaf_status].
    answers_go leaf_status.
  - intros id ps. unfold updatePaymentStatus.
    apply handle_answers_with; [| intros; leaf_status].
    answers_go leaf_status.
  - intros id b. unfold cancelOrder.
    apply handle_answers_with; [| intros; leaf_status].
    apply (answers_bind_when e _ (fun a => a <> PgData None)).
    + intros w0 a w1 H ->. exact (select_order_not_null _ _ _ _ H).
    + intros [[v |] | x] Ha; [| now elim Ha |]; answers_go leaf_status.
  - intros b.
    assert (H : answers e (status_in [200; 400; 500]) (createOrder b))
      by answers_go leaf_status.
    destruct (fst (createOrder b e w)) as [r | x] eqn:E.
    + exists r. split; [reflexivity |]. exact (H w r E).
    + exfalso. unfold createOrder in E. rewrite try_catch_run in E.
      destruct (match c_order_items b with _ => _ end e w) as [[a | y] w1]; discriminate E.
  - intros id. unfold refundTransaction.
    apply (handle_answers_with e
             (fun r => status_in [200; 400; 500] r /\ r_message r <> already_refunded));
      [| intros; split; [leaf_status | discriminate]].
    apply (answers_bind_when e _ (fun a => a <> PgData None)).
    + intros w0 a w1 H ->. exact (select_transaction_not_null _ _ _ _ H).
    + intros [[[t o] |] | x] Ha; [| now elim Ha |].
      * destruct (String.eqb (t_payment_status t) "paid") eqn:Hpaid; cbn [negb].
        -- apply String.eqb_eq in Hpaid. rewrite Hpaid.
           change (String.eqb "paid" "refunded") with false. cbv iota.
           answers_go ltac:(split; [leaf_status | discriminate]).
        -- apply answers_ret. split; [leaf_status | discriminate].
      * apply answers_throw.
Qed.

(** The lookup of an order that is not there. *)
Lemma select_order_missing id e w :
  Db.order_by_id id (w_db w) = [] ->
  exists res,
    (fst (select_order id e w) = Exn res \/ fst (select_order id e w) = Val (PgError res)) /\
    w_db (snd (select_order id e w)) = w_db w.
Proof.
  intros H. unfold select_order. rewrite remote_run, H.
  destruct (e_reply e (w_tick w)) as [| x | x]; simpl; eauto.
Qed.

Lemma update_order_missing id f e w :
  Db.order_by_id id (w_db w) = [] ->
  exists res,
    (fst (update_order id f e w) = Exn res \/ fst (update_order id f e w) = Val (PgError res)) /\
    w_db (snd (update_order id f e w)) = w_db w.
Proof.
  intros H. unfold update_order. rewrite remote_run.
  unfold Db.update_order_returning. rewrite H.
  destruct (e_reply e (w_tick w)) as [| x | x]; simpl; eauto.
Qed.

(** X6.  For an id that no order has, [updateOrderStatus],
    [updatePaymentStatus] (with a valid status) and [cancelOrder] answer
    500, not 404, and leave the database as it is: the lookup for one
    object fails and its error is thrown to the [catch] of the handler. *)
Theorem unknown_order_is_500 (id : string) (e : env) (w : world) :
  Db.order_by_id id (w_db w) = [] ->
  (forall b,
      exists r, fst (updateOrderStatus id b e w) = Val r /\ r_status r = 500 /\
                r_message r = "Failed to update order status" /\
                db_after (updateOrderStatus id b) e w = w_db w) /\
  (forall s,
      valid_payment_status s ->
      exists r, fst (updatePaymentStatus id (Some s) e w) = Val r /\ r_status r = 500 /\
                r_message r = "Failed to update payment status" /\
                db_after (updatePaymentStatus id (Some s)) e w = w_db w) /\
  (forall b,
      exists r, fst (cancelOrder id b e w) = Val r /\ r_status r = 500 /\
                r_message r = "Failed to cancel order" /\
                db_after (cancelOrder id b) e w = w_db w).
Proof.
  intros Hnone. repeat split.
  - intros b. unfold db_after, updateOrderStatus, handle.
    rewrite !try_catch_run, !bind_run.
    destruct (select_order_missing id e w Hnone) as (x & [H | H] & Hdb);
      destruct (select_order id e w) as [[a | y] w1]; simpl in H, Hdb;
      try discriminate H; injection H as ->; simpl; eauto.
  - intros s Hs. unfold db_after, updatePaymentStatus, handle.
    rewrite !try_catch_run.
    rewrite (truthy_valid s Hs), (proj2 (valid_payment_status_mem s) Hs).
    cbn [negb orb]. rewrite !bind_run.
    destruct (update_order_missing id (set_payment_status s) e w Hnone)
      as (x & [H | H] & Hdb);
      destruct (update_order id (set_payment_status s) e w) as [[a | y] w1];
      simpl in H, Hdb; try discriminate H; injection H as ->; simpl; eauto.
  - intros b. unfold db_after, cancelOrder, handle.
    rewrite !try_catch_run, !bind_run.
    destruct (select_order_missing id e w Hnone) as (x & [H | H] & Hdb);
      destruct (select_order id e w) as [[a | y] w1]; simpl in H, Hdb;
      try discriminate H; injection H as ->; simpl; eauto.
Qed.

Lemma unknown_order_is_500_witness :
  exists r,
    fst (cancelOrder "o-404" Sample.by_owner Sample.env_ok
           (start (Sample.shop_with (Sample.stored "pending" false false)))) = Val r /\
    r_status r = 500 /\
    db_after (cancelOrder "o-404" Sample.by_owner) Sample.env_ok
      (start (Sample.shop_with (Sample.stored "pending" false false)))
    = Sample.shop_with (Sample.stored "pending" false false).
Proof.
  destruct (unknown_order_is_500 "o-404" Sample.env_ok
              (start (Sample.shop_with (Sample.stored "pending" false false))) eq_refl)
    as (_ & _ & H).
  destruct (H Sample.by_owner) as (r & Hr & Hs & _ & Hd).
  exists r. repeat split; assumption.
Defined.

(* ------------------------------------------------------------------ *)
(** ** Cancelling the order of a guest *)
(* ------------------------------------------------------------------ *)

Lemma select_order_one id e w o :
  Db.order_by_id id (w_db w) = [o] ->
  e_reply e (w_tick w) = Done ->
  select_order id e w
  = (Val (PgData (Some (view (w_db w) o))), record (SelectOrder id) Ok (w_db w) w).
Proof.
  intros Hrow Hreply. unfold select_order. rewrite remote_run, Hreply, Hrow. reflexivity.
Qed.

Lemma select_order_keeps e id : eff e (keeps (fun d => d)) (select_order id).
Proof. keeps_go no_lemma (fun d : db => d). Qed.

(** Without the verified email the order of a guest is left alone. *)
Lemma cancelOrder_guest_refused id b e w o :
  Db.order_by_id id (w_db w) = [o] ->
  Js.truthy_str (o_user_id o) = false ->
  email_verified e b o = false ->
  w_db (snd (cancelOrder id b e w)) = w_db w.
Proof.
  intros Hrow Hguest Hbad. unfold cancelOrder, handle.
  rewrite try_catch_run, bind_run.
  destruct (e_reply e (w_tick w)) as [| x | x] eqn:Hreply.
  - rewrite (select_order_one id e w o Hrow Hreply).
    cbn [bind ask]. cbv zeta. cbn [v_order view]. rewrite Hguest. cbn [negb andb].
    unfold email_verified in Hbad.
    destruct (Js.truthy_str (k_email b)); cbn [negb andb orb] in *; [| reflexivity].
    destruct (Js.truthy_str (address_email (o_shipping_address o)));
      cbn [negb andb orb] in *; [| reflexivity].
    rewrite Hbad. reflexivity.
  - unfold select_order. rewrite remote_run, Hreply. reflexivity.
  - unfold select_order. rewrite remote_run, Hreply. reflexivity.
Qed.

(** X7.  The order of a guest (an order without [user_id]) is changed by
    [cancelOrder] only for a request that gives the email stored in the
    shipping address of the order, the two compared after [toLowerCase].
    Without an email the request is answered 400, with another email (or
    when the order stores none) 403, and in both cases only the lookup of
    the order has been made. *)
Theorem cancelOrder_verifies_guest (id : string) (b : cancel_body) (e : env)
    (w : world) (o : order) :
  Db.order_by_id id (w_db w) = [o] ->
  Js.truthy_str (o_user_id o) = false ->
  (db_after (cancelOrder id b) e w <> w_db w ->
   exists given stored,
     k_email b = Some given /\ given <> "" /\
     address_email (o_shipping_address o) = Some stored /\ stored <> "" /\
     e_toLowerCase e stored = e_toLowerCase e given) /\
  (e_reply e (w_tick w) = Done ->
   Js.truthy_str (k_email b) = false ->
   cancelOrder id b e w
   = (Val (failure 400 "Email verification required for guest orders" None),
      record (SelectOrder id) Ok (w_db w) w)) /\
  (e_reply e (w_tick w) = Done ->
   Js.truthy_str (k_email b) = true ->
   email_verified e b o = false ->
   exists r, cancelOrder id b e w = (Val r, record (SelectOrder id) Ok (w_db w) w) /\
             r_status r = 403).
Proof.
  intros Hrow Hguest. split; [| split].
  - intros Hchanged.
    destruct (email_verified e b o) eqn:Hv.
    2:{ exfalso. apply Hchanged. now apply cancelOrder_guest_refused with (o := o). }
    unfold email_verified in Hv.
    apply andb_prop in Hv. destruct Hv as [Hv Heq].
    apply andb_prop in Hv. destruct Hv as [Hgiven Hstored].
    destruct (k_email b) as [given |]; [| discriminate Hgiven].
    destruct (address_email (o_shipping_address o)) as [stored |]; [| discriminate Hstored].
    exists given, stored. apply String.eqb_eq in Heq.
    assert (Hne : forall s, Js.truthy_str (Some s) = true -> s <> "").
    { intros s H ->. discriminate H. }
    pose proof (Hne _ Hgiven) as Hg. pose proof (Hne _ Hstored) as Hs.
    unfold Js.or_empty, Js.or_lit in Heq.
    destruct given; [now elim Hg |]. destruct stored; [now elim Hs |].
    repeat split; try assumption.
  - intros Hreply Hnone. unfold cancelOrder, handle.
    rewrite try_catch_run, bind_run, (select_order_one id e w o Hrow Hreply).
    cbn [bind ask]. cbv zeta. cbn [v_order view]. rewrite Hguest, Hnone. reflexivity.
  - intros Hreply Hgiven Hbad. unfold cancelOrder, handle.
    rewrite try_catch_run, bind_run, (select_order_one id e w o Hrow Hreply).
    cbn [bind ask]. cbv zeta. cbn [v_order view]. rewrite Hguest, Hgiven. cbn [negb andb].
    unfold email_verified in Hbad. rewrite Hgiven in Hbad. cbn [andb] in Hbad.
    destruct (Js.truthy_str (address_email (o_shipping_address o)));
      cbn [negb andb orb] in *; [rewrite Hbad |]; simpl; eauto.
Qed.

Lemma cancelOrder_verifies_guest_witness :
  (exists r,
      fst (cancelOrder "o1" Sample3.by_stranger Sample.env_ok
             (start (Sample.shop_with (Sample.stored "pending" false false)))) = Val r /\
      r_status r = 403) /\
  fst (cancelOrder "o1" Sample3.by_nobody Sample.env_ok
         (start (Sample.shop_with (Sample.stored "pending" false false))))
  = Val (failure 400 "Email verification required for guest orders" None) /\
  map o_status
    (orders (db_after (cancelOrder "o1" Sample3.by_owner_in_capitals) Sample.env_ok
               (start (Sample.shop_with (Sample.stored "pending" false false)))))
  = ["cancelled"].
Proof.
  pose proof (fun b =>
    cancelOrder_verifies_guest "o1" b Sample.env_ok
      (start (Sample.shop_with (Sample.stored "pending" false false)))
      (Sample.stored "pending" false false) eq_refl eq_refl) as H.
  split; [| split].
  - destruct (H Sample3.by_stranger) as (_ & _ & H3).
    destruct (H3 eq_refl eq_refl eq_refl) as (r & Hr & Hs).
    exists r. rewrite Hr. split; [reflexivity | exact Hs].
  - destruct (H Sample3.by_nobody) as (_ & H2 & _).
    rewrite (H2 eq_refl eq_refl). reflexivity.
  - vm_compute. reflexivity.
Defined.

(** X8.  For an order that has a [user_id], [cancelOrder] does not look
    at the email of the request: two requests with the same reason are
    treated alike, whatever emails they give, or none. *)
Theorem cancelOrder_ignores_email_of_user_orders (id : string) (b b' : cancel_body)
    (e : env) (w : world) (o : order) :
  Db.order_by_id id (w_db w) = [o] ->
  Js.truthy_str (o_user_id o) = true ->
  k_cancellation_reason b = k_cancellation_reason b' ->
  cancelOrder id b e w = cancelOrder id b' e w.
Proof.
  intros Hrow Huser Hreason. unfold cancelOrder, handle.
  rewrite !try_catch_run, !bind_run.
  destruct (e_reply e (w_tick w)) as [| x | x] eqn:Hreply.
  - rewrite (select_order_one id e w o Hrow Hreply).
    cbv zeta. cbn [v_order view]. rewrite Huser. cbn [negb andb].
    unfold cancelled_notes. rewrite Hreason. reflexivity.
  - unfold select_order. rewrite remote_run, Hreply. reflexivity.
  - unfold select_order. rewrite remote_run, Hreply. reflexivity.
Qed.

Lemma cancelOrder_ignores_email_of_user_orders_witness :
  cancelOrder "o1" Sample3.by_nobody Sample.env_ok
    (start (Sample.shop_with Sample4.of_user))
  = cancelOrder "o1" Sample.by_owner Sample.env_ok
      (start (Sample.shop_with Sample4.of_user)) /\
  map o_status
    (orders (db_after (cancelOrder "o1" Sample3.by_nobody) Sample.env_ok
               (start (Sample.shop_with Sample4.of_user))))
  = ["cancelled"].
Proof.
  split; [| vm_compute; reflexivity].
  apply (cancelOrder_ignores_email_of_user_orders "o1" Sample3.by_nobody Sample.by_owner
           Sample.env_ok (start (Sample.shop_with Sample4.of_user)) Sample4.of_user);
    reflexivity.
Defined.

(* ------------------------------------------------------------------ *)
(** ** What a change of status leaves *)
(* ------------------------------------------------------------------ *)

Lemma still_refl id o : still_the_order id o o.
Proof. unfold still_the_order. repeat split. Qed.

Lemma still_trans id o1 o2 o3 :
  still_the_order id o1 o2 -> still_the_order id o2 o3 -> still_the_order id o1 o3.
Proof.
  unfold still_the_order.
  intros (A1 & A2 & A3 & A4 & A5 & A6 & A7 & A8 & A9 & A10 & A11 & A12 & A13 & A14)
         (B1 & B2 & B3 & B4 & B5 & B6 & B7 & B8 & B9 & B10 & B11 & B12 & B13 & B14).
  repeat split; try congruence;
    intros Hne; rewrite <- (A14 Hne); apply B14; congruence.
Qed.

Lemma still_all_refl id l : Forall2 (still_the_order id) l l.
Proof. induction l; constructor; auto using still_refl. Qed.

Lemma still_all_trans id l1 : forall l2 l3,
  Forall2 (still_the_order id) l1 l2 -> Forall2 (still_the_order id) l2 l3 ->
  Forall2 (still_the_order id) l1 l3.
Proof.
  induction l1 as [| o l1 IH]; intros l2 l3 H12 H23.
  - inversion H12; subst. inversion H23; subst. constructor.
  - inversion H12; subst. inversion H23; subst. constructor.
    + eapply still_trans; eauto.
    + eapply IH; eauto.
Qed.

Lemma framed_refl id w : orders_framed id w w.
Proof. unfold orders_framed. repeat split. apply still_all_refl. Qed.

Lemma framed_trans id w1 w2 w3 :
  orders_framed id w1 w2 -> orders_framed id w2 w3 -> orders_framed id w1 w3.
Proof.
  unfold orders_framed. intros (A & A1 & A2 & A3 & A4) (B & B1 & B2 & B3 & B4).
  repeat split; try congruence. eapply still_all_trans; eauto.
Qed.

(** An update of the rows of one id by a function that keeps the order
    keeps the orders. *)
Lemma still_update id (f : order -> order) l :
  (forall o, still_the_order (o_id o) o (f o)) ->
  Forall2 (still_the_order id) l
    (Db.update_where (fun o => String.eqb (o_id o) id) f l).
Proof.
  intros Hf. unfold Db.update_where.
  induction l as [| o l IH]; simpl; constructor; [| exact IH].
  destruct (String.eqb (o_id o) id) eqn:E; [| apply still_refl].
  apply String.eqb_eq in E. specialize (Hf o). rewrite E in Hf.
  unfold still_the_order in *. repeat split; try apply Hf.
Qed.

Lemma set_status_still b now o : still_the_order (o_id o) o (set_status b now o).
Proof. unfold still_the_order. simpl. repeat split. intros H. now elim H. Qed.

Lemma set_payment_status_still s now o :
  still_the_order (o_id o) o (set_payment_status s now o).
Proof. unfold still_the_order. simpl. repeat split. intros H. now elim H. Qed.

Lemma set_cancelled_still notes now o :
  still_the_order (o_id o) o (set_cancelled notes now o).
Proof. unfold still_the_order. simpl. repeat split. intros H. now elim H. Qed.

Ltac leaf_framed :=
  unfold orders_framed; autounfold with dbs; simpl; break_matches;
  (split;
   [ first [ apply still_all_refl
           | apply still_update; intros;
             first [ apply set_status_still | apply set_payment_status_still
                   | apply set_cancelled_still ] ]
   | repeat split ]).

Ltac framed_go id :=
  eff_go no_lemma (framed_refl id) (framed_trans id) leaf_framed.

Lemma updatePaymentStatus_keeps_products e id ps :
  eff e (keeps products) (updatePaymentStatus id ps).
Proof. keeps_go no_lemma products. Qed.

(** X9.  [updateOrderStatus], [updatePaymentStatus] and [cancelOrder] add
    no order and remove none; they leave every other order as it is, and
    of the order itself the id, the user, the number, the amounts, the
    payment method, the address, the customer and the time of creation;
    the items, the transactions, the notifications and the users are
    untouched.  [updatePaymentStatus] leaves the products as well. *)
Theorem status_changes_leave_the_rest (id : string) (e : env) (w : world) :
  (forall b, orders_framed id w (snd (updateOrderStatus id b e w))) /\
  (forall ps,
      orders_framed id w (snd (updatePaymentStatus id ps e w)) /\
      products (db_after (updatePaymentStatus id ps) e w) = products (w_db w)) /\
  (forall b, orders_framed id w (snd (cancelOrder id b e w))).
Proof.
  split; [| split].
  - intros b. by_eff ltac:(framed_go id).
  - intros ps. split.
    + by_eff ltac:(framed_go id).
    + apply updatePaymentStatus_keeps_products.
  - intros b. by_eff ltac:(framed_go id).
Qed.

(* ------------------------------------------------------------------ *)
(** ** Refunded orders *)
(* ------------------------------------------------------------------ *)

(** X10.  [updateOrderStatus] restores no stock for an order whose
    payment status is [refunded], whatever the new status is: the
    products are as before and no product row is written. *)
Theorem refunded_order_is_not_restocked (id : string) (b : status_body) (e : env)
    (w : world) :
  (forall o, In o (orders (w_db w)) -> o_id o = id -> o_payment_status o = "refunded") ->
  products (db_after (updateOrderStatus id b) e w) = products (w_db w) /\
  stock_writes (log_of (updateOrderStatus id b) e w) = 0.
Proof.
  intros Hc. apply quiet_log_of. unfold updateOrderStatus, handle.
  apply try_catch_at; [exact quiet_trans | | intros; quiet_go no_lemma].
  apply bind_at; [exact quiet_trans | apply select_order_quiet |].
  intros [[v |] | x] w1 Hsel;
    [| by_eff ltac:(quiet_go no_lemma) | by_eff ltac:(quiet_go no_lemma)].
  destruct (select_order_row _ _ _ _ _ Hsel) as (Hin & Hid & _).
  cbv zeta. rewrite (Hc _ Hin Hid).
  change (String.eqb "refunded" "refunded") with true. cbn [negb].
  rewrite andb_false_r.
  by_eff ltac:(quiet_go no_lemma).
Qed.

Lemma refunded_order_is_not_restocked_witness :
  map p_stock_quantity
    (products (db_after (updateOrderStatus "o1" (Sample.to_status "cancelled"))
                 Sample.env_ok (start (Sample.shop_with Sample5.refunded))))
  = [Js.Num 5] /\
  map o_status
    (orders (db_after (updateOrderStatus "o1" (Sample.to_status "cancelled"))
               Sample.env_ok (start (Sample.shop_with Sample5.refunded))))
  = ["cancelled"].
Proof.
  split; [| vm_compute; reflexivity].
  assert (H : forall o, In o (orders (w_db (start (Sample.shop_with Sample5.refunded)))) ->
                        o_id o = "o1" -> o_payment_status o = "refunded").
  { intros o [<- | []] _. reflexivity. }
  rewrite (proj1 (refunded_order_is_not_restocked "o1" (Sample.to_status "cancelled")
                    Sample.env_ok (start (Sample.shop_with Sample5.refunded)) H)).
  reflexivity.
Defined.


(* ------------------------------------------------------------------ *)
(** ** Order numbers, read back *)
(* ------------------------------------------------------------------ *)

Lemma digit_char_cases d :
  (d <= 9)%N ->
  Js.is_digit (Js.digit_char d) = true /\ Js.digit_val (Js.digit_char d) = d.
Proof.
  intros H.
  assert (C : (d = 0 \/ d = 1 \/ d = 2 \/ d = 3 \/ d = 4 \/ d = 5 \/ d = 6 \/ d = 7
               \/ d = 8 \/ d = 9)%N) by lia.
  repeat (destruct C as [-> | C]; [split; reflexivity |]).
  subst. split; reflexivity.
Qed.

Lemma substring_all s : String.substring 0 (String.length s) s = s.
Proof. induction s as [| c s IH]; [reflexivity |]. simpl. now rewrite IH. Qed.

Lemma substring_prefix_of s t :
  String.substring 0 (String.length s) (s ++ t)%string = s.
Proof. induction s as [| c s IH]; simpl; [now destruct t |]. now rewrite IH. Qed.

(** The three digits written for a sequence are read back as it. *)
Lemma three_digits_read_back s rest :
  (s <= 999)%N ->
  three_digits (three_digits_of s ++ rest)%string = Some (three_digits_of s) /\
  Js.parse_int (three_digits_of s) = s.
Proof.
  intros Hs.
  assert (Ha : (s / 100 <= 9)%N).
  { apply N.lt_succ_r. apply N.Div0.div_lt_upper_bound. lia. }
  assert (Hb : (s mod 100 / 10 <= 9)%N).
  { apply N.lt_succ_r. apply N.Div0.div_lt_upper_bound.
    pose proof (N.mod_upper_bound s 100). lia. }
  assert (Hc : (s mod 100 mod 10 <= 9)%N).
  { pose proof (N.mod_upper_bound (s mod 100) 10). lia. }
  destruct (digit_char_cases _ Ha) as [Da Va].
  destruct (digit_char_cases _ Hb) as [Db Vb].
  destruct (digit_char_cases _ Hc) as [Dc Vc].
  split.
  - unfold three_digits, three_digits_of, two_digits.
    cbn [String.append String.substring String.length Js.all_digits Nat.eqb].
    rewrite Da, Db, Dc.
    destruct rest; reflexivity.
  - unfold Js.parse_int, three_digits_of, two_digits.
    cbn [Js.parse_digits]. rewrite Va, Vb, Vc.
    pose proof (N.div_mod s 100). pose proof (N.div_mod (s mod 100) 10). lia.
Qed.

Lemma match_ord_read_back now s :
  (s <= 999)%N ->
  match_ord (claimed_order_number now s) = Some (three_digits_of s).
Proof.
  intros Hs. unfold claimed_order_number.
  change ("ORD-" ++ three_digits_of s ++ ddmmyy now)%string
    with (String "O" ("RD-" ++ three_digits_of s ++ ddmmyy now))%string.
  rewrite match_ord_cons.
  change (String.prefix "ORD-" (String "O" ("RD-" ++ three_digits_of s ++ ddmmyy now)))
    with true.
  cbv iota.
  replace (drop 4 (String "O" ("RD-" ++ three_digits_of s ++ ddmmyy now)))
    with (three_digits_of s ++ ddmmyy now)%string.
  - now rewrite (proj1 (three_digits_read_back s (ddmmyy now) Hs)).
  - unfold drop.
    cbn [String.append String.length String.substring Nat.sub].
    rewrite Nat.sub_0_r. symmetry. apply substring_all.
Qed.

(** X11.  The numbers of a day count up: when the most recent order of
    today carries a number of the form ORD-SSSDDMMYY with the sequence
    [s], the number generated next has the sequence [s + 1], and 1 after
    999. *)
Theorem order_numbers_count_up (e : env) (w : world) (o : order) (before : instant)
    (s : N) :
  (forall n, calendar (e_clock e n)) ->
  e_reply e (w_tick w) = Done ->
  Db.last_order_since (i_midnight (e_clock e (w_tick w))) (w_db w) = Some o ->
  o_order_number o = Some (claimed_order_number before s) ->
  (s <= 999)%N ->
  fst (generateOrderNumber e w)
  = Val (claimed_order_number (e_clock e (w_tick w))
           (if (s <? 999)%N then s + 1 else 1)%N).
Proof.
  intros Hcal Hreply Hlast Hnumber Hs.
  rewrite (generateOrderNumber_value e w Hcal).
  unfold generated_number_at, claimed_number_at. rewrite Hreply, Hlast.
  unfold sequence_of. rewrite Hnumber, (match_ord_read_back before s Hs).
  cbn [option_map]. rewrite (proj2 (three_digits_read_back s "" Hs)).
  unfold claimed_sequence.
  destruct (s <? 999)%N eqn:E.
  - apply N.ltb_lt in E. replace (s + 1 <=? 999)%N with true; [reflexivity |].
    symmetry. apply N.leb_le. lia.
  - apply N.ltb_ge in E. replace (s + 1 <=? 999)%N with false; [reflexivity |].
    symmetry. apply N.leb_gt. lia.
Qed.

Lemma order_numbers_count_up_witness :
  fst (generateOrderNumber Sample.env_ok
         (start (Sample.shop_with (Sample.stored "pending" false false))))
  = Val "ORD-002021126".
Proof.
  apply (order_numbers_count_up Sample.env_ok
           (start (Sample.shop_with (Sample.stored "pending" false false)))
           (Sample.stored "pending" false false) Sample.noon 1).
  - intros n. unfold calendar. simpl. lia.
  - reflexivity.
  - reflexivity.
  - reflexivity.
  - lia.
Defined.

(* ------------------------------------------------------------------ *)
(** ** A transaction is refunded once *)
(* ------------------------------------------------------------------ *)

Lemma refund_order_keeps_transactions e t o :
  eff e (keeps transactions) (refund_order t o).
Proof. keeps_go no_lemma transactions. Qed.

(** What a refund that is answered 200 has written. *)
Lemma refund_success id e w r :
  fst (refundTransaction id e w) = Val r -> r_status r = 200 ->
  exists now,
    transactions (db_after (refundTransaction id) e w)
    = Db.update_where (fun t' => String.eqb (t_id t') id) (set_refunded now)
        (transactions (w_db w)).
Proof.
  unfold db_after, refundTransaction, handle. rewrite !try_catch_run, !bind_run.
  unfold select_transaction. rewrite remote_run.
  destruct (e_reply e (w_tick w)) as [| x | x];
    [| simpl; intros [= <-]; discriminate | simpl; intros [= <-]; discriminate].
  unfold Db.single.
  destruct (Db.transaction_by_id id (w_db w)) as [| t [| t' l]] eqn:Hrow;
    cbn [fst snd OrderController.pg_map pg_ok result_of];
    try (simpl; intros [= <-]; discriminate).
  destruct (negb (String.eqb (t_payment_status t) "paid"));
    [simpl; intros [= <-]; discriminate |].
  destruct (String.eqb (t_payment_status t) "refunded");
    [simpl; intros [= <-]; discriminate |].
  rewrite !bind_run, remote_run. cbn [record w_tick w_db].
  destruct (e_reply e (S (w_tick w))) as [| x | x];
    [| simpl; intros [= <-]; discriminate | simpl; intros [= <-]; discriminate].
  unfold Db.update_transaction_returning. rewrite Hrow.
  cbn [fst snd pg_ok result_of]. rewrite bind_run.
  match goal with
  | |- context [refund_order ?t ?o e ?w1] =>
      pose proof (refund_order_keeps_transactions e t o w1) as K;
      destruct (refund_order t o e w1) as [[[] | x] w2]
  end; unfold keeps in K; simpl in K.
  - intros _ _. exists (i_ms (e_clock e (S (w_tick w)))). simpl. exact K.
  - simpl. intros [= <-]. discriminate.
Qed.

Lemma update_where_row {A} (sel : A -> bool) (f : A -> A) rows r :
  In r (Db.update_where sel f rows) ->
  exists r0, In r0 rows /\ r = if sel r0 then f r0 else r0.
Proof.
  unfold Db.update_where. intros H. apply in_map_iff in H.
  destruct H as (r0 & <- & Hin). eauto.
Qed.

(** A transaction that is not paid is not refunded. *)
Lemma refund_of_unpaid_fails id e w r :
  (forall t, In t (transactions (w_db w)) -> t_id t = id -> t_payment_status t <> "paid") ->
  fst (refundTransaction id e w) = Val r -> r_success r = false /\ r_status r <> 200.
Proof.
  intros Hp. unfold refundTransaction, handle. rewrite try_catch_run, bind_run.
  destruct (select_transaction id e w) as [[[[[t o] |] | x] | x] w1] eqn:Hsel;
    try (simpl; intros [= <-]; split; [reflexivity | discriminate]).
  destruct (select_transaction_row _ _ _ _ _ _ Hsel) as (Hrow & _ & _).
  apply filter_single_in in Hrow. destruct Hrow as [Hin Hid].
  apply String.eqb_eq in Hid.
  specialize (Hp _ Hin Hid). apply String.eqb_neq in Hp.
  rewrite Hp. simpl. intros [= <-]. split; [reflexivity | discriminate].
Qed.

(** X12.  A transaction is refunded at most once: after a refund that
    was answered 200, every further call of [refundTransaction] for the
    same id, on the database the refund left, is answered with a failure
    and changes nothing. *)
Theorem refund_happens_once (id : string) (e : env) (w : world) (r : response) :
  fst (refundTransaction id e w) = Val r -> r_status r = 200 ->
  forall e' w',
    w_db w' = db_after (refundTransaction id) e w ->
    db_after (refundTransaction id) e' w' = w_db w' /\
    exists r', fst (refundTransaction id e' w') = Val r' /\ r_success r' = false /\
               r_status r' <> 200.
Proof.
  intros Hr H200 e' w' Hdb.
  destruct (refund_success id e w r Hr H200) as [now Hrows].
  assert (Hp : forall t, In t (transactions (w_db w')) -> t_id t = id ->
                         t_payment_status t <> "paid").
  { intros t Hin Hid. rewrite Hdb, Hrows in Hin.
    apply update_where_row in Hin. destruct Hin as (t0 & _ & ->).
    destruct (String.eqb (t_id t0) id) eqn:E.
    - discriminate.
    - apply String.eqb_neq in E. now elim E. }
  split; [now apply refund_only_when_paid |].
  assert (Hex : exists r', fst (refundTransaction id e' w') = Val r').
  { unfold refundTransaction. apply handle_answers. }
  destruct Hex as [r' E]. exists r'. split; [exact E |].
  exact (refund_of_unpaid_fails id e' w' r' Hp E).
Qed.

Lemma refund_happens_once_witness :
  let d := db_after (refundTransaction "t1") Sample.env_ok (start Sample.shop_paid) in
  map t_payment_status (transactions d) = ["refunded"] /\
  db_after (refundTransaction "t1") Sample.env_ok (start d) = d.
Proof.
  split; [vm_compute; reflexivity |].
  destruct (fst (refundTransaction "t1" Sample.env_ok (start Sample.shop_paid)))
    as [r | x] eqn:Hr; [| vm_compute in Hr; discriminate Hr].
  assert (H200 : r_status r = 200)
    by (vm_compute in Hr; injection Hr as <-; reflexivity).
  apply (refund_happens_once "t1" Sample.env_ok (start Sample.shop_paid) r Hr H200
           Sample.env_ok
           (start (db_after (refundTransaction "t1") Sample.env_ok (start Sample.shop_paid)))
           eq_refl).
Defined.

(* ------------------------------------------------------------------ *)
(** ** The metadata of a linked transaction *)
(* ------------------------------------------------------------------ *)

Lemma obj_get_set k v obj : obj_get k (obj_set k v obj) = Some v.
Proof.
  induction obj as [| [k' v'] obj IH]; simpl.
  - now rewrite String.eqb_refl.
  - destruct (String.eqb k' k) eqn:E; simpl.
    + now rewrite String.eqb_refl.
    + now rewrite E.
Qed.

Lemma obj_get_set_other k k' v obj :
  k' <> k -> obj_get k' (obj_set k v obj) = obj_get k' obj.
Proof.
  intros Hne. apply String.eqb_neq in Hne.
  induction obj as [| [k0 v0] obj IH]; simpl.
  - rewrite String.eqb_sym. now rewrite Hne.
  - destruct (String.eqb k0 k) eqn:E; simpl.
    + apply String.eqb_eq in E. subst k0.
      rewrite String.eqb_sym. now rewrite Hne.
    + destruct (String.eqb k0 k'); [reflexivity | exact IH].
Qed.

(** X13.  Linking a transaction to an order keeps what its metadata
    held: the metadata after it has the number of the order under
    [order_number] and the name of the customer under [customer_name],
    and under every other key what the transaction had there before. *)
Theorem linking_keeps_metadata (b : create_body) (o : order) (number : string)
    (customer : option string * string) (now : Z) (t : transaction) :
  exists m,
    t_metadata (link_transaction b o number customer (t_metadata t) now t) = Some m /\
    obj_get "order_number" m = Some (MStr number) /\
    obj_get "customer_name" m = Some (MStr (snd customer)) /\
    forall k, k <> "order_number" -> k <> "customer_name" ->
      obj_get k m = match t_metadata t with Some old => obj_get k old | None => None end.
Proof.
  eexists. split; [reflexivity |]. split; [apply obj_get_set |]. split.
  - rewrite obj_get_set_other by discriminate. apply obj_get_set.
  - intros k H1 H2. rewrite !obj_get_set_other by assumption.
    destruct (t_metadata t); reflexivity.
Qed.

(* ------------------------------------------------------------------ *)
(** ** The stock of one item *)
(* ------------------------------------------------------------------ *)





(* ------------------------------------------------------------------ *)
(** ** The products a cancellation may touch *)
(* ------------------------------------------------------------------ *)

Lemma named_by_id items p p' : p_id p' = p_id p -> named_by items p' = named_by items p.
Proof.
  intros H. unfold named_by. induction items as [| item items IH]; [reflexivity |].
  simpl. rewrite IH. f_equal. unfold Db.id_is. now rewrite H.
Qed.

Lemma products_rows_refl items l :
  Forall2 (fun p p' => p_id p' = p_id p /\ p_name p' = p_name p /\
                       (named_by items p = false -> p' = p)) l l.
Proof.
  induction l as [| p l IH]; [constructor |].
  constructor; [repeat split | exact IH].
Qed.

Lemma products_framed_refl items w : products_framed items w w.
Proof. apply products_rows_refl. Qed.

Lemma products_framed_trans items w1 w2 w3 :
  products_framed items w1 w2 -> products_framed items w2 w3 ->
  products_framed items w1 w3.
Proof.
  unfold products_framed.
  generalize (products (w_db w1)) (products (w_db w2)) (products (w_db w3)).
  induction l as [| p l IH]; intros l2 l3 H12 H23.
  - inversion H12; subst. inversion H23; subst. constructor.
  - inversion H12 as [| ? p2 ? l2' (A1 & A2 & A3) Hl]; subst.
    inversion H23 as [| ? p3 ? l3' (B1 & B2 & B3) Hl']; subst.
    constructor; [| eapply IH; eauto].
    repeat split; try congruence.
    intros Hn. rewrite <- (A3 Hn). apply B3.
    now rewrite (named_by_id items p p2 A1).
Qed.

(** A call that leaves the products leaves them framed. *)
Lemma products_framed_kept items w w' :
  products (w_db w') = products (w_db w) -> products_framed items w w'.
Proof.
  intros H. unfold products_framed. rewrite H. apply products_rows_refl.
Qed.

(** Writing the stock of the product of an item of the order. *)
Lemma products_framed_write items item stock in_stock c res w :
  In item items ->
  products_framed items w
    (record c res (snd (Db.restore_stock (oi_product_id item) stock in_stock (w_db w))) w).
Proof.
  intros Hin. unfold products_framed, Db.restore_stock, Db.update_where. simpl.
  induction (products (w_db w)) as [| p l IH]; simpl; constructor; [| exact IH].
  destruct (Db.id_is (oi_product_id item) p) eqn:E; [| auto].
  simpl. repeat split. intros Hn. exfalso.
  unfold named_by in Hn.
  assert (Ht : existsb (fun item0 => Db.id_is (oi_product_id item0) p) items = true).
  { apply existsb_exists. exists item. auto. }
  congruence.
Qed.

Lemma restore_item_framed e items item :
  In item items -> eff e (products_framed items) (restore_item item).
Proof.
  intros Hin. unfold restore_item.
  destruct (_ || _); [apply eff_ret; apply products_framed_refl |].
  apply eff_bind; [intros ? ? ?; apply products_framed_trans | |].
  - apply eff_remote; intros; apply products_framed_kept; reflexivity.
  - intros [p | x]; [| apply eff_ret; apply products_framed_refl].
    cbv zeta.
    apply eff_bind; [intros ? ? ?; apply products_framed_trans | |].
    + apply eff_remote; intros.
      * apply products_framed_kept. reflexivity.
      * now apply products_framed_write.
    + intros. apply eff_ret. apply products_framed_refl.
Qed.

Lemma restore_stock_framed e items :
  eff e (products_framed items) (restore_stock items).
Proof.
  unfold restore_stock. apply eff_try_catch.
  - intros ? ? ?. apply products_framed_trans.
  - apply eff_for_each.
    + apply products_framed_refl.
    + intros ? ? ?. apply products_framed_trans.
    + intros item Hin. now apply restore_item_framed.
  - intros. apply eff_ret. apply products_framed_refl.
Qed.

Ltac leaf_products_kept :=
  apply products_framed_kept; autounfold with dbs; simpl; break_matches; reflexivity.

Ltac products_go items :=
  eff_go ltac:(apply restore_stock_framed)
    (products_framed_refl items) (products_framed_trans items) leaf_products_kept.

(** X15.  [cancelOrder] and [updateOrderStatus] add no product, remove
    none and rename none, and they leave as it is every product that no
    item of the order names: restoring stock touches the products of the
    items of the order only. *)
Theorem cancellation_touches_ordered_products_only (id : string) (e : env) (w : world) :
  (forall b,
      products_framed (Db.items_of_order id (w_db w)) w (snd (cancelOrder id b e w))) /\
  (forall b,
      products_framed (Db.items_of_order id (w_db w)) w
        (snd (updateOrderStatus id b e w))).
Proof.
  set (items := Db.items_of_order id (w_db w)).
  assert (Hsel : forall v w1,
             select_order id e w = (Val (PgData (Some v)), w1) -> v_items v = items).
  { intros v w1 H. destruct (select_order_row _ _ _ _ _ H) as (_ & Hid & ->).
    simpl. now rewrite Hid. }
  split; intros b.
  - unfold cancelOrder, handle.
    apply try_catch_at;
      [apply products_framed_trans | | intros; products_go items].
    apply bind_at; [apply products_framed_trans | by_eff ltac:(products_go items) |].
    intros [[v |] | x] w1 H;
      [| by_eff ltac:(products_go items) | by_eff ltac:(products_go items)].
    cbv zeta. rewrite (Hsel _ _ H).
    by_eff ltac:(products_go items).
  - unfold updateOrderStatus, handle.
    apply try_catch_at;
      [apply products_framed_trans | | intros; products_go items].
    apply bind_at; [apply products_framed_trans | by_eff ltac:(products_go items) |].
    intros [[v |] | x] w1 H;
      [| by_eff ltac:(products_go items) | by_eff ltac:(products_go items)].
    cbv zeta. rewrite (Hsel _ _ H).
    by_eff ltac:(products_go items).
Qed.


(* ------------------------------------------------------------------ *)
(** ** Reading orders *)
(* ------------------------------------------------------------------ *)

Import OrderQueries.

Lemma query_run {A} (sem : db -> pg A) e w :
  query sem e w =
  match e_reply e (w_tick w) with
  | Done => (Val (sem (w_db w)), asked w)
  | Refused x => (Val (PgError x), asked w)
  | Raised x => (Exn x, asked w)
  end.
Proof. reflexivity. Qed.

(** A successful request, with the order it inserted and its items. *)
Lemma createOrder_inserts_fresh b e w r :
  fst (createOrder b e w) = Val r -> r_status r = 200 ->
  exists items da number n o,
    c_order_items b = Some items /\ c_delivery_address b = Some da /\
    o = orderInsertData e n b items da number /\
    r_data r = OrderData o /\
    Db.order_by_id (o_id o) (w_db w) = [] /\
    orders (db_after (createOrder b) e w) = orders (w_db w) ++ [o] /\
    order_items (db_after (createOrder b) e w)
    = order_items (w_db w) ++ orderItems (o_id o) items /\
    users (db_after (createOrder b) e w) = users (w_db w).
Proof.
  intros Hr H200. unfold db_after.
  destruct (createOrder b e w) as [[r' | x] w'] eqn:Hrun; simpl in Hr; [| discriminate].
  injection Hr as ->.
  destruct (createOrder_success b e w r w' Hrun H200)
    as (items & da & number & w2 & o & w3 & w4 & w5 &
        Hitems & _ & Hda & _ & Hnum & _ & _ & Hins & Hrows & Hstock & Hafter).
  exists items, da, number, (w_tick w2), o.
  apply insert_order_data in Hins. destruct Hins as (Ho & Hw3 & Hfresh).
  apply insert_order_items_done in Hrows.
  pose proof (final_order_number_keeps e b
                (record (SelectProductsIn (validProductIds (map it_product_id items))) Ok
                   (w_db w) w)) as K2.
  rewrite Hnum in K2. unfold keeps in K2. simpl in K2.
  assert (K5 : (orders (w_db w5), order_items (w_db w5), users (w_db w5))
               = (orders (w_db w4), order_items (w_db w4), users (w_db w4))).
  { change (keeps (fun d => (orders d, order_items d, users d)) w4 w5).
    replace w5 with (snd (decrement_stock b items e w4)) by now rewrite Hstock.
    by_eff ltac:(keeps_go no_lemma (fun d : db => (orders d, order_items d, users d))). }
  assert (K6 : (orders (w_db w'), order_items (w_db w'), users (w_db w'))
               = (orders (w_db w5), order_items (w_db w5), users (w_db w5))).
  { change (keeps (fun d => (orders d, order_items d, users d)) w5 w').
    replace w' with (snd (after_stock b items o number (shippingAddress b da) e w5))
      by now rewrite Hafter.
    by_eff ltac:(keeps_go no_lemma (fun d : db => (orders d, order_items d, users d))). }
  injection K5 as K5o K5i K5u. injection K6 as K6o K6i K6u.
  repeat split; try assumption.
  - apply after_stock_answer in Hafter. now rewrite Hafter.
  - unfold Db.order_by_id in *. now rewrite <- K2.
  - simpl. rewrite K6o, K5o, Hrows, Hw3. simpl. now rewrite K2.
  - simpl. rewrite K6i, K5i, Hrows, Hw3. simpl. now rewrite K2.
  - simpl. rewrite K6u, K5u, Hrows, Hw3. simpl. now rewrite K2.
Qed.

Lemma items_of_new_order id items :
  filter (fun i => String.eqb (oi_order_id i) id) (orderItems id items)
  = orderItems id items.
Proof.
  unfold orderItems. induction items as [| item items IH]; [reflexivity |].
  simpl. rewrite String.eqb_refl. now rewrite IH.
Qed.

(** X16.  An order that [createOrder] has created is read back by
    [getOrderById]: on the database the request left, the lookup by the
    id of the order returns that order with the items of the request,
    and with [is_pre_order] true exactly when the request, or its
    delivery address, said so. *)
Theorem created_order_is_read_back (b : create_body) (e : env) (w : world)
    (r : response) (o : order) :
  fst (createOrder b e w) = Val r -> r_status r = 200 -> r_data r = OrderData o ->
  Db.items_of_order (o_id o) (w_db w) = [] ->
  forall e' w',
    w_db w' = db_after (createOrder b) e w ->
    e_reply e' (w_tick w') = Done ->
    exists items da j,
      c_order_items b = Some items /\ c_delivery_address b = Some da /\
      fst (getOrderById (o_id o) e' w') = Val (found j) /\
      v_order (j_view j) = o /\
      v_items (j_view j) = orderItems (o_id o) items /\
      j_is_pre_order j = (c_is_pre_order b || a_is_pre_order da).
Proof.
  intros Hr H200 Hdata Hstray e' w' Hdb Hreply.
  destruct (createOrder_inserts_fresh b e w r Hr H200)
    as (items & da & number & n & o' & Hitems & Hda & Ho & Hdata' & Hfresh & Horders
        & Hrows & _).
  assert (E : o' = o) by congruence. subst o. rename o' into o.
  exists items, da. eexists. split; [exact Hitems |]. split; [exact Hda |].
  unfold getOrderById, caught. rewrite try_catch_run, bind_run, query_run, Hreply.
  assert (Hone : Db.order_by_id (o_id o) (w_db w') = [o]).
  { unfold Db.order_by_id in *. rewrite Hdb, Horders, filter_app, Hfresh.
    simpl. now rewrite String.eqb_refl. }
  rewrite Hone. cbn [Db.single pg_map fst snd].
  split; [reflexivity |]. cbn [j_view with_pre_order_fields view v_order v_items].
  split; [reflexivity |]. split.
  - unfold Db.items_of_order in *. rewrite Hdb, Hrows, filter_app, Hstray.
    apply items_of_new_order.
  - cbn [j_is_pre_order with_pre_order_fields v_order view]. rewrite Ho.
    unfold is_pre_order_of, orderInsertData, with_payment_reference, shippingAddress.
    cbn [o_is_pre_order o_shipping_address a_is_pre_order orb].
    destruct (c_is_pre_order b); reflexivity.
Qed.

Lemma created_order_is_read_back_witness :
  exists j,
    fst (getOrderById "row-2" Sample.env_ok
           (start (db_after (createOrder (Sample.request true None)) Sample.env_ok
                     (start Sample.shop)))) = Val (found j) /\
    j_is_pre_order j = true /\ List.length (v_items (j_view j)) = 1.
Proof.
  destruct (fst (createOrder (Sample.request true None) Sample.env_ok (start Sample.shop)))
    as [r | x] eqn:Hr; [| vm_compute in Hr; discriminate Hr].
  assert (H200 : r_status r = 200)
    by (vm_compute in Hr; injection Hr as <-; reflexivity).
  destruct (r_data r) as [| o |] eqn:Hdata;
    try (vm_compute in Hr; injection Hr as <-; discriminate Hdata).
  assert (Hid : o_id o = "row-2").
  { vm_compute in Hr. injection Hr as <-. injection Hdata as <-. reflexivity. }
  destruct (created_order_is_read_back (Sample.request true None) Sample.env_ok
              (start Sample.shop) r o Hr H200 Hdata)
    with (e' := Sample.env_ok)
         (w' := start (db_after (createOrder (Sample.request true None)) Sample.env_ok
                         (start Sample.shop)))
    as (items & da & j & Hitems & Hda & Hj & _ & Hrows & Hpre).
  - rewrite Hid. reflexivity.
  - reflexivity.
  - reflexivity.
  - exists j. rewrite <- Hid. split; [exact Hj |].
    injection Hitems as <-. injection Hda as <-.
    split; [exact Hpre | now rewrite Hrows].
Defined.

Lemma emailMatches_owner lower d o email :
  emailMatches lower (view d o) email = true -> owner_email lower d o email.
Proof.
  unfold emailMatches, owner_email. cbn [v_user v_order view].
  intros H. apply orb_prop in H. destruct H as [H | H].
  - destruct (joined_user o d) as [u |] eqn:Hu; [| discriminate].
    destruct (u_email u) as [stored |] eqn:Hs; [| discriminate].
    simpl in H. apply String.eqb_eq in H. exists stored. split; [| exact H].
    right. exists u. auto.
  - destruct (address_email (o_shipping_address o)) as [stored |] eqn:Hs; [| discriminate].
    simpl in H. apply String.eqb_eq in H. exists stored. split; [| exact H]. now left.
Qed.

(** The answer of [trackOrder] to a request with a key and an email, by
    the outcome of its lookups. *)
Lemma trackOrder_run b e w key email :
  tr_order_number_or_id b = Some key -> tr_email b = Some email ->
  key <> "" -> email <> "" ->
  let d := w_db w in
  let shown o :=
    if emailMatches (e_toLowerCase e) (view d o) email
    then found (with_pre_order_fields (view d o)) else not_found in
  let lookup rows (otherwise : answer order_json) :=
    match rows with
    | [] => otherwise
    | [o] => shown o
    | _ => failed 500 "Failed to fetch order" (err_message Db.not_one_row)
    end in
  fst (trackOrder b e w)
  = Val match e_reply e (w_tick w) with
        | Done =>
            lookup (order_by_number key d)
              match e_reply e (S (w_tick w)) with
              | Done => lookup (Db.order_by_id key d) not_found
              | Refused x => failed 500 "Failed to fetch order" (err_message x)
              | Raised x => failed 500 "Failed to track order" (Some (message_of x))
              end
        | Refused x => failed 500 "Failed to fetch order" (err_message x)
        | Raised x => failed 500 "Failed to track order" (Some (message_of x))
        end.
Proof.
  intros Hkey Hemail Hk He d shown lookup.
  assert (Ht : forall s, s <> "" -> Js.truthy_str (Some s) = true).
  { intros [| c s] H; [now elim H | reflexivity]. }
  unfold trackOrder, caught. rewrite try_catch_run, Hkey, Hemail.
  rewrite (Ht _ Hk), (Ht _ He). cbn [negb orb].
  rewrite bind_run. unfold select_maybe at 1. rewrite query_run.
  destruct (e_reply e (w_tick w)) as [| x | x]; [| reflexivity | reflexivity].
  fold d. unfold lookup, shown.
  destruct (order_by_number key d) as [| o [| o' l]].
  - cbn [Db.maybe_single pg_map option_map]. rewrite bind_run.
    unfold select_maybe. rewrite query_run. cbn [asked w_tick w_db].
    destruct (e_reply e (S (w_tick w))) as [| x | x]; [| reflexivity | reflexivity].
    fold d. destruct (Db.order_by_id key d) as [| o [| o' l]].
    + reflexivity.
    + cbn [Db.maybe_single pg_map option_map fst snd bind ask].
      destruct (emailMatches (e_toLowerCase e) (view d o) email); reflexivity.
    + reflexivity.
  - cbn [Db.maybe_single pg_map option_map]. rewrite bind_run. cbn [ret fst snd bind ask].
    destruct (emailMatches (e_toLowerCase e) (view d o) email); reflexivity.
  - reflexivity.
Qed.

(** X17.  [trackOrder] shows an order only to the holder of one of its
    emails: an answer 200 carries an order of the table whose number or
    id is the key given, and the email given is, after [toLowerCase] and
    [trim], the email of its user or of its shipping address after
    [toLowerCase].  For an email that belongs to no order of the table, when the
    lookups are carried out and find at most one order each, the answer
    is the answer [Order not found] of an order that does not exist. *)
Theorem trackOrder_answers_the_owner_only (b : track_body) (e : env) (w : world)
    (key email : string) :
  tr_order_number_or_id b = Some key -> tr_email b = Some email ->
  key <> "" -> email <> "" ->
  (forall r,
      fst (trackOrder b e w) = Val r -> q_status r = 200 ->
      exists o,
        q_data r = Some (with_pre_order_fields (view (w_db w) o)) /\
        In o (orders (w_db w)) /\
        (o_order_number o = Some key \/ o_id o = key) /\
        owner_email (e_toLowerCase e) (w_db w) o email) /\
  ((forall o, In o (orders (w_db w)) -> emailMatches (e_toLowerCase e) (view (w_db w) o) email = false) ->
   e_reply e (w_tick w) = Done -> e_reply e (S (w_tick w)) = Done ->
   List.length (order_by_number key (w_db w)) <= 1 ->
   List.length (Db.order_by_id key (w_db w)) <= 1 ->
   fst (trackOrder b e w) = Val not_found).
Proof.
  intros Hkey Hemail Hk He.
  rewrite (trackOrder_run b e w key email Hkey Hemail Hk He). cbv zeta.
  assert (Hnum : forall o, In o (order_by_number key (w_db w)) ->
                           In o (orders (w_db w)) /\ o_order_number o = Some key).
  { intros o H. unfold order_by_number in H. apply filter_In in H.
    destruct H as [Hin Hn]. split; [exact Hin |].
    destruct (o_order_number o); [| discriminate].
    apply String.eqb_eq in Hn. now subst. }
  assert (Hid : forall o, In o (Db.order_by_id key (w_db w)) ->
                          In o (orders (w_db w)) /\ o_id o = key).
  { intros o H. unfold Db.order_by_id in H. apply filter_In in H.
    destruct H as [Hin Hn]. split; [exact Hin |]. now apply String.eqb_eq in Hn. }
  assert (Hshown : forall o r,
             In o (orders (w_db w)) -> (o_order_number o = Some key \/ o_id o = key) ->
             Val (if emailMatches (e_toLowerCase e) (view (w_db w) o) email
                  then found (with_pre_order_fields (view (w_db w) o)) else not_found)
             = Val r ->
             q_status r = 200 ->
             exists o0,
               q_data r = Some (with_pre_order_fields (view (w_db w) o0)) /\
               In o0 (orders (w_db w)) /\
               (o_order_number o0 = Some key \/ o_id o0 = key) /\
               owner_email (e_toLowerCase e) (w_db w) o0 email).
  { intros o r Hin Hkey' Hr H200.
    destruct (emailMatches (e_toLowerCase e) (view (w_db w) o) email) eqn:Hm; injection Hr as <-;
      [| discriminate H200].
    exists o. repeat split; try assumption. now apply emailMatches_owner. }
  split.
  - intros r.
    destruct (e_reply e (w_tick w)) as [| x | x];
      [| intros [= <-]; discriminate | intros [= <-]; discriminate].
    destruct (order_by_number key (w_db w)) as [| o [| o' l]] eqn:E1.
    + destruct (e_reply e (S (w_tick w))) as [| x | x];
        [| intros [= <-]; discriminate | intros [= <-]; discriminate].
      destruct (Db.order_by_id key (w_db w)) as [| o [| o' l]] eqn:E2;
        try (intros [= <-]; discriminate).
      destruct (Hid o) as [Hin Hkey']; [now left |].
      apply Hshown; auto.
    + destruct (Hnum o) as [Hin Hkey']; [now left |].
      apply Hshown; auto.
    + intros [= <-]. discriminate.
  - intros Hnone -> -> Hl1 Hl2.
    destruct (order_by_number key (w_db w)) as [| o [| o' l]] eqn:E1;
      [| | simpl in Hl1; lia].
    + destruct (Db.order_by_id key (w_db w)) as [| o [| o' l]] eqn:E2;
        [reflexivity | | simpl in Hl2; lia].
      destruct (Hid o) as [Hin _]; [now left |]. now rewrite (Hnone o Hin).
    + destruct (Hnum o) as [Hin _]; [now left |]. now rewrite (Hnone o Hin).
Qed.

Lemma trackOrder_answers_the_owner_only_witness :
  fst (trackOrder (Sample7.ask_for "ORD-001021126" "kofi@example.com") Sample.env_ok
         (start (Sample.shop_with (Sample.stored "pending" false false))))
  = Val not_found /\
  option_map q_status
    (match fst (trackOrder (Sample7.ask_for "ORD-001021126" " Ama@Example.COM ")
                  Sample.env_ok
                  (start (Sample.shop_with (Sample.stored "pending" false false)))) with
     | Val r => Some r
     | Exn _ => None
     end) = Some 200.
Proof.
  split; [| vm_compute; reflexivity].
  apply (proj2 (trackOrder_answers_the_owner_only
                  (Sample7.ask_for "ORD-001021126" "kofi@example.com") Sample.env_ok
                  (start (Sample.shop_with (Sample.stored "pending" false false)))
                  "ORD-001021126" "kofi@example.com" eq_refl eq_refl
                  ltac:(discriminate) ltac:(discriminate))).
  - intros o [<- | []]. reflexivity.
  - reflexivity.
  - reflexivity.
  - simpl. lia.
  - simpl. lia.
Defined.


(* ------------------------------------------------------------------ *)
(** ** Banners *)
(* ------------------------------------------------------------------ *)

Import BannerController.

Lemma banner_updated_refl id u r : banner_updated id u r r.
Proof. unfold banner_updated, kept_unless_sent. repeat split. Qed.

Lemma banner_updated_apply id u r :
  bn_id r = id -> banner_updated id u r (apply_update (cleanUpdates u) r).
Proof.
  intros Hid. unfold banner_updated, kept_unless_sent.
  split; [reflexivity |]. split; [intros H; now elim H |].
  repeat split; intros; simpl;
    repeat match goal with
           | H : _ = Missing |- _ => rewrite H; clear H
           end;
    reflexivity.
Qed.

Lemma banners_updated id u rows :
  Forall2 (banner_updated id u) rows
    (Db.update_where (with_id id) (apply_update (cleanUpdates u)) rows).
Proof.
  unfold Db.update_where. induction rows as [| r rows IH]; [constructor |].
  simpl. constructor; [| exact IH].
  destruct (with_id id r) eqn:E; [| apply banner_updated_refl].
  apply banner_updated_apply. now apply String.eqb_eq in E.
Qed.

Lemma banners_same id u rows : Forall2 (banner_updated id u) rows rows.
Proof. induction rows; constructor; auto using banner_updated_refl. Qed.

Lemma clean_text_color_written v c :
  clean_text_color v = Some (Some c) -> c <> "" /\ c <> "null" /\ c <> "undefined".
Proof.
  unfold clean_text_color. destruct v as [| | s]; try discriminate.
  destruct (String.eqb (Js.trim s) "") eqn:E1; [discriminate |].
  destruct (String.eqb (Js.trim s) "null") eqn:E2; [discriminate |].
  destruct (String.eqb (Js.trim s) "undefined") eqn:E3; [discriminate |].
  intros [= <-]. apply String.eqb_neq in E1, E2, E3. auto.
Qed.

(** X18.  [updateBanner] changes the banner of the id only, and of it
    only the columns whose keys the request sends: the banners are the
    same, row by row, under the same ids, the others exactly as before.
    For an id without a banner it fails and leaves the table, and it
    never answers 404.  When [link_url] is sent it is what [link]
    becomes, whatever [link] says; and the colour written is never empty,
    [null] or [undefined] as a string. *)
Theorem updateBanner_changes_what_is_sent (id : string) (u : banner_body)
    (outcome : reply) (fresh : string) (rows : list banner) :
  let result := updateBanner id u outcome fresh rows in
  Forall2 (banner_updated id u) rows (snd result) /\
  ba_status (fst result) <> Some 404 /\
  (filter (with_id id) rows = [] ->
   ba_success (fst result) = false /\ snd result = rows) /\
  (forall r, outcome = Done -> filter (with_id id) rows = [r] ->
   exists r',
     ba_data (fst result) = Some r' /\ In r' (snd result) /\ bn_id r' = id /\
     (forall s, bb_link_url u = Given s -> bn_link r' = Some s) /\
     (bb_text_color u <> Missing ->
      bn_text_color r' = None \/
      exists c, bn_text_color r' = Some c /\ c <> "" /\ c <> "null" /\ c <> "undefined")).
Proof.
  cbv zeta. unfold updateBanner, update_single.
  destruct outcome as [| x | x]; cbn [fst snd].
  - destruct (filter (with_id id) rows) as [| r [| r2 l]] eqn:E; cbn [fst snd].
    + repeat split; try discriminate. apply banners_same.
    + split; [apply banners_updated |]. split; [discriminate |].
      split; [discriminate |].
      intros r0 _ [= <-]. eexists. split; [reflexivity |].
      destruct (filter_single_in _ _ _ E) as [Hin Hid].
      split.
      { unfold Db.update_where. apply in_map_iff. exists r. rewrite Hid. auto. }
      split; [now apply String.eqb_eq in Hid |].
      split.
      * intros s Hs. cbn [bn_link apply_update cleanUpdates up_link]. rewrite Hs.
        reflexivity.
      * intros Hsent. cbn [bn_text_color apply_update cleanUpdates up_text_color].
        destruct (clean_text_color (bb_text_color u)) as [[c |] |] eqn:Hc.
        -- right. exists c. split; [reflexivity |].
           now apply clean_text_color_written with (v := bb_text_color u).
        -- now left.
        -- exfalso. apply Hsent. unfold clean_text_color in Hc.
           destruct (bb_text_color u) as [| | s]; try discriminate; [reflexivity |].
           destruct (_ && _); discriminate.
    + repeat split; try discriminate. apply banners_same.
  - repeat split; try discriminate; try reflexivity. apply banners_same.
  - repeat split; try discriminate; try reflexivity. apply banners_same.
Qed.

Lemma updateBanner_changes_what_is_sent_witness :
  exists r',
    ba_data (fst (updateBanner "b1" Sample8.two_links Done "b3"
                    [Sample8.sale; Sample8.new_phones])) = Some r' /\
    bn_link r' = Some "/new" /\ bn_title r' = Some "Sale" /\ bn_text_color r' = None.
Proof.
  destruct (proj2 (proj2 (proj2
              (updateBanner_changes_what_is_sent "b1" Sample8.two_links Done "b3"
                 [Sample8.sale; Sample8.new_phones]))) Sample8.sale eq_refl eq_refl)
    as (r' & Hdata & _ & _ & Hlink & _).
  exists r'. split; [exact Hdata |]. split; [now apply Hlink |].
  vm_compute in Hdata. injection Hdata as <-. split; reflexivity.
Defined.

(** X19.  [deleteBanner] removes the banners of the id and no other, in
    place; for an id without a banner it answers success all the same
    and the table is as before; and a banner that [createBanner] has just
    added under a new id is removed again by it, which leaves the table
    as it was before the two. *)
Theorem deleteBanner_removes_the_banner (id : string) (fresh : string)
    (rows : list banner) :
  let result := deleteBanner id Done fresh rows in
  ba_success (fst result) = true /\
  (forall r, In r (snd result) <-> In r rows /\ bn_id r <> id) /\
  (filter (with_id id) rows = [] -> snd result = rows) /\
  snd (deleteBanner id Done fresh (snd result)) = snd result /\
  (forall b,
      filter (with_id id) rows = [] ->
      ba_success (fst (createBanner b Done id rows)) = true /\
      snd (deleteBanner id Done fresh (snd (createBanner b Done id rows))) = rows).
Proof.
  cbv zeta. unfold deleteBanner. cbn [fst snd].
  assert (Hnone : forall l, filter (with_id id) l = [] ->
                            filter (fun row => negb (with_id id row)) l = l).
  { induction l as [| r l IH]; [reflexivity |]. simpl.
    destruct (with_id id r); [discriminate |]. intros H. simpl. now rewrite IH. }
  split; [reflexivity |]. split; [| split; [| split]].
  - intros r. rewrite filter_In. unfold with_id.
    split; intros [Hin H]; (split; [exact Hin |]).
    + apply negb_true_iff in H. now apply String.eqb_neq in H.
    + apply negb_true_iff. now apply String.eqb_neq.
  - apply Hnone.
  - apply Hnone. induction rows as [| r l IH]; [reflexivity |]. simpl.
    destruct (with_id id r) eqn:E; simpl; [exact IH |]. now rewrite E.
  - intros b Hfree. unfold createBanner.
    assert (Hex : existsb (with_id id) rows = false).
    { induction rows as [| r l IH]; [reflexivity |]. simpl in *.
      destruct (with_id id r); [discriminate |]. now apply IH. }
    rewrite Hex. cbn [fst snd]. split; [reflexivity |].
    rewrite filter_app. cbn [filter cleanBannerData with_id bn_id].
    unfold with_id. cbn [bn_id]. rewrite String.eqb_refl. cbn [negb].
    rewrite app_nil_r. now apply Hnone.
Qed.

Lemma deleteBanner_removes_the_banner_witness :
  snd (deleteBanner "b9" Done "b3" [Sample8.sale; Sample8.new_phones])
  = [Sample8.sale; Sample8.new_phones] /\
  snd (deleteBanner "b1" Done "b3" [Sample8.sale; Sample8.new_phones])
  = [Sample8.new_phones].
Proof.
  split; [| reflexivity].
  apply (proj1 (proj2 (proj2 (deleteBanner_removes_the_banner "b9" "b3"
                                [Sample8.sale; Sample8.new_phones])))).
  reflexivity.
Defined.






(* ------------------------------------------------------------------ *)
(** ** Marketing emails *)
(* ------------------------------------------------------------------ *)

Import EmailService.

Lemma select_user_data r rows userId u :
  select_user r rows userId = Val (PgData u) <->
  r = Done /\ by_id userId rows = [u].
Proof.
  unfold select_user, Db.single. split.
  - destruct r; try discriminate.
    destruct (by_id userId rows) as [| a [| b l]]; try discriminate.
    intros H. injection H as ->. auto.
  - intros [-> ->]. reflexivity.
Qed.

Lemma subscribed_when_sent s n rows userId t :
  t <> transactional ->
  (shouldSendEmail s n rows userId t = true <->
   s_reply s n = Done /\
   exists u, by_id userId rows = [u] /\ sb_newsletter_subscribed u = Some true).
Proof.
  intros Ht.
  assert (E : shouldSendEmail s n rows userId t =
              newsletter_subscribed (getUserPreferences s n rows userId))
    by (destruct t; [congruence | reflexivity | reflexivity]).
  rewrite E. unfold getUserPreferences.
  destruct (select_user (s_reply s n) rows userId) as [[u | x] | x] eqn:Hsel.
  - apply select_user_data in Hsel. destruct Hsel as [Hr Hu]. simpl. split.
    + intros H. split; [exact Hr |]. exists u. split; [exact Hu |].
      destruct (sb_newsletter_subscribed u) as [[|] |]; simpl in H; congruence.
    + intros [_ [v [Hv Hs]]]. assert (v = u) by congruence. subst v.
      rewrite Hs. reflexivity.
  - simpl. split; [discriminate |]. intros [Hr [v [Hv _]]].
    assert (Hd : select_user (s_reply s n) rows userId = Val (PgData v))
      by (apply select_user_data; auto).
    congruence.
  - simpl. split; [discriminate |]. intros [Hr [v [Hv _]]].
    assert (Hd : select_user (s_reply s n) rows userId = Val (PgData v))
      by (apply select_user_data; auto).
    congruence.
Qed.

Lemma picked_subscriber {I} s n rows userId t (u : subscriber) (m : mail I) :
  t <> transactional ->
  shouldSendEmail s n rows userId t = true ->
  select_user (s_reply s (S n)) rows userId = Val (PgData u) ->
  m_to m = sb_email u ->
  for_subscriber rows userId m.
Proof.
  intros Ht Hs Hsel Hto.
  apply subscribed_when_sent in Hs; [| exact Ht].
  destruct Hs as [_ [v [Hv Hsub]]].
  apply select_user_data in Hsel. destruct Hsel as [_ Hu].
  assert (v = u) by congruence. subst v.
  exists u. auto.
Qed.

Ltac none_sent :=
  solve [simpl; split; [lia | intros ? H; exact (match H with end)]].

Lemma marketing_mail_for_subscriber {I} s n rows userId (ms : list (mail I)) :
  marketing_mails s n rows userId ms ->
  (List.length ms <= 1)%nat /\
  forall m, In m ms ->
    s_isEnabled s "email_notifications_enabled" = Val true /\
    for_subscriber rows userId m /\
    m_useSupportEmail m = false.
Proof.
  intros [subject content | items | items].
  - unfold sendNewsletter.
    destruct (s_isEnabled s "email_notifications_enabled") as [[|] | x] eqn:He;
      try none_sent.
    destruct (shouldSendEmail s n rows userId newsletter) eqn:Hs;
      try none_sent.
    simpl negb. cbv iota.
    destruct (select_user (s_reply s (S n)) rows userId) as [[u | x] | x] eqn:Hsel;
      try none_sent.
    simpl. split; [lia |]. intros m [<- | []]. split; [reflexivity |].
    split; [| reflexivity].
    apply (picked_subscriber s n rows userId newsletter u); [discriminate | exact Hs | exact Hsel | reflexivity].
  - unfold sendWishlistReminder.
    destruct (s_isEnabled s "email_notifications_enabled") as [[|] | x] eqn:He;
      try none_sent.
    destruct (s_isEnabled s "email_wishlist_reminders") as [[|] | x];
      try none_sent.
    destruct (shouldSendEmail s n rows userId marketing) eqn:Hs;
      try none_sent.
    simpl negb. cbv iota.
    destruct (select_user (s_reply s (S n)) rows userId) as [[u | x] | x] eqn:Hsel;
      try none_sent.
    destruct (s_readFileSync s "wishlist-reminder.html");
      try none_sent.
    simpl. split; [lia |]. intros m [<- | []]. split; [reflexivity |].
    split; [| reflexivity].
    apply (picked_subscriber s n rows userId marketing u); [discriminate | exact Hs | exact Hsel | reflexivity].
  - unfold sendCartAbandonmentReminder.
    destruct (s_isEnabled s "email_notifications_enabled") as [[|] | x] eqn:He;
      try none_sent.
    destruct (s_isEnabled s "email_cart_abandonment") as [[|] | x];
      try none_sent.
    destruct (shouldSendEmail s n rows userId marketing) eqn:Hs;
      try none_sent.
    simpl negb. cbv iota.
    destruct (select_user (s_reply s (S n)) rows userId) as [[u | x] | x] eqn:Hsel;
      try none_sent.
    destruct (s_readFileSync s "cart-abandonment.html");
      try none_sent.
    simpl. split; [lia |]. intros m [<- | []]. split; [reflexivity |].
    split; [| reflexivity].
    apply (picked_subscriber s n rows userId marketing u); [discriminate | exact Hs | exact Hsel | reflexivity].
Qed.

(** X21. A newsletter, a wishlist reminder or a cart reminder is handed
    to Resend only when email notifications are enabled in the settings
    and [users] has exactly one row with the given id, whose
    [newsletter_subscribed] is [true]; it is addressed to the email of
    that row and sent from the no-reply address. *)
Theorem marketing_mail_needs_subscription {I} (s : surroundings) (n : nat)
    (rows : list subscriber) (userId subject content : string) (items : list I)
    (m : mail I) :
  In m (snd (sendNewsletter s n rows userId subject content)) \/
  In m (snd (sendWishlistReminder s n rows userId items)) \/
  In m (snd (sendCartAbandonmentReminder s n rows userId items)) ->
  s_isEnabled s "email_notifications_enabled" = Val true /\
  for_subscriber rows userId m /\
  m_useSupportEmail m = false.
Proof.
  intros [H | [H | H]];
    (eapply marketing_mail_for_subscriber; [| exact H]); constructor.
Qed.

Lemma marketing_mail_needs_subscription_witness :
  let m : mail nat :=
    {| m_to := Some "ama@example.com";
       m_subject := "Items in your wishlist are waiting!";
       m_html := Template "wishlist-reminder.html" "Ama" [7];
       m_useSupportEmail := false |} in
  let rows := [Sample9.kofi; Sample9.ama None (Some true)] in
  snd (sendWishlistReminder Sample9.all_well 0 rows "u-1" [7]) = [m] /\
  for_subscriber rows "u-1" m.
Proof.
  intros m rows. split; [reflexivity |].
  apply (marketing_mail_needs_subscription Sample9.all_well 0 rows "u-1" "" "" [7] m).
  right. left. simpl. left. reflexivity.
Defined.

Lemma by_id_same userId rows rows' :
  Forall2 same_but_notifications rows rows' ->
  Forall2 same_but_notifications (by_id userId rows) (by_id userId rows').
Proof.
  unfold by_id. induction 1 as [| u v l l' Huv _ IH]; simpl; [constructor |].
  destruct Huv as [Hid Hrest]. rewrite <- Hid.
  destruct (String.eqb (sb_id u) userId); [| exact IH].
  constructor; [split; assumption | exact IH].
Qed.

(** The two lookups end alike, with rows that differ at most in the
    notification columns. *)
Lemma select_user_same r userId rows rows' :
  Forall2 same_but_notifications rows rows' ->
  (exists u v, select_user r rows userId = Val (PgData u) /\
               select_user r rows' userId = Val (PgData v) /\
               same_but_notifications u v) \/
  (select_user r rows userId = select_user r rows' userId /\
   forall u, select_user r rows userId <> Val (PgData u)).
Proof.
  intros H. apply (by_id_same userId) in H.
  unfold select_user, Db.single. destruct r; try (right; split; [reflexivity | discriminate]).
  destruct H as [| u v l l' Huv Hl]; [right; split; [reflexivity | discriminate] |].
  destruct Hl; [| right; split; [reflexivity | discriminate]].
  left. exists u, v. auto.
Qed.

Lemma subscribed_same s n userId rows rows' t :
  t <> transactional ->
  Forall2 same_but_notifications rows rows' ->
  shouldSendEmail s n rows userId t = shouldSendEmail s n rows' userId t.
Proof.
  intros Ht H.
  assert (E : forall l, shouldSendEmail s n l userId t =
                        newsletter_subscribed (getUserPreferences s n l userId))
    by (intros l; destruct t; [congruence | reflexivity | reflexivity]).
  rewrite !E. unfold getUserPreferences.
  destruct (select_user_same (s_reply s n) userId rows rows' H)
    as [[u [v [-> [-> Huv]]]] | [<- _]]; [| reflexivity].
  simpl. destruct Huv as [_ [_ [_ [_ ->]]]]. reflexivity.
Qed.

Lemma customerName_same u v :
  same_but_notifications u v -> customerName u = customerName v.
Proof.
  intros [_ [_ [Hf [Hl _]]]]. unfold customerName. rewrite Hf, Hl. reflexivity.
Qed.

(** X22. The marketing methods never read [email_notifications] or
    [sms_notifications]: on two tables whose rows differ at most in
    these columns, a newsletter, a wishlist reminder and a cart reminder
    give the same result and the same emails.  So a user who has turned
    email notifications off and is subscribed to the newsletter still
    gets them. *)
Theorem marketing_ignores_email_notifications {I} (s : surroundings) (n : nat)
    (rows rows' : list subscriber) (userId subject content : string)
    (items : list I) :
  Forall2 same_but_notifications rows rows' ->
  @sendNewsletter I s n rows userId subject content =
    sendNewsletter s n rows' userId subject content /\
  sendWishlistReminder s n rows userId items =
    sendWishlistReminder s n rows' userId items /\
  sendCartAbandonmentReminder s n rows userId items =
    sendCartAbandonmentReminder s n rows' userId items.
Proof.
  intros H.
  pose proof (subscribed_same s n userId rows rows' newsletter ltac:(discriminate) H) as Hn.
  pose proof (subscribed_same s n userId rows rows' marketing ltac:(discriminate) H) as Hm.
  unfold sendNewsletter, sendWishlistReminder, sendCartAbandonmentReminder.
  rewrite Hn, Hm.
  destruct (select_user_same (s_reply s (S n)) userId rows rows' H)
    as [[u [v [-> [-> Huv]]]] | [<- _]]; [| repeat split].
  rewrite (customerName_same u v Huv).
  destruct Huv as [_ [-> _]]. repeat split.
Qed.

Lemma marketing_ignores_email_notifications_witness :
  sendWishlistReminder Sample9.all_well 0 [Sample9.ama (Some false) (Some true)] "u-1" [7] =
  sendWishlistReminder Sample9.all_well 0 [Sample9.ama (Some true) (Some true)] "u-1" [7] /\
  List.length (snd (sendWishlistReminder Sample9.all_well 0
                      [Sample9.ama (Some false) (Some true)] "u-1" [7])) = 1%nat.
Proof.
  split; [| reflexivity].
  apply (marketing_ignores_email_notifications Sample9.all_well 0
           [Sample9.ama (Some false) (Some true)] [Sample9.ama (Some true) (Some true)]
           "u-1" "" "" [7]).
  constructor; [| constructor]. repeat split.
Defined.

(** X23. Without a row to read, the preferences are the defaults: a
    transactional email is refused only for a user whose one row has
    [email_notifications] set to [false], and a newsletter or marketing
    email is allowed only for a user whose one row has
    [newsletter_subscribed] set to [true].  A failed lookup, no row,
    several rows or a [null] column allow the first and refuse the
    second. *)
Theorem preferences_default_when_unknown (s : surroundings) (n : nat)
    (rows : list subscriber) (userId : string) :
  (shouldSendEmail s n rows userId transactional = false <->
   s_reply s n = Done /\
   exists u, by_id userId rows = [u] /\ sb_email_notifications u = Some false) /\
  (forall t, t <> transactional ->
     (shouldSendEmail s n rows userId t = true <->
      s_reply s n = Done /\
      exists u, by_id userId rows = [u] /\ sb_newsletter_subscribed u = Some true)).
Proof.
  split; [| intros t Ht; apply subscribed_when_sent; exact Ht].
  unfold shouldSendEmail, getUserPreferences.
  destruct (select_user (s_reply s n) rows userId) as [[u | x] | x] eqn:Hsel.
  - apply select_user_data in Hsel. destruct Hsel as [Hr Hu]. simpl. split.
    + intros H. split; [exact Hr |]. exists u. split; [exact Hu |].
      destruct (sb_email_notifications u) as [[|] |]; simpl in H; congruence.
    + intros [_ [v [Hv Hs]]]. assert (v = u) by congruence. subst v.
      rewrite Hs. reflexivity.
  - simpl. split; [discriminate |]. intros [Hr [v [Hv _]]].
    assert (Hd : select_user (s_reply s n) rows userId = Val (PgData v))
      by (apply select_user_data; auto).
    congruence.
  - simpl. split; [discriminate |]. intros [Hr [v [Hv _]]].
    assert (Hd : select_user (s_reply s n) rows userId = Val (PgData v))
      by (apply select_user_data; auto).
    congruence.
Qed.

(** *** The reminder handlers *)

Import OrderReminders.

Lemma or_lit_filled a d : d <> "" -> Js.or_lit a d <> "".
Proof.
  intros Hd. unfold Js.or_lit. destruct a as [x |]; [| exact Hd].
  destruct (String.eqb x "") eqn:E; [exact Hd |].
  apply String.eqb_neq. exact E.
Qed.

Lemma or_num_is_number v d :
  PrimFloat.is_nan d = false -> PrimFloat.is_nan (Js.or_num v d) = false.
Proof.
  intros Hd. unfold Js.or_num. destruct (Js.truthy v) eqn:E; [| exact Hd].
  destruct v as [| | x]; try discriminate. simpl in *.
  apply negb_true_iff, orb_false_iff in E. apply E.
Qed.

Lemma wishlistItem_printable item : printable (wishlistItem item).
Proof.
  unfold wishlistItem, printable. destruct (ws_product item) as [p |]; simpl.
  - split; [apply or_lit_filled; discriminate |].
    apply or_num_is_number, or_num_is_number. reflexivity.
  - split; [discriminate | reflexivity].
Qed.

Lemma by_id_has_id userId rows u : by_id userId rows = [u] -> sb_id u = userId.
Proof.
  intros H. assert (Hin : In u (by_id userId rows)) by (rewrite H; left; reflexivity).
  apply filter_In in Hin. apply String.eqb_eq, Hin.
Qed.

(** X24. What the reminder handlers answer depends on their own lookups
    only, not on what the email service did: the wishlist handler
    answers success exactly when its lookup of the user is carried out
    and finds one row and its lookup of the wishlist is carried out, the
    cart handler exactly when its lookup of the user is carried out and
    finds one row; the answer is then the same 'sent successfully'
    whatever the settings, the preferences of the user and Resend
    said. *)
Theorem reminder_answer_ignores_the_email {I} (s s' : surroundings)
    (rows : list subscriber) (wishlists : list wish) (user_id : string)
    (cart_items : option (list I)) :
  s_reply s' 0 = s_reply s 0 ->
  s_reply s' 1 = s_reply s 1 ->
  fst (sendWishlistReminder s' rows wishlists user_id) =
    fst (sendWishlistReminder s rows wishlists user_id) /\
  fst (sendCartAbandonmentReminder s' rows user_id cart_items) =
    fst (sendCartAbandonmentReminder s rows user_id cart_items) /\
  (r_success (fst (sendWishlistReminder s rows wishlists user_id)) = true <->
   (s_reply s 0 = Done /\ exists u, by_id user_id rows = [u]) /\ s_reply s 1 = Done) /\
  (r_success (fst (sendCartAbandonmentReminder s rows user_id cart_items)) = true <->
   s_reply s 0 = Done /\ exists u, by_id user_id rows = [u]).
Proof.
  intros H0 H1.
  unfold sendWishlistReminder, sendCartAbandonmentReminder, select_wishlist.
  rewrite H0, H1.
  destruct (select_user (s_reply s 0) rows user_id) as [[u | x] | x] eqn:Hsel.
  - apply select_user_data in Hsel. destruct Hsel as [Hr Hu].
    split; [destruct (s_reply s 1); reflexivity |].
    split; [reflexivity |]. split.
    + destruct (s_reply s 1); simpl; split; try discriminate;
        try (intros [_ Hd]; discriminate Hd).
      * intros _. split; [split; [exact Hr | exists u; exact Hu] | reflexivity].
      * reflexivity.
    + simpl. split; [| reflexivity].
      intros _. split; [exact Hr | exists u; exact Hu].
  - assert (Hno : ~ (s_reply s 0 = Done /\ exists u, by_id user_id rows = [u])).
    { intros [Hr [u Hu]].
      assert (Hd : select_user (s_reply s 0) rows user_id = Val (PgData u))
        by (apply select_user_data; auto).
      congruence. }
    simpl. repeat split; try reflexivity; try discriminate; tauto.
  - assert (Hno : ~ (s_reply s 0 = Done /\ exists u, by_id user_id rows = [u])).
    { intros [Hr [u Hu]].
      assert (Hd : select_user (s_reply s 0) rows user_id = Val (PgData u))
        by (apply select_user_data; auto).
      congruence. }
    simpl. repeat split; try reflexivity; try discriminate; tauto.
Qed.

Lemma reminder_answer_ignores_the_email_witness :
  let rows := [Sample9.ama None (Some true)] in
  fst (sendWishlistReminder Sample9.switched_off rows [Sample9.a_wish] "u-1") =
    fst (sendWishlistReminder Sample9.all_well rows [Sample9.a_wish] "u-1") /\
  snd (sendWishlistReminder Sample9.switched_off rows [Sample9.a_wish] "u-1") = [] /\
  List.length (snd (sendWishlistReminder Sample9.all_well rows [Sample9.a_wish] "u-1")) = 1%nat /\
  r_message (fst (sendWishlistReminder Sample9.switched_off rows [Sample9.a_wish] "u-1")) =
    "Wishlist reminder sent successfully".
Proof.
  intros rows. split; [| repeat split].
  apply (reminder_answer_ignores_the_email (I:=nat) Sample9.all_well Sample9.switched_off
           rows [Sample9.a_wish] "u-1" None); reflexivity.
Defined.

(** X25. An email that the wishlist handler has the service send goes
    to the subscribed user of the request and carries that user's own
    wishlist, which is not empty: one item for each of the user's
    wishlist rows, in their order, each with a name that is not empty
    ('Unknown Product' without one) and a price that is a number (the
    discount price when there is one, else the price, else 0). *)
Theorem reminder_carries_the_wishlist (s : surroundings) (rows : list subscriber)
    (wishlists : list wish) (user_id : string) (m : mail wishlist_item) :
  In m (snd (sendWishlistReminder s rows wishlists user_id)) ->
  for_subscriber rows user_id m /\
  wishes_of user_id wishlists <> [] /\
  exists u,
    by_id user_id rows = [u] /\
    m_html m = Template "wishlist-reminder.html" (customerName u)
                 (map wishlistItem (wishes_of user_id wishlists)) /\
    Forall printable (map wishlistItem (wishes_of user_id wishlists)).
Proof.
  unfold sendWishlistReminder.
  destruct (select_user (s_reply s 0) rows user_id) as [[u | x] | x] eqn:Hsel;
    try (intros H; exact (match H with end)).
  apply select_user_data in Hsel. destruct Hsel as [_ Hu].
  pose proof (by_id_has_id _ _ _ Hu) as Hid.
  unfold select_wishlist.
  destruct (s_reply s 1); try (intros H; exact (match H with end)).
  fold (wishes_of user_id wishlists). cbn [snd].
  destruct (wishes_of user_id wishlists) as [| w ws] eqn:Hw;
    [intros H; exact (match H with end) |].
  cbn [List.length Nat.ltb Nat.leb]. rewrite Hid. intros Hin.
  destruct (marketing_mail_for_subscriber s 2 rows user_id _
              (of_wishlist s 2 rows user_id (map wishlistItem (w :: ws))))
    as [_ Hall].
  destruct (Hall m Hin) as [_ [Hfor _]].
  split; [exact Hfor |]. split; [discriminate |].
  exists u. split; [exact Hu |]. split.
  - revert Hin. unfold EmailService.sendWishlistReminder.
    destruct (s_isEnabled s "email_notifications_enabled") as [[|] | x];
      try (intros H; exact (match H with end)).
    destruct (s_isEnabled s "email_wishlist_reminders") as [[|] | x];
      try (intros H; exact (match H with end)).
    destruct (negb (shouldSendEmail s 2 rows user_id marketing));
      try (intros H; exact (match H with end)).
    destruct (select_user (s_reply s 3) rows user_id) as [[v | x] | x] eqn:Hsel;
      try (intros H; exact (match H with end)).
    apply select_user_data in Hsel. destruct Hsel as [_ Hv].
    assert (v = u) by congruence. subst v.
    destruct (s_readFileSync s "wishlist-reminder.html");
      try (intros H; exact (match H with end)).
    intros [<- | []]. reflexivity.
  - apply Forall_forall. intros i Hi. apply in_map_iff in Hi.
    destruct Hi as [w' [<- _]]. apply wishlistItem_printable.
Qed.

Lemma reminder_carries_the_wishlist_witness :
  let rows := [Sample9.kofi; Sample9.ama (Some false) (Some true)] in
  exists m,
    snd (sendWishlistReminder Sample9.all_well rows [Sample9.a_wish] "u-1") = [m] /\
    m_to m = Some "ama@example.com" /\
    wishes_of "u-1" [Sample9.a_wish] <> [].
Proof.
  intros rows.
  exists {| m_to := Some "ama@example.com";
            m_subject := "Items in your wishlist are waiting!";
            m_html := Template "wishlist-reminder.html" "Ama"
                        [{| product_name := "Phone"; product_description := "";
                            product_price := 100%float |}];
            m_useSupportEmail := false |}.
  split; [reflexivity |]. split; [reflexivity |].
  apply (reminder_carries_the_wishlist Sample9.all_well rows [Sample9.a_wish] "u-1"
           {| m_to := Some "ama@example.com";
              m_subject := "Items in your wishlist are waiting!";
              m_html := Template "wishlist-reminder.html" "Ama"
                          [{| product_name := "Phone"; product_description := "";
                              product_price := 100%float |}];
              m_useSupportEmail := false |}).
  simpl. left. reflexivity.
Defined.

(* ------------------------------------------------------------------ *)
(** ** Listing orders *)
(* ------------------------------------------------------------------ *)

Import OrderListing.

Lemma insert_newest_perm o l : Permutation (insert_newest o l) (o :: l).
Proof.
  induction l as [| x r IH]; simpl; [apply Permutation_refl |].
  destruct (o_created_at x <=? o_created_at o)%Z; [apply Permutation_refl |].
  apply perm_trans with (x :: o :: r); [apply perm_skip; exact IH | apply perm_swap].
Qed.

Lemma newest_first_perm l : Permutation (newest_first l) l.
Proof.
  induction l as [| o l IH]; simpl; [constructor |].
  apply perm_trans with (o :: newest_first l);
    [apply insert_newest_perm | apply perm_skip; exact IH].
Qed.

Lemma insert_newest_sorted o l :
  StronglySorted not_older l -> StronglySorted not_older (insert_newest o l).
Proof.
  induction 1 as [| x r Hr IH Hx]; simpl.
  - constructor; constructor.
  - destruct (o_created_at x <=? o_created_at o)%Z eqn:E.
    + apply Z.leb_le in E. constructor; [constructor; assumption |].
      constructor; [exact E |].
      apply Forall_impl with (2 := Hx). unfold not_older. intros; lia.
    + apply Z.leb_gt in E. constructor; [exact IH |].
      apply Permutation_Forall with (o :: r);
        [apply Permutation_sym, insert_newest_perm |].
      constructor; [unfold not_older; lia | exact Hx].
Qed.

Lemma newest_first_sorted l : StronglySorted not_older (newest_first l).
Proof.
  induction l as [| o l IH]; simpl; [constructor |].
  apply insert_newest_sorted, IH.
Qed.

(** X26. When its query is carried out, [getAllOrders] answers 200 and
    changes nothing.  With a non-empty [user_id] it lists the orders of
    that user, each once, and no other; with none, or with an empty one,
    it lists every order of the table.  The list runs from the newest
    order to the oldest, and every entry comes with its user, its items
    and the pre-order fields read from the row or from its shipping
    address. *)
Theorem getAllOrders_lists_newest_first (user_id : option string) (e : env) (w : world) :
  e_reply e (w_tick w) = Done ->
  exists data,
    getAllOrders user_id e w = (Val (found data), asked w) /\
    Permutation (map listed data)
      (match user_id with
       | Some id => if String.eqb id "" then orders (w_db w) else of_user id (w_db w)
       | None => orders (w_db w)
       end) /\
    StronglySorted not_older (map listed data) /\
    Forall (fun j => j = with_pre_order_fields (OrderController.view (w_db w) (listed j)))
      data.
Proof.
  intros Hdone.
  exists (map with_pre_order_fields
            (map (OrderController.view (w_db w)) (newest_first (selected user_id (w_db w))))).
  assert (Hrows : map listed
                    (map with_pre_order_fields
                       (map (OrderController.view (w_db w))
                          (newest_first (selected user_id (w_db w))))) =
                  newest_first (selected user_id (w_db w))).
  { rewrite !map_map. apply map_id. }
  split; [| split; [| split]].
  - unfold getAllOrders, caught, try_catch, bind. rewrite query_run, Hdone. reflexivity.
  - rewrite Hrows.
    apply perm_trans with (selected user_id (w_db w)); [apply newest_first_perm |].
    unfold selected, Js.truthy_str. destruct user_id as [id |]; [| apply Permutation_refl].
    destruct (String.eqb id ""); apply Permutation_refl.
  - rewrite Hrows. apply newest_first_sorted.
  - rewrite !Forall_map. apply Forall_forall. intros o _. reflexivity.
Qed.

Lemma getAllOrders_lists_newest_first_witness :
  (exists data,
     getAllOrders (Some "u-1") Sample.env_ok (start Sample10.ledger) =
       (Val (found data), asked (start Sample10.ledger)) /\
     Permutation (map listed data) (of_user "u-1" Sample10.ledger)) /\
  Sample10.ids_of (fst (getAllOrders (Some "u-1") Sample.env_ok (start Sample10.ledger))) =
    ["o3"; "o1"] /\
  Sample10.ids_of (fst (getAllOrders (Some "") Sample.env_ok (start Sample10.ledger))) =
    ["o4"; "o3"; "o2"; "o1"].
Proof.
  split; [| split; vm_compute; reflexivity].
  destruct (getAllOrders_lists_newest_first (Some "u-1") Sample.env_ok
              (start Sample10.ledger) eq_refl) as [data [Hrun [Hperm _]]].
  exists data. split; [exact Hrun | exact Hperm].
Defined.

(* ------------------------------------------------------------------ *)
(** ** Strings outside ASCII *)
(* ------------------------------------------------------------------ *)

(** Letters outside ASCII are compared as [toLowerCase] maps them: with
    the case mapping of Latin-1 the guest whose email begins with a small
    e with an acute accent cancels the order with the email in capital
    letters, and tracks it. *)
Lemma accented_email_is_verified :
  map o_status
    (orders (db_after (cancelOrder "o1" Sample12.by_EMILE) Sample12.env_latin1
               (start (Sample.shop_with Sample12.of_emile))))
  = ["cancelled"] /\
  option_map q_status
    (match fst (trackOrder
                  (Sample7.ask_for "o1"
                     (Sample12.nbsp ++ Sample12.E_acute ++ "MILE@example.com ")%string)
                  Sample12.env_latin1 (start (Sample.shop_with Sample12.of_emile))) with
     | Val r => Some r
     | Exn _ => None
     end) = Some 200.
Proof. vm_compute. split; reflexivity. Qed.

(** A product id that is a no-break space is blank: the request is
    answered 400 before any call. *)
Lemma no_break_space_is_no_product_id :
  createOrder Sample12.blank_id_request Sample.env_ok (start Sample.shop)
  = (Val (failure 400 "Some order items have invalid product IDs"
            (Some "INVALID_PRODUCT_IDS")),
     start Sample.shop).
Proof. vm_compute. reflexivity. Qed.
